(** * snippy: the fault-injection helper [chaos.py]

    A shallow embedding of [src/chaos.py] and of the Python built-ins it
    calls, followed by the properties of the injector.

    - [os.environ] is a finite map from names to strings.
    - Python [float] values are IEEE 754 binary64 numbers, taken from the
      Standard Library's [SpecFloat] (precision 53, [emax] 1024).
    - Python [int] values are unbounded: [Z].
    - [inject_chaos_if_enabled] reads the environment, draws from the
      random-number source, logs, sleeps and raises: it is written in a
      state-and-exception monad over a record [world].

    Strings are byte strings, as Rocq has them; the models of [str.lower],
    [int] and [float] follow CPython on ASCII text. *)

From Stdlib Require Import ZArith Lia List String Ascii Bool.
From Stdlib Require Import Floats.SpecFloat.
From stdpp Require Import base gmap strings.
Import ListNotations.

Open Scope Z_scope.

(** ** Exceptions and results *)

(** The exceptions that can leave [chaos.py]: the two raised by the
    built-ins ([ValueError] by [int] and [float], [OverflowError] by the
    conversion of a large [int] to [float]), and the module's own
    [ChaosException], which carries its message. *)
Inductive exn : Type :=
| ValueError
| OverflowError
| ChaosException (msg : string).

Inductive outcome (A : Type) : Type :=
| Return (a : A)
| Raise (e : exn).

Arguments Return {A} a.
Arguments Raise {A} e.

(** ** Binary64 *)

Definition float : Type := spec_float.

Module Float.

Definition prec : Z := 53.
Definition emax : Z := 1024.

Definition zero : float := S754_zero false.
Definition one : float := S754_finite false 4503599627370496 (-52).

Definition ltb (x y : float) : bool := SFltb x y.
Definition leb (x y : float) : bool := SFleb x y.
Definition eqb (x y : float) : bool := SFeqb x y.
Definition mul (x y : float) : float := SFmul prec emax x y.
Definition add (x y : float) : float := SFadd prec emax x y.

Definition valid (x : float) : bool := valid_binary prec emax x.

Definition is_finite (x : float) : bool :=
  match x with
  | S754_zero _ | S754_finite _ _ _ => true
  | S754_infinity _ | S754_nan => false
  end.

(** [float(n)] for a Python [int]: round to nearest, ties to even;
    CPython raises [OverflowError] when the result is not finite. *)
Definition of_int (n : Z) : outcome float :=
  let x := binary_normalize prec emax n 0 false in
  if is_finite x then Return x else Raise OverflowError.

(** The float nearest to [(-1)^neg * m * 10^k], for [0 <= m]. *)
Definition of_decimal (neg : bool) (m k : Z) : float :=
  match m with
  | Z0 => S754_zero neg
  | Zneg _ => S754_nan
  | Zpos _ =>
      if 0 <=? k then
        binary_normalize prec emax ((if neg then Z.opp else id) (m * 10 ^ k)) 0 false
      else
        let '(q, e, l) := SFdiv_core_binary prec emax m 0 (10 ^ (- k)) 0 in
        binary_round_aux prec emax neg q e l
  end.

(** Exact comparisons of a float with an integer, as Python's [<=]
    between a [float] and an [int] makes them. *)
Definition le_int (x : float) (n : Z) : bool :=
  match x with
  | S754_zero _ => 0 <=? n
  | S754_infinity s => s
  | S754_nan => false
  | S754_finite true m e =>
      if 0 <=? e then - (Zpos m * 2 ^ e) <=? n else - Zpos m <=? n * 2 ^ (- e)
  | S754_finite false m e =>
      if 0 <=? e then Zpos m * 2 ^ e <=? n else Zpos m <=? n * 2 ^ (- e)
  end.

Definition int_le (n : Z) (x : float) : bool :=
  match x with
  | S754_zero _ => n <=? 0
  | S754_infinity s => negb s
  | S754_nan => false
  | S754_finite true m e =>
      if 0 <=? e then n <=? - (Zpos m * 2 ^ e) else n * 2 ^ (- e) <=? - Zpos m
  | S754_finite false m e =>
      if 0 <=? e then n <=? Zpos m * 2 ^ e else n * 2 ^ (- e) <=? Zpos m
  end.

End Float.

(** ** Python strings *)

Definition ord (c : ascii) : Z := Z.of_N (N_of_ascii c).
Definition chr (n : Z) : ascii := ascii_of_N (Z.to_N n).

(** [Py_ISSPACE]: tab, line feed, vertical tab, form feed, carriage
    return and space. *)
Definition is_space (c : ascii) : bool :=
  ((9 <=? ord c) && (ord c <=? 13)) || (ord c =? 32).

Definition is_digit (c : ascii) : bool := (48 <=? ord c) && (ord c <=? 57).
Definition digit_value (c : ascii) : Z := ord c - 48.

Definition lower_char (c : ascii) : ascii :=
  if (65 <=? ord c) && (ord c <=? 90) then chr (ord c + 32) else c.

(** [str.lower] *)
Fixpoint lower (s : string) : string :=
  match s with
  | EmptyString => EmptyString
  | String c t => String (lower_char c) (lower t)
  end.

Fixpoint lstrip (cs : list ascii) : list ascii :=
  match cs with
  | c :: t => if is_space c then lstrip t else cs
  | [] => []
  end.

Definition rstrip (cs : list ascii) : list ascii := rev (lstrip (rev cs)).

(** [s in (a, b, ...)] for strings *)
Fixpoint str_in (s : string) (l : list string) : bool :=
  match l with
  | [] => false
  | x :: t => String.eqb s x || str_in s t
  end.

Fixpoint is_prefix (p s : list ascii) : bool :=
  match p, s with
  | [], _ => true
  | a :: p', b :: s' => Ascii.eqb a b && is_prefix p' s'
  | _ :: _, [] => false
  end.

Fixpoint contains_chars (s sub : list ascii) : bool :=
  is_prefix sub s ||
  match s with
  | [] => false
  | _ :: t => contains_chars t sub
  end.

(** [sub in s] for strings *)
Definition contains (s sub : string) : bool :=
  contains_chars (list_ascii_of_string s) (list_ascii_of_string sub).

Definition NUL : ascii := Ascii.zero.

(** ** The built-in [int] on a string (base 10) *)

Definition take_sign (cs : list ascii) : bool * list ascii :=
  match cs with
  | "-"%char :: t => (true, t)
  | "+"%char :: t => (false, t)
  | _ => (false, cs)
  end.

(** The digit scan of [PyLong_FromString]: digits and single
    underscores; two underscores in a row or one at the end are refused.
    Returns the value, the number of digits and what follows. *)
Fixpoint scan_digits (prev : ascii) (acc : Z) (n : nat) (cs : list ascii)
  : option (Z * nat * list ascii) :=
  match cs with
  | c :: t =>
      if is_digit c then scan_digits c (10 * acc + digit_value c) (S n) t
      else if Ascii.eqb c "_" then
        if Ascii.eqb prev "_" then None else scan_digits c acc n t
      else if Ascii.eqb prev "_" then None else Some (acc, n, cs)
  | [] => if Ascii.eqb prev "_" then None else Some (acc, n, [])
  end.

(** [sys.get_int_max_str_digits()], at its default: a longer decimal
    string is refused. *)
Definition int_max_str_digits : nat := 4300.

Definition py_int (s : string) : outcome Z :=
  let '(neg, cs) := take_sign (lstrip (list_ascii_of_string s)) in
  match cs with
  | "_"%char :: _ => Raise ValueError
  | _ =>
      match scan_digits NUL 0 0%nat cs with
      | Some (v, n, rest) =>
          match n, lstrip rest with
          | S _, [] =>
              if (int_max_str_digits <? n)%nat then Raise ValueError
              else Return (if neg then - v else v)
          | _, _ => Raise ValueError
          end
      | None => Raise ValueError
      end
  end.

(** ** The built-in [float] on a string *)

(** Underscores are allowed between two digits only; they are removed
    before the number is read. *)
Fixpoint strip_underscores (prev : ascii) (cs : list ascii) : option (list ascii) :=
  match cs with
  | c :: t =>
      if Ascii.eqb c "_" then
        if is_digit prev then strip_underscores c t else None
      else if Ascii.eqb prev "_" && negb (is_digit c) then None
      else option_map (cons c) (strip_underscores c t)
  | [] => if Ascii.eqb prev "_" then None else Some []
  end.

Fixpoint span_digits (cs : list ascii) : list ascii * list ascii :=
  match cs with
  | c :: t =>
      if is_digit c then let '(ds, r) := span_digits t in (c :: ds, r)
      else ([], cs)
  | [] => ([], [])
  end.

Definition digits_value (ds : list ascii) : Z :=
  fold_left (fun acc c => 10 * acc + digit_value c) ds 0.

(** The exponent part: [e] or [E], an optional sign, at least one digit;
    when no digit follows nothing is consumed. *)
Definition parse_exponent (cs : list ascii) : Z * list ascii :=
  match cs with
  | c :: t =>
      if Ascii.eqb (lower_char c) "e" then
        let '(eneg, t1) := take_sign t in
        match span_digits t1 with
        | ([], _) => (0, cs)
        | (ds, t2) => (if eneg then - digits_value ds else digits_value ds, t2)
        end
      else (0, cs)
  | [] => (0, [])
  end.

(** [_Py_dg_strtod]: sign, digits, optional point and digits, optional
    exponent. [None] when there is no digit at all. *)
Definition dg_strtod (cs : list ascii) : option (float * list ascii) :=
  let '(neg, r) := take_sign cs in
  let '(ip, r1) := span_digits r in
  let '(fp, r2) :=
    match r1 with
    | "."%char :: t => span_digits t
    | _ => ([], r1)
    end in
  match ip ++ fp with
  | [] => None
  | ds =>
      let '(ex, r3) := parse_exponent r2 in
      Some (Float.of_decimal neg (digits_value ds) (ex - Z.of_nat (length fp)), r3)
  end.

Definition lower_chars (cs : list ascii) : list ascii := map lower_char cs.

(** [_Py_parse_inf_or_nan] *)
Definition parse_inf_or_nan (cs : list ascii) : option (float * list ascii) :=
  let '(neg, r) := take_sign cs in
  let inf := list_ascii_of_string "inf" in
  let inity := list_ascii_of_string "inity" in
  let nan := list_ascii_of_string "nan" in
  if is_prefix inf (lower_chars r) then
    let r1 := skipn 3 r in
    Some (S754_infinity neg,
          if is_prefix inity (lower_chars r1) then skipn 5 r1 else r1)
  else if is_prefix nan (lower_chars r) then Some (S754_nan, skipn 3 r)
  else None.

Definition py_float (s : string) : outcome float :=
  match strip_underscores NUL (list_ascii_of_string s) with
  | None => Raise ValueError
  | Some cs0 =>
      let cs := rstrip (lstrip cs0) in
      match dg_strtod cs with
      | Some (x, []) => Return x
      | Some (_, _ :: _) => Raise ValueError
      | None =>
          match parse_inf_or_nan cs with
          | Some (x, []) => Return x
          | _ => Raise ValueError
          end
      end
  end.

(** ** The configuration *)

(** The dictionary returned by [get_chaos_config]: three fixed keys. *)
Record chaos_config : Type := {
  CHAOS_ENABLED : bool;
  CHAOS_INJECT_ERROR_RATE : float;
  CHAOS_DELAY_SECONDS_MAX : Z
}.

#[global] Instance outcome_ret : MRet outcome := fun A a => Return a.
#[global] Instance outcome_bind : MBind outcome := fun A B f m =>
  match m with
  | Return a => f a
  | Raise e => Raise e
  end.

(** [os.environ.get(key, default)] *)
Definition environ_get (env : gmap string string) (key dflt : string) : string :=
  default dflt (env !! key).

(** The entries of the dictionary literal are evaluated in order; the
    first built-in that fails raises. *)
Definition get_chaos_config (env : gmap string string) : outcome chaos_config :=
  let enabled :=
    str_in (lower (environ_get env "CHAOS_ENABLED" "false")) ["true"; "1"; "yes"] in
  error_rate ← py_float (environ_get env "CHAOS_INJECT_ERROR_RATE" "0.1");
  max_delay ← py_int (environ_get env "CHAOS_DELAY_SECONDS_MAX" "5");
  mret {| CHAOS_ENABLED := enabled;
          CHAOS_INJECT_ERROR_RATE := error_rate;
          CHAOS_DELAY_SECONDS_MAX := max_delay |}.

(** ** The world of the injector *)

(** Values passed to the logger: the arguments of the [%]-format and the
    entries of the [extra] dictionary. *)
Inductive py_value : Type :=
| PyBool (b : bool)
| PyInt (n : Z)
| PyFloat (x : float)
| PyStr (s : string)
| PyDict (c : chaos_config).

(** One call of [logger.warning(msg, *args, extra=...)]. *)
Record log_record : Type := {
  levelname : string;
  msg : string;
  args : list py_value;
  extra : gmap string py_value
}.

(** What the injector reads and what it changes: the process
    environment, the random-number source (the sample handed out by its
    [n]-th draw, and how many draws were made), the records given to the
    logger and the arguments of the calls of [asyncio.sleep], both oldest
    first. *)
Record world : Type := {
  environ : gmap string string;
  rng : nat → float;
  draws : nat;
  log : list log_record;
  sleeps : list float
}.

(** Computations that read and change the world and may raise: the
    exception leaves with the world as it was when it was raised. *)
Definition M (A : Type) : Type := world → outcome A * world.

#[global] Instance M_ret : MRet M := fun A a w => (Return a, w).
#[global] Instance M_bind : MBind M := fun A B f m w =>
  match m w with
  | (Return a, w') => f a w'
  | (Raise e, w') => (Raise e, w')
  end.

Definition raise {A : Type} (e : exn) : M A := fun w => (Raise e, w).

(** A built-in that touches nothing but may raise. *)
Definition lift {A : Type} (o : outcome A) : M A := fun w => (o, w).

Definition read_environ : M (gmap string string) := fun w => (Return (environ w), w).

(** The world after one more draw, one more record, one more sleep. *)
Definition drawn (w : world) : world :=
  {| environ := environ w; rng := rng w; draws := S (draws w);
     log := log w; sleeps := sleeps w |}.

Definition logged (r : log_record) (w : world) : world :=
  {| environ := environ w; rng := rng w; draws := draws w;
     log := log w ++ [r]; sleeps := sleeps w |}.

Definition slept (d : float) (w : world) : world :=
  {| environ := environ w; rng := rng w; draws := draws w;
     log := log w; sleeps := sleeps w ++ [d] |}.

(** [random.random()]: the next sample of the source. *)
Definition random_random : M float := fun w => (Return (rng w (draws w)), drawn w).

(** [random.uniform(a, b)] on two [int]s, which CPython defines as
    [a + (b - a) * self.random()]: the sample is drawn first, then each
    [int] operand is converted to [float] by the arithmetic. *)
Definition random_uniform (a b : Z) : M float :=
  u ← random_random;
  width ← lift (Float.of_int (b - a));
  let scaled := Float.mul width u in
  low ← lift (Float.of_int a);
  mret (Float.add low scaled).

(** [logger.warning(...)]: the record is handed to the logger, whatever
    the handlers then do with it. *)
Definition logger_warning (r : log_record) : M unit := fun w => (Return tt, logged r w).

(** [await asyncio.sleep(d)] *)
Definition asyncio_sleep (d : float) : M unit := fun w => (Return tt, slept d w).

(** ** The injector *)

Definition error_message : string := "Chaos engineering: simulated service failure".

Definition error_record (probability : float) (config : chaos_config) : log_record :=
  let error_rate := CHAOS_INJECT_ERROR_RATE config in
  let max_delay := CHAOS_DELAY_SECONDS_MAX config in
  {| levelname := "WARNING";
     msg := "CHAOS[error]: Injecting failure - probability=%.3f < error_rate=%.3f, env_values={CHAOS_ENABLED=%s, CHAOS_INJECT_ERROR_RATE=%.3f, CHAOS_DELAY_SECONDS_MAX=%d}";
     args := [PyFloat probability; PyFloat error_rate; PyBool (CHAOS_ENABLED config);
              PyFloat error_rate; PyInt max_delay];
     extra := {[ "event_type" := PyStr "error";
                 "probability" := PyFloat probability;
                 "error_rate" := PyFloat error_rate;
                 "chaos_config" := PyDict config ]} |}.

Definition delay_record (delay_seconds probability : float) (config : chaos_config)
  : log_record :=
  let error_rate := CHAOS_INJECT_ERROR_RATE config in
  let max_delay := CHAOS_DELAY_SECONDS_MAX config in
  {| levelname := "WARNING";
     msg := "CHAOS[delay]: Injecting delay - delay_seconds=%.3f, probability=%.3f >= error_rate=%.3f, env_values={CHAOS_ENABLED=%s, CHAOS_INJECT_ERROR_RATE=%.3f, CHAOS_DELAY_SECONDS_MAX=%d}";
     args := [PyFloat delay_seconds; PyFloat probability; PyFloat error_rate;
              PyBool (CHAOS_ENABLED config); PyFloat error_rate; PyInt max_delay];
     extra := {[ "event_type" := PyStr "delay";
                 "delay_seconds" := PyFloat delay_seconds;
                 "probability" := PyFloat probability;
                 "error_rate" := PyFloat error_rate;
                 "chaos_config" := PyDict config ]} |}.

Definition inject_chaos_if_enabled : M unit :=
  env ← read_environ;
  config ← lift (get_chaos_config env);
  if negb (CHAOS_ENABLED config) then mret tt
  else
    probability ← random_random;
    let error_rate := CHAOS_INJECT_ERROR_RATE config in
    let max_delay := CHAOS_DELAY_SECONDS_MAX config in
    _ ← (if Float.ltb probability error_rate then
           _ ← logger_warning (error_record probability config);
           raise (ChaosException error_message)
         else mret tt);
    if 0 <? max_delay then
      delay_seconds ← random_uniform 0 max_delay;
      _ ← logger_warning (delay_record delay_seconds probability config);
      asyncio_sleep delay_seconds
    else mret tt.

(** ** Vocabulary of the properties *)

(** A sample of [random.random()]: a binary64 number in [[0, 1)]. *)
Definition unit_interval (p : float) : bool :=
  Float.valid p && Float.leb Float.zero p && Float.ltb p Float.one.

(** *** Worlds *)

(** A fresh process: nothing drawn, logged or slept yet. *)
Definition initial_world (env : gmap string string) (source : nat → float) : world :=
  {| environ := env; rng := source; draws := 0; log := []; sleeps := [] |}.

(** [os.environ[key] = value] before the call. *)
Definition setenv (key value : string) (w : world) : world :=
  {| environ := <[key := value]> (environ w); rng := rng w; draws := draws w;
     log := log w; sleeps := sleeps w |}.

(** The environments of the test-suite: the three variables set, nothing
    else. *)
Definition patch_env (enabled error_rate delay_max : string) : gmap string string :=
  <["CHAOS_ENABLED" := enabled]>
    (<["CHAOS_INJECT_ERROR_RATE" := error_rate]>
       (<["CHAOS_DELAY_SECONDS_MAX" := delay_max]> ∅)).

(** *** Observations of a run *)

Definition raises_chaos {A : Type} (o : outcome A) : bool :=
  match o with
  | Raise (ChaosException _) => true
  | _ => false
  end.

Definition event_type (r : log_record) : option py_value := extra r !! "event_type".

Definition is_event (kind : string) (r : log_record) : bool :=
  match event_type r with
  | Some (PyStr s) => String.eqb s kind
  | _ => false
  end.

Definition no_event (kind : string) (l : list log_record) : bool :=
  forallb (fun r => negb (is_event kind r)) l.

(** The records and the sleeps a run added to those of the world it
    started from. *)
Definition new_log (w w' : world) : list log_record := skipn (length (log w)) (log w').
Definition new_sleeps (w w' : world) : list float := skipn (length (sleeps w)) (sleeps w').

(** What a caller observes of a run: its result, the number of samples
    drawn, the kinds of the events logged and the sleeps. *)
Definition behaviour (run : outcome unit * world)
  : outcome unit * nat * list (option py_value) * list float :=
  (fst run, draws (snd run), map event_type (log (snd run)), sleeps (snd run)).

(** The delay branch as the specification describes it: the call returns
    after a second draw, one logged delay event and exactly one call of
    [asyncio.sleep], whose argument [d] satisfies [0 <= d <= D]. *)
Definition delay_injected (w : world) (config : chaos_config) : Prop :=
  ∃ d : float,
    inject_chaos_if_enabled w =
      (Return tt,
       slept d (logged (delay_record d (rng w (draws w)) config) (drawn (drawn w))))
    ∧ Float.int_le 0 d = true
    ∧ Float.le_int d (CHAOS_DELAY_SECONDS_MAX config) = true.

(** *** Case-insensitive comparison, character by character *)

(** The values that enable the injector. *)
Definition truthy : list string := ["true"; "1"; "yes"].

Definition is_alpha (c : ascii) : bool :=
  ((65 <=? ord c) && (ord c <=? 90)) || ((97 <=? ord c) && (ord c <=? 122)).

(** Two characters are the same letter up to case. *)
Definition same_letter (a b : ascii) : bool :=
  Ascii.eqb a b || (is_alpha a && is_alpha b && (Z.abs (ord a - ord b) =? 32)).

Fixpoint eq_ignore_case (s t : string) : bool :=
  match s, t with
  | EmptyString, EmptyString => true
  | String a s', String b t' => same_letter a b && eq_ignore_case s' t'
  | _, _ => false
  end.

Definition all_ascii : list ascii := map ascii_of_nat (seq 0 256).

(** *** Constants *)

(** Binary64 numbers: [0.1] (the nearest to one tenth), [0.25], [0.5],
    [1.5] and [-0.5]. *)
Definition tenth : float := S754_finite false 7205759403792794 (-56).
Definition quarter : float := S754_finite false 4503599627370496 (-54).
Definition half : float := S754_finite false 4503599627370496 (-53).

(** The decimal writing of [10^309], an integer above every finite
    binary64 number. *)
Definition ten_pow_309 : string :=
  "1000000000000000000000000000000000000000000000000000000000000000000000000000000000000000000000000000000000000000000000000000000000000000000000000000000000000000000000000000000000000000000000000000000000000000000000000000000000000000000000000000000000000000000000000000000000000000000000000000000000000000000000".

(** *** Tactics *)

(** The exponent test at the end of [binary_round_aux], for an exponent
    known to be at most [emax - prec]. *)
Ltac exponent_in_range e :=
  let H := fresh in
  assert ((e <=? Float.emax - Float.prec) = true) as H
    by (apply Z.leb_le; change (Float.emax - Float.prec) with 971; lia);
  rewrite H; clear H.

(** ** Further vocabulary of the injector *)

(** [x < n] between a [float] and an [int], as Python compares them:
    exactly. *)
Definition lt_int (x : float) (n : Z) : bool :=
  match x with
  | S754_zero _ => 0 <? n
  | S754_infinity s => s
  | S754_nan => false
  | S754_finite true m e =>
      if 0 <=? e then - (Zpos m * 2 ^ e) <? n else - Zpos m <? n * 2 ^ (- e)
  | S754_finite false m e =>
      if 0 <=? e then Zpos m * 2 ^ e <? n else Zpos m <? n * 2 ^ (- e)
  end.

(** A value with a whitespace character in it. *)
Definition has_space (s : string) : bool := existsb is_space (list_ascii_of_string s).

(** Two worlds that differ at most in their environment. *)
Definition same_but_environ (w1 w2 : world) : Prop :=
  rng w1 = rng w2 ∧ draws w1 = draws w2 ∧ log w1 = log w2 ∧ sleeps w1 = sleeps w2.

(** The values of a rate that are not numbers of the line. *)
Definition nan : float := S754_nan.
Definition infinity : float := S754_infinity false.

(** * The stock picker agent

    [generate_stock_analysis] of [agents/stock_picker.py] talks to the
    Azure AI Agents service. A run of it is modelled against a script of
    the service: what each call of the SDK replies, in the order of the
    calls. The run produces the trace of its effects, the calls of the SDK
    and the records given to the logger, oldest first. Strings are
    strings of bytes. *)

Module StockPicker.

(** ** Exceptions and results *)

(** The exceptions the function raises itself ([KeyError] from
    [os.environ[...]], [AttributeError] and [IndexError] from reading the
    replies, [Exception] for a failed run) and whatever the SDK raises,
    all of them instances of [Exception]. *)
Inductive error : Type :=
| KeyError (key : string)
| AttributeError
| IndexError
| Exception (message : string)
| SdkError (message : string).

(** The result of a run with a bound on the number of polls: the bound
    is the fuel of the [while True] loop, and [Polling] says that the loop
    is still running when it is used up. *)
Inductive result (A : Type) : Type :=
| Returned (a : A)
| Raised (e : error)
| Polling.

Arguments Returned {A} a.
Arguments Raised {A} e.
Arguments Polling {A}.

(** ** The objects of the SDK *)

Record agent : Type := { agent_id : string; agent_name : string }.

Record thread : Type := { thread_id : string }.

(** [tool_call.id], [tool_call.function.name],
    [tool_call.function.arguments] *)
Record tool_call : Type := {
  call_id : string;
  function_name : string;
  function_arguments : string
}.

(** [run.id], [run.status]; [required_action] is [None] or holds the
    list [run.required_action.submit_tool_outputs.tool_calls]. *)
Record run : Type := {
  run_id : string;
  run_status : string;
  required_action : option (list tool_call)
}.

(** An item of [message.content]: a text with its [text.value], or an
    item without a [text] attribute. *)
Inductive content_item : Type :=
| TextContent (value : string)
| ImageFileContent.

Record message : Type := { content : list content_item }.

(** The dictionary appended to [tool_outputs]. *)
Record tool_output : Type := { tool_call_id : string; output : string }.

(** ** The trace *)

(** The arguments of a log record. *)
Inductive value : Type :=
| VInt (n : nat)
| VStr (s : string)
| VRun (r : run)
| VError (e : error).

(** A record given to the logger, a context manager entered or left, or
    a call of the SDK with its arguments. *)
Inductive event : Type :=
| Log (levelname msg : string) (args : list value) (exc_info : bool)
| EnterCredential
| ExitCredential
| EnterClient (conn_str : string)
| ExitClient
| NewFunctionTool
| CreateAgent (name description instructions model : string)
| CreateThread
| CreateMessage (thread role content : string)
| CreateRun (thread agent : string)
| GetRun (thread run : string)
| Execute (call : tool_call)
| SubmitToolOutputs (thread run : string) (tool_outputs : list tool_output)
| ListMessages (thread : string).

(** ** The script of the service *)

Inductive reply (A : Type) : Type :=
| Reply (a : A)
| Fault (e : error).

Arguments Reply {A} a.
Arguments Fault {A} e.

(** What the SDK replies: [DefaultAzureCredential()] and its
    [__aenter__]; [AIProjectClient.from_connection_string] and its
    [__aenter__]; the calls on [project_client.agents]; [functions.execute].
    [create_message] is indexed by the number of messages created before,
    [get_run] by the number of polls made before,
    [submit_tool_outputs_to_run] by the poll it answers, [execute] by the
    number of tool calls executed before. The [__aexit__] of the two
    context managers neither raises nor swallows an exception. *)
Record sdk : Type := {
  credential : reply unit;
  project_client : string → reply unit;
  create_agent : reply agent;
  create_thread : reply thread;
  create_message : nat → reply unit;
  create_run : reply run;
  get_run : nat → reply run;
  execute : nat → tool_call → reply string;
  submit_tool_outputs_to_run : nat → reply unit;
  list_messages : reply (list message)
}.

(** ** Runs *)

(** A computation gives its result and the events it produced. *)
Definition Run (A : Type) : Type := result A * list event.

#[global] Instance Run_ret : MRet Run := fun A a => (Returned a, []).
#[global] Instance Run_bind : MBind Run := fun A B f c =>
  match c with
  | (Returned a, evs) => let '(r, evs') := f a in (r, evs ++ evs')
  | (Raised e, evs) => (Raised e, evs)
  | (Polling, evs) => (Polling, evs)
  end.

Definition raise {A : Type} (e : error) : Run A := (Raised e, []).

(** [await] of a call of the SDK: the call is made, then its reply
    returns or raises. *)
Definition await {A : Type} (call : event) (r : reply A) : Run A :=
  match r with
  | Reply a => (Returned a, [call])
  | Fault e => (Raised e, [call])
  end.

Definition logger_info (msg : string) (args : list value) : Run unit :=
  (Returned tt, [Log "INFO" msg args false]).

Definition logger_error (msg : string) (args : list value) (exc_info : bool) : Run unit :=
  (Returned tt, [Log "ERROR" msg args exc_info]).

(** [os.environ[key]] *)
Definition environ_item (env : gmap string string) (key : string) : Run string :=
  match env !! key with
  | Some v => mret v
  | None => raise (KeyError key)
  end.

(** [async with manager as x: body]: when entering raises, the body is
    not run; otherwise the manager is left when the body returns and when
    it raises. *)
Definition async_with {A : Type} (enter : reply unit) (entered exited : event)
    (body : Run A) : Run A :=
  match enter with
  | Fault e => raise e
  | Reply _ =>
      match body with
      | (Polling, evs) => (Polling, entered :: evs)
      | (r, evs) => (r, entered :: evs ++ [exited])
      end
  end.

(** [try: body except Exception as e: handler(e); raise] *)
Definition try_except_reraise {A : Type} (body : Run A) (handler : error → Run unit)
  : Run A :=
  match body with
  | (Raised e, evs) => (Raised e, evs ++ snd (handler e))
  | c => c
  end.

(** The truth of a [str]: it is not empty. *)
Definition truth (s : string) : bool :=
  match s with
  | EmptyString => false
  | String _ _ => true
  end.

(** ** The function *)

Definition _STOCK_PICKER_SYSTEM_PROMPT : string := "
You are StockPickerPro, an autonomous financial analysis agent whose task is to
analyze financial and investment-related code snippets to generate comprehensive
stock analysis and investment recommendations.

You have access to a vector_search tool that can find relevant code snippets in the database.

Your task is to:
1. Perform a SINGLE vector search to find relevant code snippets related to financial analysis, 
   trading algorithms, or investment strategies
2. Analyze ALL financial patterns and methodologies found in the code
3. Generate a comprehensive stock analysis report in Markdown format

The analysis should include:
1. Executive Summary of findings and recommendations
2. Technical Analysis based on patterns found in the code
3. Risk Assessment and portfolio considerations
4. Investment Strategy recommendations
5. Code-based insights (algorithms, financial models, data sources used)
6. Market Timing considerations if applicable
7. Performance metrics and backtesting results if available
8. Diversification recommendations
9. Risk management strategies
10. Action items and next steps

For each section, provide:
- Clear, actionable insights
- Evidence from the code snippets analyzed
- Specific recommendations with rationale
- Risk/reward considerations

IMPORTANT: 
- Use vector_search only ONCE to get a comprehensive set of financial examples
- Base all recommendations on actual code patterns and algorithms found
- Include disclaimers about investment risks
- Focus on educational and analytical value

Style Rules:
- Use hyphens (-) instead of em dashes
- Headings with #, ##, etc.
- Code fenced with triple back-ticks
- Keep line length ≤ 120 chars
- Professional, analytical tone suitable for investment analysis
- Include appropriate risk disclaimers

Return only the final Markdown document, no additional commentary.
".

Definition newline : string := String (ascii_of_nat 10) EmptyString.

(** [chat_history[:200] + "..." if len(chat_history) > 200 else chat_history] *)
Definition preview (chat_history : string) : string :=
  if (200 <? String.length chat_history)%nat
  then (String.substring 0 200 chat_history ++ "...")%string
  else chat_history.

Definition default_query : string :=
  "Generate a comprehensive stock analysis and investment recommendations.".

(** [user_query if user_query else "Generate ..."] *)
Definition final_query (user_query : string) : string :=
  if truth user_query then user_query else default_query.

(** The [for tool_call in tool_calls] loop: each call is executed, its
    output appended to [tool_outputs], and [tool_call_count] incremented. *)
Fixpoint execute_tool_calls (service : sdk) (the_agent : agent)
    (tool_calls : list tool_call) (tool_outputs : list tool_output)
    (tool_call_count : nat) : Run (list tool_output * nat) :=
  match tool_calls with
  | [] => mret (tool_outputs, tool_call_count)
  | call :: rest =>
      _ ← logger_info "Agent %s calling tool: %s with arguments: %s"
            [VStr (agent_name the_agent); VStr (function_name call);
             VStr (function_arguments call)];
      out ← await (Execute call) (execute service tool_call_count call);
      _ ← logger_info "Tool call completed with output length: %d"
            [VInt (String.length out)];
      execute_tool_calls service the_agent rest
        (tool_outputs ++ [{| tool_call_id := call_id call; output := out |}])
        (S tool_call_count)
  end.

(** The [while True] loop, run for at most [fuel] polls. [polls] counts
    the polls made before; the loop returns the final [tool_call_count]. *)
Fixpoint monitor (fuel : nat) (service : sdk) (the_agent : agent) (the_thread : thread)
    (the_run : run) (polls tool_call_count : nat) : Run nat :=
  match fuel with
  | O => (Polling, [])
  | S fuel' =>
      the_run ← await (GetRun (thread_id the_thread) (run_id the_run))
                  (get_run service polls);
      _ ← logger_info "Agent run status: %s" [VStr (run_status the_run)];
      if String.eqb (run_status the_run) "completed" then
        _ ← logger_info "Agent run completed successfully" [];
        mret tool_call_count
      else if String.eqb (run_status the_run) "failed" then
        _ ← logger_error "Agent run failed with : %s" [VRun the_run] false;
        raise (Exception "Agent run failed")
      else if String.eqb (run_status the_run) "requires_action" then
        tool_calls ← match required_action the_run with
                     | Some calls => mret calls
                     | None => raise AttributeError
                     end;
        _ ← logger_info "Agent requires action with %d tool calls"
              [VInt (length tool_calls)];
        executed ← execute_tool_calls service the_agent tool_calls [] tool_call_count;
        _ ← await (SubmitToolOutputs (thread_id the_thread) (run_id the_run) (fst executed))
              (submit_tool_outputs_to_run service polls);
        monitor fuel' service the_agent the_thread the_run (S polls) (snd executed)
      else
        monitor fuel' service the_agent the_thread the_run (S polls) tool_call_count
  end.

(** [str(messages.data[0].content[0].text.value)] *)
Definition first_text (messages : list message) : Run string :=
  match messages with
  | [] => raise IndexError
  | m :: _ =>
      match content m with
      | [] => raise IndexError
      | TextContent v :: _ => mret v
      | ImageFileContent :: _ => raise AttributeError
      end
  end.

(** The inner [async with] up to the loop: the tool, the agent, the
    thread, the messages and the run. *)
Definition start_run (env : gmap string string) (service : sdk)
    (chat_history user_query : string) : Run (agent * thread * run) :=
  _ ← logger_info "Setting up vector search tool" [];
  _ ← ((Returned tt, [NewFunctionTool]) : Run unit);
  model ← environ_item env "AGENTS_MODEL_DEPLOYMENT_NAME";
  _ ← logger_info "Creating StockPickerPro agent with model: %s" [VStr model];
  model ← environ_item env "AGENTS_MODEL_DEPLOYMENT_NAME";
  the_agent ← await (CreateAgent "StockPickerPro"
                       "An agent that generates stock analysis and investment recommendations"
                       _STOCK_PICKER_SYSTEM_PROMPT model)
                (create_agent service);
  _ ← logger_info "Created agent: %s with tool: vector_search" [VStr (agent_name the_agent)];
  _ ← logger_info "Creating conversation thread" [];
  the_thread ← await CreateThread (create_thread service);
  posted ← (if truth chat_history then
              _ ← logger_info "Adding chat history to thread" [];
              _ ← await (CreateMessage (thread_id the_thread) "user" chat_history)
                    (create_message service 0);
              mret 1%nat
            else mret 0%nat);
  _ ← logger_info "Adding user query to thread: %s" [VStr (final_query user_query)];
  _ ← await (CreateMessage (thread_id the_thread) "user" (final_query user_query))
        (create_message service posted);
  _ ← logger_info "Starting agent execution" [];
  the_run ← await (CreateRun (thread_id the_thread) (agent_id the_agent))
              (create_run service);
  mret (the_agent, the_thread, the_run).

(** The inner [async with] after the loop. *)
Definition final_response (service : sdk) (the_agent : agent) (the_thread : thread)
    (tool_call_count : nat) : Run string :=
  _ ← logger_info "Retrieving final response from agent" [];
  messages ← await (ListMessages (thread_id the_thread)) (list_messages service);
  response ← first_text messages;
  _ ← logger_info "Stock analysis generated by %s (%d tool calls). Response length: %d"
        [VStr (agent_name the_agent); VInt tool_call_count; VInt (String.length response)];
  mret response.

(** The body of the inner [async with]. *)
Definition with_project_client (env : gmap string string) (service : sdk) (fuel : nat)
    (chat_history user_query : string) : Run string :=
  started ← start_run env service chat_history user_query;
  let '(the_agent, the_thread, the_run) := started in
  tool_call_count ← monitor fuel service the_agent the_thread the_run 0 0;
  final_response service the_agent the_thread tool_call_count.

(** The body of the [try]. *)
Definition analysis (env : gmap string string) (service : sdk) (fuel : nat)
    (chat_history user_query : string) : Run string :=
  _ ← logger_info "Starting stock analysis generation with:" [];
  _ ← logger_info "Chat history length: %d characters" [VInt (String.length chat_history)];
  _ ← (if truth chat_history
       then logger_info "Chat history preview: %s" [VStr (preview chat_history)]
       else mret tt);
  _ ← logger_info "User query: %s" [VStr user_query];
  _ ← logger_info ("System prompt:" ++ newline ++ "%s") [VStr _STOCK_PICKER_SYSTEM_PROMPT];
  _ ← logger_info "Initializing Azure authentication" [];
  async_with (credential service) EnterCredential ExitCredential
    (_ ← logger_info "Connecting to Azure AI Project" [];
     conn_str ← environ_item env "PROJECT_CONNECTION_STRING";
     async_with (project_client service conn_str) (EnterClient conn_str) ExitClient
       (with_project_client env service fuel chat_history user_query)).

Definition generate_stock_analysis (env : gmap string string) (service : sdk) (fuel : nat)
    (chat_history user_query : string) : Run string :=
  try_except_reraise (analysis env service fuel chat_history user_query)
    (fun e => logger_error "Stock analysis generation failed with error: %s" [VError e] true).

(** ** Vocabulary of the properties *)

Definition is_log (ev : event) : bool :=
  match ev with
  | Log _ _ _ _ => true
  | _ => false
  end.

(** The trace without the log records: the context managers and the
    calls of the SDK. *)
Definition calls (evs : list event) : list event := List.filter (fun ev => negb (is_log ev)) evs.

(** The records logged at the level [ERROR]. *)
Definition is_error_log (ev : event) : bool :=
  match ev with
  | Log level _ _ _ => String.eqb level "ERROR"
  | _ => false
  end.

Definition error_logs (evs : list event) : list event := List.filter is_error_log evs.

(** The record of the [except] clause. *)
Definition failure_log (e : error) : event :=
  Log "ERROR" "Stock analysis generation failed with error: %s" [VError e] true.

(** The context managers entered and left. *)
Definition is_context (ev : event) : bool :=
  match ev with
  | EnterCredential | ExitCredential | EnterClient _ | ExitClient => true
  | _ => false
  end.

Definition contexts (evs : list event) : list event := List.filter is_context evs.

(** The messages created, the polls, the tool calls executed and the
    tool outputs submitted. *)
Definition is_create_message (ev : event) : bool :=
  match ev with
  | CreateMessage _ _ _ => true
  | _ => false
  end.

Definition messages_created (evs : list event) : list event := List.filter is_create_message evs.

(** The records logged before the credential is created. *)
Definition preamble (chat_history user_query : string) : list event :=
  [Log "INFO" "Starting stock analysis generation with:" [] false;
   Log "INFO" "Chat history length: %d characters"
     [VInt (String.length chat_history)] false]
  ++ (if truth chat_history
      then [Log "INFO" "Chat history preview: %s" [VStr (preview chat_history)] false]
      else [])
  ++ [Log "INFO" "User query: %s" [VStr user_query] false;
      Log "INFO" ("System prompt:" ++ newline ++ "%s")
        [VStr _STOCK_PICKER_SYSTEM_PROMPT] false;
      Log "INFO" "Initializing Azure authentication" [] false].

Definition connecting : event := Log "INFO" "Connecting to Azure AI Project" [] false.

(** The messages a call is to create on the thread [tid]: the chat
    history when there is one, then the query. *)
Definition history_and_query (tid chat_history user_query : string) : list event :=
  (if truth chat_history then [CreateMessage tid "user" chat_history] else [])
  ++ [CreateMessage tid "user" (final_query user_query)].

Definition is_get_run (ev : event) : bool :=
  match ev with
  | GetRun _ _ => true
  | _ => false
  end.

Definition polls_made (evs : list event) : nat := length (List.filter is_get_run evs).

Definition is_list_messages (ev : event) : bool :=
  match ev with
  | ListMessages _ => true
  | _ => false
  end.

Fixpoint executed (evs : list event) : list tool_call :=
  match evs with
  | [] => []
  | Execute call :: rest => call :: executed rest
  | _ :: rest => executed rest
  end.

Fixpoint submitted (evs : list event) : list tool_output :=
  match evs with
  | [] => []
  | SubmitToolOutputs _ _ outs :: rest => outs ++ submitted rest
  | _ :: rest => submitted rest
  end.

(** The [tool_call_count] of the records that close a returning run. *)
Definition report_format : string :=
  "Stock analysis generated by %s (%d tool calls). Response length: %d".

Fixpoint reported_tool_calls (evs : list event) : list nat :=
  match evs with
  | [] => []
  | Log _ msg [_; VInt n; _] _ :: rest =>
      if String.eqb msg report_format then n :: reported_tool_calls rest
      else reported_tool_calls rest
  | _ :: rest => reported_tool_calls rest
  end.

(** The events of the loop: log records, polls, tool calls and
    submissions. *)
Definition loop_event (ev : event) : bool :=
  match ev with
  | Log _ _ _ _ | GetRun _ _ | Execute _ | SubmitToolOutputs _ _ _ => true
  | _ => false
  end.

(** The record of a failed run. *)
Definition failed_run_log (r : run) : event :=
  Log "ERROR" "Agent run failed with : %s" [VRun r] false.

(** The outputs of the tool calls [tool_calls], when the tool call
    number [n] gives [results n call]; [count] tool calls were executed
    before. *)
Fixpoint tool_outputs_of (results : nat → tool_call → string) (count : nat)
    (tool_calls : list tool_call) : list tool_output :=
  match tool_calls with
  | [] => []
  | call :: rest =>
      {| tool_call_id := call_id call; output := results count call |}
      :: tool_outputs_of results (S count) rest
  end.

(** A status the loop has no branch for. *)
Definition other_status (s : string) : bool :=
  negb (String.eqb s "completed") && negb (String.eqb s "failed")
  && negb (String.eqb s "requires_action").

(** A script on which the set-up succeeds: both context managers are
    entered, the agent, the thread, the messages and the run are created. *)
Record set_up (service : sdk) (conn_str : string) (the_agent : agent)
    (the_thread : thread) (the_run : run) : Prop := {
  set_up_credential : credential service = Reply tt;
  set_up_client : project_client service conn_str = Reply tt;
  set_up_agent : create_agent service = Reply the_agent;
  set_up_thread : create_thread service = Reply the_thread;
  set_up_messages : ∀ n : nat, create_message service n = Reply tt;
  set_up_run : create_run service = Reply the_run
}.

(** The environment of the tests. *)
Definition mock_env : gmap string string :=
  <["PROJECT_CONNECTION_STRING" := "mock_connection_string"]>
    (<["AGENTS_MODEL_DEPLOYMENT_NAME" := "mock_model"]> ∅).

Definition mock_agent : agent := {| agent_id := "test_agent_id"; agent_name := "StockPickerPro" |}.
Definition mock_thread : thread := {| thread_id := "test_thread_id" |}.
Definition mock_run (status : string) (action : option (list tool_call)) : run :=
  {| run_id := "test_run_id"; run_status := status; required_action := action |}.

Definition mock_tool_call : tool_call :=
  {| call_id := "test_tool_call_id";
     function_name := "vector_search";
     function_arguments := "{}" |}.

(** A script as the tests mock the SDK: every call succeeds, the polls
    reply [statuses n], each tool call gives [tool_result], and the thread
    ends with [messages]. *)
Definition mock_sdk (polls : nat → run) (tool_result : string) (messages : list message)
  : sdk :=
  {| credential := Reply tt;
     project_client := fun _ => Reply tt;
     create_agent := Reply mock_agent;
     create_thread := Reply mock_thread;
     create_message := fun _ => Reply tt;
     create_run := Reply (mock_run "queued" None);
     get_run := fun n => Reply (polls n);
     execute := fun _ _ => Reply tool_result;
     submit_tool_outputs_to_run := fun _ => Reply tt;
     list_messages := Reply messages |}.

Definition mock_report : list message :=
  [{| content := [TextContent "# Stock Analysis Report"] |}].

End StockPicker.

(** * Properties *)

(** ** Comparisons of binary64 numbers *)

Lemma compare_cont_Eq (a b : positive) : Pos.compare_cont Eq a b = (a ?= b)%positive.
Proof. reflexivity. Qed.

Lemma SFeqb_finite_inv (s s' : bool) (m m' : positive) (e e' : Z) :
  SFeqb (S754_finite s m e) (S754_finite s' m' e') = true → s = s' ∧ m = m' ∧ e = e'.
Proof.
  unfold SFeqb, SFcompare. rewrite compare_cont_Eq.
  destruct s, s'; try discriminate;
    destruct (Z.compare_spec e e'); try discriminate;
    destruct (Pos.compare_spec m m'); try discriminate; intros _; subst; auto.
Qed.

Lemma eqb_one_inv (x : float) : Float.eqb x Float.one = true → x = Float.one.
Proof.
  unfold Float.eqb, Float.one.
  destruct x as [s|s| |s m e].
  - discriminate.
  - destruct s; discriminate.
  - discriminate.
  - intros H. apply SFeqb_finite_inv in H. destruct H as (-> & -> & ->). reflexivity.
Qed.

(** No sample [p >= 0] is below a rate that is zero or negative. *)
Lemma ltb_nonneg_nonpos (p r : float) :
  Float.leb Float.zero p = true → Float.leb r Float.zero = true → Float.ltb p r = false.
Proof.
  unfold Float.leb, Float.ltb, SFleb, SFltb, Float.zero.
  destruct p as [sp|sp| |sp mp ep], r as [sr|sr| |sr mr er]; cbn [SFcompare];
    try reflexivity; try discriminate;
    repeat match goal with s : bool |- _ => destruct s end;
    try reflexivity; try discriminate.
Qed.


Lemma eqb_leb (x y : float) : Float.eqb x y = true → Float.leb x y = true.
Proof.
  unfold Float.leb, Float.eqb, SFleb, SFeqb.
  destruct (SFcompare x y) as [[]|]; try discriminate; reflexivity.
Qed.

Lemma SFltb_finite_pos (m m' : positive) (e e' : Z) :
  SFltb (S754_finite false m e) (S754_finite false m' e') = true ↔
  e < e' ∨ (e = e' ∧ (m < m')%positive).
Proof.
  unfold SFltb, SFcompare. rewrite compare_cont_Eq.
  destruct (Z.compare_spec e e'); destruct (Pos.compare_spec m m');
    split; intros H'; try discriminate; try reflexivity; try lia.
Qed.

Lemma SFltb_finite_pos_Z (m m' : positive) (e e' : Z) :
  SFltb (S754_finite false m e) (S754_finite false m' e') = true ↔
  e < e' ∨ (e = e' ∧ Zpos m < Zpos m').
Proof. rewrite SFltb_finite_pos. lia. Qed.

Lemma SFltb_finite_neg (m m' : positive) (e e' : Z) :
  SFltb (S754_finite true m e) (S754_finite true m' e') = true ↔
  e' < e ∨ (e = e' ∧ (m' < m)%positive).
Proof.
  unfold SFltb, SFcompare. rewrite compare_cont_Eq.
  destruct (Z.compare_spec e e'); destruct (Pos.compare_spec m m');
    cbn [CompOpp]; split; intros H'; try discriminate; try reflexivity; try lia.
Qed.

Lemma SFltb_trans (x y z : float) :
  SFltb x y = true → SFltb y z = true → SFltb x z = true.
Proof.
  destruct x as [sx|sx| |sx mx ex], y as [sy|sy| |sy my ey], z as [sz|sz| |sz mz ez];
    try (unfold SFltb; cbn [SFcompare]; discriminate);
    repeat match goal with s : bool |- _ => destruct s end;
    try solve [unfold SFltb; cbn [SFcompare];
               first [discriminate | intros; reflexivity | intros; discriminate]].
  - rewrite !SFltb_finite_neg. lia.
  - rewrite !SFltb_finite_pos. lia.
Qed.


Lemma unit_interval_inv (p : float) :
  unit_interval p = true →
  Float.valid p = true ∧ Float.leb Float.zero p = true ∧ Float.ltb p Float.one = true.
Proof.
  unfold unit_interval. rewrite !andb_true_iff. tauto.
Qed.

(** ** The runs of the injector *)

Lemma inject_unfold (w : world) :
  inject_chaos_if_enabled w =
  match get_chaos_config (environ w) with
  | Raise e => (Raise e, w)
  | Return config =>
      if negb (CHAOS_ENABLED config) then (Return tt, w)
      else
        let p := rng w (draws w) in
        if Float.ltb p (CHAOS_INJECT_ERROR_RATE config) then
          (Raise (ChaosException error_message), logged (error_record p config) (drawn w))
        else if 0 <? CHAOS_DELAY_SECONDS_MAX config then
          (delay_seconds ← random_uniform 0 (CHAOS_DELAY_SECONDS_MAX config);
           _ ← logger_warning (delay_record delay_seconds p config);
           asyncio_sleep delay_seconds) (drawn w)
        else (Return tt, drawn w)
  end.
Proof.
  unfold inject_chaos_if_enabled, mbind, M_bind, read_environ, lift; simpl.
  destruct (get_chaos_config (environ w)) as [config|e]; [|reflexivity].
  destruct (CHAOS_ENABLED config); simpl; [|reflexivity].
  destruct (Float.ltb _ _); simpl; [reflexivity|].
  destruct (0 <? _); reflexivity.
Qed.

Lemma random_uniform_unfold (a b : Z) (w : world) :
  random_uniform a b w =
  match Float.of_int (b - a) with
  | Raise e => (Raise e, drawn w)
  | Return width =>
      match Float.of_int a with
      | Raise e => (Raise e, drawn w)
      | Return low => (Return (Float.add low (Float.mul width (rng w (draws w)))), drawn w)
      end
  end.
Proof.
  unfold random_uniform, mbind, M_bind, random_random, lift, mret, M_ret.
  destruct (Float.of_int (b - a)); [|reflexivity].
  destruct (Float.of_int a); reflexivity.
Qed.

(** The run of the delay branch, by the conversion of the bound. *)
Lemma delay_branch_run (D : Z) (p : float) (config : chaos_config) (w : world) :
  (delay_seconds ← random_uniform 0 D;
   _ ← logger_warning (delay_record delay_seconds p config);
   asyncio_sleep delay_seconds) w =
  match Float.of_int D with
  | Raise e => (Raise e, drawn w)
  | Return width =>
      let d := Float.add Float.zero (Float.mul width (rng w (draws w))) in
      (Return tt, slept d (logged (delay_record d p config) (drawn w)))
  end.
Proof.
  unfold mbind at 1. unfold M_bind at 1.
  rewrite random_uniform_unfold, Z.sub_0_r.
  destruct (Float.of_int D); reflexivity.
Qed.

Lemma new_log_same (w : world) : new_log w w = [].
Proof. unfold new_log. apply skipn_all. Qed.

Lemma new_sleeps_same (w : world) : new_sleeps w w = [].
Proof. unfold new_sleeps. apply skipn_all. Qed.

Lemma skipn_length_app {A : Type} (l t : list A) : skipn (length l) (l ++ t) = t.
Proof. induction l; simpl; auto. Qed.

(** *** The three ways through an enabled injector *)

Section Enabled.

Variable w : world.
Variable config : chaos_config.

Hypothesis Hload : get_chaos_config (environ w) = Return config.
Hypothesis Hon : CHAOS_ENABLED config = true.

Let p : float := rng w (draws w).

Lemma inject_error_branch :
  Float.ltb p (CHAOS_INJECT_ERROR_RATE config) = true →
  inject_chaos_if_enabled w =
    (Raise (ChaosException error_message), logged (error_record p config) (drawn w)).
Proof.
  intros Hyes. rewrite inject_unfold, Hload, Hon. cbn [negb]. cbv zeta.
  fold p. rewrite Hyes. reflexivity.
Qed.

Lemma inject_skip_branch :
  Float.ltb p (CHAOS_INJECT_ERROR_RATE config) = false →
  CHAOS_DELAY_SECONDS_MAX config <= 0 →
  inject_chaos_if_enabled w = (Return tt, drawn w).
Proof.
  intros Hno Hmax. rewrite inject_unfold, Hload, Hon. cbn [negb]. cbv zeta.
  fold p. rewrite Hno.
  destruct (Z.ltb_spec 0 (CHAOS_DELAY_SECONDS_MAX config)); [lia | reflexivity].
Qed.

Lemma inject_delay_branch :
  Float.ltb p (CHAOS_INJECT_ERROR_RATE config) = false →
  0 < CHAOS_DELAY_SECONDS_MAX config →
  inject_chaos_if_enabled w =
    match Float.of_int (CHAOS_DELAY_SECONDS_MAX config) with
    | Raise e => (Raise e, drawn (drawn w))
    | Return width =>
        let d := Float.add Float.zero (Float.mul width (rng w (S (draws w)))) in
        (Return tt, slept d (logged (delay_record d p config) (drawn (drawn w))))
    end.
Proof.
  intros Hno Hmax. rewrite inject_unfold, Hload, Hon. cbn [negb]. cbv zeta.
  fold p. rewrite Hno.
  destruct (Z.ltb_spec 0 (CHAOS_DELAY_SECONDS_MAX config)); [|lia].
  rewrite delay_branch_run. reflexivity.
Qed.

End Enabled.

(** ** The injector when disabled *)

(** C1. For every configuration with [enabled = false], whatever its
    error rate and its maximal delay, [inject_chaos_if_enabled] returns
    and leaves the world as it found it: nothing raised, no call of
    [asyncio.sleep], no record logged, no sample drawn. *)
Theorem disabled_is_noop (w : world) (config : chaos_config) :
  get_chaos_config (environ w) = Return config →
  CHAOS_ENABLED config = false →
  inject_chaos_if_enabled w = (Return tt, w).
Proof.
  intros Hload Hoff. rewrite inject_unfold, Hload, Hoff. reflexivity.
Qed.

Lemma disabled_is_noop_witness :
  let w := initial_world (patch_env "false" "1.0" "10") (fun _ => half) in
  let config := {| CHAOS_ENABLED := false;
                   CHAOS_INJECT_ERROR_RATE := Float.one;
                   CHAOS_DELAY_SECONDS_MAX := 10 |} in
  get_chaos_config (environ w) = Return config ∧
  inject_chaos_if_enabled w = (Return tt, w).
Proof.
  intros w config.
  assert (get_chaos_config (environ w) = Return config) as Hload
    by (vm_compute; reflexivity).
  split; [exact Hload|].
  apply (disabled_is_noop w config Hload). reflexivity.
Defined.

(** ** The error branch *)

(** C2. With [enabled = true] and an error rate equal to [1.0], every
    sample [p] of [[0, 1)] makes the call raise [ChaosException], after
    one draw and one logged record, and the message of the exception
    contains "simulated service failure". *)
Theorem error_rate_one_always_raises (w : world) (config : chaos_config) :
  get_chaos_config (environ w) = Return config →
  CHAOS_ENABLED config = true →
  Float.eqb (CHAOS_INJECT_ERROR_RATE config) Float.one = true →
  unit_interval (rng w (draws w)) = true →
  inject_chaos_if_enabled w =
    (Raise (ChaosException error_message),
     logged (error_record (rng w (draws w)) config) (drawn w))
  ∧ contains error_message "simulated service failure" = true.
Proof.
  intros Hload Hon Hrate Hp.
  apply eqb_one_inv in Hrate.
  apply unit_interval_inv in Hp. destruct Hp as (_ & _ & Hlt).
  split; [|vm_compute; reflexivity].
  apply (inject_error_branch w config Hload Hon). rewrite Hrate. exact Hlt.
Qed.

Lemma error_rate_one_always_raises_witness :
  let w := initial_world (patch_env "true" "1.0" "0") (fun _ => half) in
  fst (inject_chaos_if_enabled w) = Raise (ChaosException error_message)
  ∧ contains error_message "simulated service failure" = true.
Proof.
  intros w.
  pose (config := {| CHAOS_ENABLED := true;
                     CHAOS_INJECT_ERROR_RATE := Float.one;
                     CHAOS_DELAY_SECONDS_MAX := 0 |}).
  destruct (error_rate_one_always_raises w config) as [Hrun Hmsg];
    try (vm_compute; reflexivity).
  split; [rewrite Hrun; reflexivity | exact Hmsg].
Defined.

(** C3. In one call the error branch and the delay branch are never both
    taken: a call that raises has made no call of [asyncio.sleep] and has
    logged no delay event; a call that has slept returns normally and has
    logged no error event. *)
Theorem error_and_delay_exclusive (w : world) :
  let run := inject_chaos_if_enabled w in
  (∀ e, fst run = Raise e →
        new_sleeps w (snd run) = [] ∧ no_event "delay" (new_log w (snd run)) = true)
  ∧ (new_sleeps w (snd run) ≠ [] →
        fst run = Return tt ∧ no_event "error" (new_log w (snd run)) = true).
Proof.
  cbv zeta. rewrite inject_unfold.
  destruct (get_chaos_config (environ w)) as [config|e0]; cbn [fst snd].
  2: { rewrite new_sleeps_same, new_log_same. split; [intros; split; reflexivity | congruence]. }
  destruct (CHAOS_ENABLED config); cbn [negb].
  2: { rewrite new_sleeps_same, new_log_same. split; [intros; split; reflexivity | congruence]. }
  destruct (Float.ltb _ _).
  { cbn [fst snd]. unfold new_sleeps, new_log. cbn [sleeps log logged drawn].
    rewrite skipn_all, skipn_length_app. split; [|congruence].
    intros e _. split; reflexivity. }
  destruct (0 <? _).
  2: { cbn [fst snd]. unfold new_sleeps, new_log. cbn [sleeps log drawn].
       rewrite !skipn_all. split; [intros; split; reflexivity | congruence]. }
  rewrite delay_branch_run.
  destruct (Float.of_int _) as [width|e1]; cbn [fst snd].
  - unfold new_sleeps, new_log. cbn [sleeps log slept logged drawn].
    rewrite !skipn_length_app. split; [discriminate|].
    intros _. split; reflexivity.
  - unfold new_sleeps, new_log. cbn [sleeps log drawn].
    rewrite !skipn_all. split; [intros; split; reflexivity | congruence].
Qed.

Lemma error_and_delay_exclusive_witness :
  let w := initial_world (patch_env "true" "1.0" "3") (fun _ => half) in
  fst (inject_chaos_if_enabled w) = Raise (ChaosException error_message)
  ∧ new_sleeps w (snd (inject_chaos_if_enabled w)) = []
  ∧ no_event "delay" (new_log w (snd (inject_chaos_if_enabled w))) = true.
Proof.
  intros w.
  assert (fst (inject_chaos_if_enabled w) = Raise (ChaosException error_message)) as Hrun
    by (vm_compute; reflexivity).
  split; [exact Hrun|].
  apply (proj1 (error_and_delay_exclusive w) _ Hrun).
Defined.

(** C5. With [enabled = true], an error rate equal to [0.0] and a
    maximal delay of [0], the call draws its sample and returns: nothing
    raised, no call of [asyncio.sleep], no record logged. No sample
    [p >= 0] takes the error branch. *)
Theorem zero_rate_zero_delay_returns (w : world) (config : chaos_config) :
  get_chaos_config (environ w) = Return config →
  CHAOS_ENABLED config = true →
  Float.eqb (CHAOS_INJECT_ERROR_RATE config) Float.zero = true →
  CHAOS_DELAY_SECONDS_MAX config = 0 →
  unit_interval (rng w (draws w)) = true →
  Float.ltb (rng w (draws w)) (CHAOS_INJECT_ERROR_RATE config) = false
  ∧ inject_chaos_if_enabled w = (Return tt, drawn w).
Proof.
  intros Hload Hon Hrate Hmax Hp.
  apply unit_interval_inv in Hp. destruct Hp as (_ & Hge & _).
  assert (Float.ltb (rng w (draws w)) (CHAOS_INJECT_ERROR_RATE config) = false) as Hno
    by (apply ltb_nonneg_nonpos; [exact Hge | apply eqb_leb, Hrate]).
  split; [exact Hno|].
  apply (inject_skip_branch w config Hload Hon Hno). lia.
Qed.

Lemma zero_rate_zero_delay_returns_witness :
  let w := initial_world (patch_env "true" "0.0" "0") (fun _ => half) in
  Float.ltb half Float.zero = false
  ∧ inject_chaos_if_enabled w = (Return tt, drawn w).
Proof.
  intros w.
  apply (zero_rate_zero_delay_returns w
           {| CHAOS_ENABLED := true;
              CHAOS_INJECT_ERROR_RATE := Float.zero;
              CHAOS_DELAY_SECONDS_MAX := 0 |});
    vm_compute; reflexivity.
Defined.

(** ** The configuration loader *)

Lemma environ_get_insert (env : gmap string string) (k v d : string) :
  environ_get (<[k := v]> env) k d = v.
Proof. unfold environ_get. rewrite lookup_insert_eq. reflexivity. Qed.

Lemma environ_get_insert_ne (env : gmap string string) (k k' v d : string) :
  k ≠ k' → environ_get (<[k := v]> env) k' d = environ_get env k' d.
Proof. intros Hne. unfold environ_get. rewrite lookup_insert_ne; auto. Qed.

Lemma environ_get_unset (env : gmap string string) (k d : string) :
  env !! k = None → environ_get env k d = d.
Proof. intros H. unfold environ_get. rewrite H. reflexivity. Qed.

(** The binary64 number written [0.1] is the one nearest to one tenth:
    it is [m * 2^-56] with [|m * 2^-56 - 1/10| <= 2^-57]. *)
Lemma tenth_is_nearest :
  tenth = S754_finite false 7205759403792794 (-56)
  ∧ 2 * Z.abs (10 * 7205759403792794 - 2 ^ 56) <= 10.
Proof. split; [reflexivity | vm_compute; discriminate]. Qed.

(** C6. When none of the three variables is set, the loader returns
    [enabled = false], [errorRate = 0.1] and [maxDelaySeconds = 5]. *)
Theorem default_config (env : gmap string string) :
  env !! "CHAOS_ENABLED" = None →
  env !! "CHAOS_INJECT_ERROR_RATE" = None →
  env !! "CHAOS_DELAY_SECONDS_MAX" = None →
  get_chaos_config env =
    Return {| CHAOS_ENABLED := false;
              CHAOS_INJECT_ERROR_RATE := tenth;
              CHAOS_DELAY_SECONDS_MAX := 5 |}.
Proof.
  intros H1 H2 H3. unfold get_chaos_config.
  rewrite !environ_get_unset by assumption.
  vm_compute. reflexivity.
Qed.

Lemma default_config_witness :
  get_chaos_config ∅ =
    Return {| CHAOS_ENABLED := false;
              CHAOS_INJECT_ERROR_RATE := tenth;
              CHAOS_DELAY_SECONDS_MAX := 5 |}.
Proof. apply (default_config ∅); reflexivity. Defined.

(** *** Case-insensitive comparison *)

Lemma in_all_ascii (c : ascii) : In c all_ascii.
Proof.
  unfold all_ascii. rewrite <- (ascii_nat_embedding c).
  apply in_map, in_seq. pose proof (nat_ascii_bounded c). lia.
Qed.

(** Against a character that [str.lower] leaves alone, comparing the
    lowered character is comparing up to case. *)
Lemma lower_char_same_letter (a b : ascii) :
  lower_char b = b → Ascii.eqb (lower_char a) b = same_letter a b.
Proof.
  assert (forallb (fun a => forallb (fun b =>
            implb (Ascii.eqb (lower_char b) b)
                  (Bool.eqb (Ascii.eqb (lower_char a) b) (same_letter a b)))
            all_ascii) all_ascii = true) as Hall by (vm_compute; reflexivity).
  rewrite forallb_forall in Hall. specialize (Hall a (in_all_ascii a)).
  rewrite forallb_forall in Hall. specialize (Hall b (in_all_ascii b)).
  intros Hb. rewrite Hb, Ascii.eqb_refl in Hall. cbn [implb] in Hall.
  apply Bool.eqb_prop in Hall. exact Hall.
Qed.

Lemma lower_eq_ignore_case (s t : string) :
  lower t = t → String.eqb (lower s) t = eq_ignore_case s t.
Proof.
  revert t. induction s as [|a s IH]; intros [|b t] Ht; try reflexivity.
  cbn [lower] in Ht. injection Ht as Hb Ht.
  cbn [lower eq_ignore_case String.eqb].
  rewrite <- (IH t Ht), <- (lower_char_same_letter a b Hb).
  destruct (Ascii.eqb (lower_char a) b); reflexivity.
Qed.

Lemma enabled_ignores_case (s : string) :
  str_in (lower s) truthy = existsb (eq_ignore_case s) truthy.
Proof.
  unfold truthy. cbn [str_in existsb].
  rewrite !lower_eq_ignore_case by reflexivity. reflexivity.
Qed.

Lemma get_chaos_config_unfold (env : gmap string string) :
  get_chaos_config env =
  match py_float (environ_get env "CHAOS_INJECT_ERROR_RATE" "0.1") with
  | Raise e => Raise e
  | Return error_rate =>
      match py_int (environ_get env "CHAOS_DELAY_SECONDS_MAX" "5") with
      | Raise e => Raise e
      | Return max_delay =>
          Return {| CHAOS_ENABLED :=
                      str_in (lower (environ_get env "CHAOS_ENABLED" "false")) truthy;
                    CHAOS_INJECT_ERROR_RATE := error_rate;
                    CHAOS_DELAY_SECONDS_MAX := max_delay |}
      end
  end.
Proof.
  unfold get_chaos_config, mbind, outcome_bind.
  destruct (py_float _); [|reflexivity]. destruct (py_int _); reflexivity.
Qed.



(** The two built-ins raise nothing but [ValueError]. *)
Lemma py_float_raises (s : string) (e : exn) : py_float s = Raise e → e = ValueError.
Proof.
  unfold py_float.
  destruct (strip_underscores _ _) as [cs|]; [|congruence].
  destruct (dg_strtod _) as [[x [|c r]]|]; try congruence.
  destruct (parse_inf_or_nan _) as [[x [|c r]]|]; congruence.
Qed.

Lemma py_int_raises (s : string) (e : exn) : py_int s = Raise e → e = ValueError.
Proof.
  unfold py_int.
  destruct (take_sign _) as [neg cs].
  assert (∀ o : outcome Z,
            (match scan_digits NUL 0 0%nat cs with
             | Some (v, n, rest) =>
                 match n, lstrip rest with
                 | S _, [] =>
                     if (int_max_str_digits <? n)%nat then Raise ValueError
                     else Return (if neg then - v else v)
                 | _, _ => Raise ValueError
                 end
             | None => Raise ValueError
             end) = Raise e → e = ValueError) as Hscan.
  { intros _. destruct (scan_digits _ _ _ _) as [[[v n] rest]|]; [|congruence].
    destruct n; [congruence|]. destruct (lstrip rest); [|congruence].
    destruct (int_max_str_digits <? S n)%nat; congruence. }
  destruct cs as [|c cs']; [apply (Hscan (Raise e))|].
  destruct c as [[] [] [] [] [] [] [] []]; first [congruence | apply (Hscan (Raise e))].
Qed.



(** ** Values outside the documented ranges *)

Lemma get_chaos_config_setenv_delay (env : gmap string string) (config : chaos_config)
      (v : string) (n : Z) :
  py_int v = Return n →
  get_chaos_config env = Return config →
  get_chaos_config (<["CHAOS_DELAY_SECONDS_MAX" := v]> env) =
    Return {| CHAOS_ENABLED := CHAOS_ENABLED config;
              CHAOS_INJECT_ERROR_RATE := CHAOS_INJECT_ERROR_RATE config;
              CHAOS_DELAY_SECONDS_MAX := n |}.
Proof.
  intros Hv. rewrite !get_chaos_config_unfold.
  rewrite environ_get_insert, !environ_get_insert_ne by discriminate.
  rewrite Hv.
  destruct (py_float (environ_get env _ _)); [|discriminate].
  destruct (py_int (environ_get env _ _)); [|discriminate].
  intros H. injection H as <-. reflexivity.
Qed.


Lemma py_int_0 : py_int "0" = Return 0.
Proof. vm_compute. reflexivity. Qed.



(** C9. With [enabled = true] and the error branch not taken, a maximal
    delay that is zero or negative (the loader accepts "-3") skips the
    delay branch: the call returns after its one draw, without a call of
    [asyncio.sleep] and without a logged record, and what it does is what
    it does when [CHAOS_DELAY_SECONDS_MAX] is "0". *)
Theorem nonpositive_delay_is_skipped (w : world) (config : chaos_config) :
  get_chaos_config (environ w) = Return config →
  CHAOS_ENABLED config = true →
  Float.ltb (rng w (draws w)) (CHAOS_INJECT_ERROR_RATE config) = false →
  CHAOS_DELAY_SECONDS_MAX config <= 0 →
  inject_chaos_if_enabled w = (Return tt, drawn w)
  ∧ behaviour (inject_chaos_if_enabled (setenv "CHAOS_DELAY_SECONDS_MAX" "0" w)) =
      behaviour (inject_chaos_if_enabled w).
Proof.
  intros Hload Hon Hno Hmax.
  pose proof (inject_skip_branch w config Hload Hon Hno Hmax) as Hrun.
  split; [exact Hrun|]. rewrite Hrun, inject_unfold.
  cbn [environ setenv].
  rewrite (get_chaos_config_setenv_delay _ config "0" 0 py_int_0 Hload).
  cbn [CHAOS_ENABLED CHAOS_INJECT_ERROR_RATE CHAOS_DELAY_SECONDS_MAX rng draws setenv].
  rewrite Hon. cbn [negb]. cbv zeta. rewrite Hno. reflexivity.
Qed.

Lemma nonpositive_delay_is_skipped_witness :
  let w := initial_world (patch_env "true" "0.0" "-3") (fun _ => half) in
  get_chaos_config (environ w) =
    Return {| CHAOS_ENABLED := true;
              CHAOS_INJECT_ERROR_RATE := Float.zero;
              CHAOS_DELAY_SECONDS_MAX := -3 |}
  ∧ inject_chaos_if_enabled w = (Return tt, drawn w)
  ∧ behaviour (inject_chaos_if_enabled (setenv "CHAOS_DELAY_SECONDS_MAX" "0" w)) =
      behaviour (inject_chaos_if_enabled w).
Proof.
  intros w.
  assert (get_chaos_config (environ w) =
            Return {| CHAOS_ENABLED := true;
                      CHAOS_INJECT_ERROR_RATE := Float.zero;
                      CHAOS_DELAY_SECONDS_MAX := -3 |}) as Hload
    by (vm_compute; reflexivity).
  split; [exact Hload|].
  apply (nonpositive_delay_is_skipped w _ Hload); [reflexivity | reflexivity |].
  cbn [CHAOS_DELAY_SECONDS_MAX]. lia.
Defined.

Lemma of_int_raises (n : Z) (e : exn) : Float.of_int n = Raise e → e = OverflowError.
Proof. unfold Float.of_int. destruct (Float.is_finite _); congruence. Qed.



(** ** Rounding to binary64

    What [SpecFloat] computes, as far as the delay branch needs it: the
    number of digits of a mantissa, the right shift that keeps a round
    bit, and a bound on the result of [binary_round_aux]. Exponents are
    compared after scaling to a common one, so that everything is an
    inequality between integers. *)

Lemma digits2_pos_bounds (m : positive) :
  2 ^ (Zpos (digits2_pos m) - 1) <= Zpos m < 2 ^ Zpos (digits2_pos m).
Proof.
  induction m as [m IH|m IH|]; cbn [digits2_pos].
  - rewrite Pos2Z.inj_succ. pose proof (Pos2Z.inj_xI m) as Hm.
    replace (Z.succ (Zpos (digits2_pos m)) - 1) with (Z.succ (Zpos (digits2_pos m) - 1)) by lia.
    rewrite !Z.pow_succ_r by lia. lia.
  - rewrite Pos2Z.inj_succ. pose proof (Pos2Z.inj_xO m) as Hm.
    replace (Z.succ (Zpos (digits2_pos m)) - 1) with (Z.succ (Zpos (digits2_pos m) - 1)) by lia.
    rewrite !Z.pow_succ_r by lia. lia.
  - split; [reflexivity | reflexivity].
Qed.

Lemma Zdigits2_bounds (m : Z) :
  0 < m → 2 ^ (Zdigits2 m - 1) <= m < 2 ^ Zdigits2 m.
Proof.
  destruct m as [|p|p]; try lia. intros _. apply digits2_pos_bounds.
Qed.

Lemma Zdigits2_pos (m : Z) : 0 < m → 0 < Zdigits2 m.
Proof. destruct m as [|p|p]; try lia. intros _. reflexivity. Qed.

(** A number below [2^k] has at most [k] digits; one from [2^k] on has
    more. *)
Lemma Zdigits2_le (m k : Z) : 0 < m → m < 2 ^ k → Zdigits2 m <= k.
Proof.
  intros Hm Hk. pose proof (Zdigits2_bounds m Hm) as [Hlo _].
  pose proof (Zdigits2_pos m Hm).
  destruct (Z.le_gt_cases (Zdigits2 m) k) as [|Hgt]; [assumption|exfalso].
  assert (0 <= k) by (destruct (Z.le_gt_cases 0 k); [assumption|];
                      rewrite Z.pow_neg_r in Hk by lia; lia).
  assert (2 ^ k <= 2 ^ (Zdigits2 m - 1)) by (apply Z.pow_le_mono_r; lia).
  lia.
Qed.

Lemma Zdigits2_gt (m k : Z) : 0 <= k → 2 ^ k <= m → k < Zdigits2 m.
Proof.
  intros Hk Hm. assert (0 < m) as Hpos by (pose proof (Z.pow_pos_nonneg 2 k); lia).
  pose proof (Zdigits2_bounds m Hpos) as [_ Hhi].
  pose proof (Zdigits2_pos m Hpos).
  destruct (Z.lt_ge_cases k (Zdigits2 m)) as [|Hge]; [assumption|exfalso].
  assert (2 ^ Zdigits2 m <= 2 ^ k) by (apply Z.pow_le_mono_r; lia).
  lia.
Qed.

Lemma Zdigits2_unique (m k : Z) : 0 < k → 2 ^ (k - 1) <= m < 2 ^ k → Zdigits2 m = k.
Proof.
  intros Hk [Hlo Hhi].
  assert (0 < m) by (pose proof (Z.pow_pos_nonneg 2 (k - 1)); lia).
  pose proof (Zdigits2_le m k). pose proof (Zdigits2_gt m (k - 1)). lia.
Qed.

(** *** The right shift *)

Lemma iter_pos_nat {A : Type} (f : A → A) (p : positive) (x : A) :
  SpecFloat.iter_pos f p x = Nat.iter (Pos.to_nat p) f x.
Proof.
  revert x. induction p as [p IH|p IH|]; intros x; cbn [SpecFloat.iter_pos].
  - rewrite !IH, Pos2Nat.inj_xI, <- Nat.iter_add, <- Nat.iter_succ_r.
    f_equal. lia.
  - rewrite !IH, Pos2Nat.inj_xO, <- Nat.iter_add. f_equal. lia.
  - reflexivity.
Qed.

Lemma shr_1_m (mrs : shr_record) : 0 <= shr_m mrs → shr_m (shr_1 mrs) = shr_m mrs / 2.
Proof.
  destruct mrs as [m r s]. cbn [shr_m]. intros Hm.
  destruct m as [|[p|p|]|p]; cbn [shr_1 shr_m]; try lia; try reflexivity.
  - apply Z.div_unique with (r := 1); lia.
  - apply Z.div_unique with (r := 0); lia.
Qed.

Lemma shr_1_r (mrs : shr_record) : 0 <= shr_m mrs → shr_r (shr_1 mrs) = Z.odd (shr_m mrs).
Proof.
  destruct mrs as [m r s]. cbn [shr_m]. intros Hm.
  destruct m as [|[p|p|]|p]; cbn [shr_1 shr_r]; try lia; reflexivity.
Qed.

Lemma shr_iter_m (k : nat) (mrs : shr_record) :
  0 <= shr_m mrs →
  shr_m (Nat.iter k shr_1 mrs) = shr_m mrs / 2 ^ Z.of_nat k.
Proof.
  intros Hm. induction k as [|k IH].
  - change (Nat.iter 0 shr_1 mrs) with mrs.
    rewrite Z.pow_0_r, Z.div_1_r. reflexivity.
  - rewrite Nat.iter_succ, shr_1_m, IH.
    + rewrite Nat2Z.inj_succ, Z.pow_succ_r by lia.
      rewrite Z.div_div by (try apply Z.pow_pos_nonneg; lia).
      f_equal. lia.
    + rewrite IH. apply Z.div_pos; [lia | apply Z.pow_pos_nonneg; lia].
Qed.

Lemma shr_iter_r (k : nat) (mrs : shr_record) :
  0 <= shr_m mrs →
  shr_r (Nat.iter (S k) shr_1 mrs) = Z.odd (shr_m mrs / 2 ^ Z.of_nat k).
Proof.
  intros Hm. rewrite Nat.iter_succ, shr_1_r.
  - rewrite shr_iter_m by assumption. reflexivity.
  - rewrite shr_iter_m by assumption.
    apply Z.div_pos; [lia | apply Z.pow_pos_nonneg; lia].
Qed.

Lemma fexp_binary64 (e : Z) :
  fexp Float.prec Float.emax e = Z.max (e - 53) (-1074).
Proof. reflexivity. Qed.

(** The shift of an exact mantissa to the exponent of its format: the
    mantissa is divided, and the round bit is the last bit shifted out. *)
Lemma shr_fexp_exact (m e : Z) (mrs : shr_record) (e' : Z) :
  0 <= m →
  shr_fexp Float.prec Float.emax m e loc_Exact = (mrs, e') →
  let n := Z.max (Zdigits2 m + e - 53) (-1074) - e in
  e' = e + Z.max n 0
  ∧ shr_m mrs = m / 2 ^ Z.max n 0
  ∧ (n <= 0 → loc_of_shr_record mrs = loc_Exact)
  ∧ (0 < n → shr_r mrs = Z.odd (m / 2 ^ (n - 1))).
Proof.
  intros Hm. unfold shr_fexp. rewrite fexp_binary64. cbn [shr_record_of_loc].
  cbv zeta. set (n := Z.max (Zdigits2 m + e - 53) (-1074) - e).
  intros Hshr. unfold shr in Hshr.
  destruct n as [|p|p] eqn:Hn.
  - injection Hshr as <- <-. cbn [shr_m loc_of_shr_record].
    rewrite Z.max_id, Z.pow_0_r, Z.div_1_r. repeat split; try lia.
  - injection Hshr as <- <-. rewrite iter_pos_nat.
    rewrite Z.max_l by lia. split; [reflexivity|].
    split; [|split; [lia|intros _]].
    + rewrite shr_iter_m by (cbn [shr_m]; lia). cbn [shr_m].
      rewrite positive_nat_Z. reflexivity.
    + destruct (Pos2Nat.is_succ p) as [k Hk]. rewrite Hk.
      rewrite shr_iter_r by (cbn [shr_m]; lia). cbn [shr_m].
      do 3 f_equal. lia.
  - injection Hshr as <- <-. cbn [shr_m loc_of_shr_record].
    rewrite Z.max_r by lia. rewrite Z.pow_0_r, Z.div_1_r. repeat split; try lia.
Qed.

(** Rounding to nearest: the rounded mantissa is the quotient or its
    successor, the successor only when the round bit is set. *)
Lemma round_nearest_even_bounds (mrs : shr_record) (h : Z) :
  0 <= h →
  shr_m mrs = h / 2 →
  shr_r mrs = Z.odd h →
  h / 2 <= round_nearest_even (shr_m mrs) (loc_of_shr_record mrs)
  ∧ 2 * round_nearest_even (shr_m mrs) (loc_of_shr_record mrs) <= h + 1.
Proof.
  intros Hh Hq Hr. destruct mrs as [q r s]. cbn [shr_m shr_r] in *. subst q r.
  pose proof (Z.div_mod h 2 ltac:(lia)) as Hdm.
  rewrite Zmod_odd in Hdm.
  destruct (Z.odd h), s; cbn [loc_of_shr_record round_nearest_even];
    try destruct (Z.even (h / 2)); lia.
Qed.

(** One stage of [binary_round_aux] on an exact mantissa: shift, then
    round to nearest. *)
Lemma round_stage (m e : Z) (mrs : shr_record) (e' : Z) :
  0 <= m →
  shr_fexp Float.prec Float.emax m e loc_Exact = (mrs, e') →
  let n := Z.max (Zdigits2 m + e - 53) (-1074) - e in
  let m1 := round_nearest_even (shr_m mrs) (loc_of_shr_record mrs) in
  e' = e + Z.max n 0
  ∧ 0 <= m1
  ∧ (n <= 0 → m1 = m)
  ∧ (0 < n → m / 2 ^ n <= m1 ∧ 2 * m1 <= m / 2 ^ (n - 1) + 1).
Proof.
  intros Hm Hshr. cbv zeta.
  destruct (shr_fexp_exact m e mrs e' Hm Hshr) as (He' & Hq & Hexact & Hr).
  set (n := Z.max (Zdigits2 m + e - 53) (-1074) - e) in *.
  split; [exact He'|].
  destruct (Z.le_gt_cases n 0) as [Hn|Hn].
  - rewrite (Hexact Hn). cbn [round_nearest_even]. rewrite Hq.
    rewrite Z.max_r, Z.pow_0_r, Z.div_1_r by lia.
    repeat split; try lia.
  - rewrite Z.max_l in Hq by lia.
    assert (0 <= m / 2 ^ (n - 1)) as Hh
      by (apply Z.div_pos; [lia | apply Z.pow_pos_nonneg; lia]).
    assert (m / 2 ^ n = m / 2 ^ (n - 1) / 2) as Hdiv.
    { rewrite Z.div_div by (try apply Z.pow_pos_nonneg; lia).
      f_equal. replace n with (Z.succ (n - 1)) at 1 by lia.
      rewrite Z.pow_succ_r by lia. lia. }
    rewrite Hdiv in Hq.
    destruct (round_nearest_even_bounds mrs _ Hh Hq (Hr ltac:(lia))) as [Hlo Hhi].
    rewrite Hdiv.
    assert (0 <= m / 2 ^ (n - 1) / 2) by (apply Z.div_pos; lia).
    repeat split; try lia.
Qed.

(** *** Products of bounded integers *)

Lemma below_midpoint_bound (x b P K : Z) :
  0 < P → b < K → 2 * x < (2 * b + 1) * P → x < K * P.
Proof. intros HP Hb Hx. nia. Qed.

Lemma below_scaled_bound (x b P K : Z) :
  0 <= K → x <= 2 * K → K <= b → 2 <= P → x <= b * P.
Proof.
  intros HK Hx Hb HP. nia.
Qed.

Lemma scaled_lt_cancel (x b T1 T2 K : Z) :
  0 < T1 → 0 < T2 → b < K → x * T1 <= b * (T2 * T1) → x < K * T2.
Proof.
  intros H1 H2 Hb Hx.
  destruct (Z.lt_ge_cases x (K * T2)) as [|Hge]; [assumption|exfalso].
  assert (K * T2 * T1 <= x * T1) by (apply Z.mul_le_mono_nonneg_r; lia).
  assert (b * T2 < K * T2) by (apply Z.mul_lt_mono_pos_r; lia).
  assert (b * T2 * T1 < K * T2 * T1) by (apply Z.mul_lt_mono_pos_r; lia).
  lia.
Qed.

(** *** Rounding stays below a representable number

    [B = mB * 2^eB] is a normal binary64 number and [x = mx * 2^ex], on a
    finer exponent, lies strictly below the midpoint between [B] and its
    successor. Then [x] rounds to zero or to a finite number not above
    [B]. Both sides are scaled by [2^-ex]. *)
Lemma round_below (mx : positive) (ex mB eB : Z) :
  2 ^ 52 <= mB < 2 ^ 53 →
  -1074 <= eB <= 971 →
  ex <= eB →
  2 * Zpos mx < (2 * mB + 1) * 2 ^ (eB - ex) →
  binary_round_aux Float.prec Float.emax false (Zpos mx) ex loc_Exact = S754_zero false
  ∨ ∃ (m2 : positive) (e2 : Z),
      binary_round_aux Float.prec Float.emax false (Zpos mx) ex loc_Exact =
        S754_finite false m2 e2
      ∧ ex <= e2 <= eB
      ∧ Zpos m2 * 2 ^ (e2 - ex) <= mB * 2 ^ (eB - ex).
Proof.
  intros HmB HeB Hex Hlt.
  unfold binary_round_aux.
  destruct (shr_fexp _ _ (Zpos mx) ex loc_Exact) as [mrs1 e1] eqn:Hs1.
  destruct (shr_fexp _ _ (round_nearest_even (shr_m mrs1) (loc_of_shr_record mrs1))
              e1 loc_Exact) as [mrs2 e2] eqn:Hs2.
  pose proof (round_stage _ _ _ _ (Pos2Z.is_nonneg mx) Hs1) as Hst1. cbv zeta in Hst1.
  destruct Hst1 as (He1 & Hm1 & Hexact & Hround).
  set (m1 := round_nearest_even (shr_m mrs1) (loc_of_shr_record mrs1)) in *.
  pose proof (shr_fexp_exact _ _ _ _ Hm1 Hs2) as Hst2. cbv zeta in Hst2.
  destruct Hst2 as (He2 & Hm2 & _ & _).
  set (n1 := Z.max (Zdigits2 (Zpos mx) + ex - 53) (-1074) - ex) in *.
  set (n2 := Z.max (Zdigits2 m1 + e1 - 53) (-1074) - e1) in *.
  pose proof (Zdigits2_bounds (Zpos mx) ltac:(lia)) as [Hdlo Hdhi].
  pose proof (Zdigits2_pos (Zpos mx) ltac:(lia)) as Hdpos.
  set (d := Zdigits2 (Zpos mx)) in *.
  assert (0 < 2 ^ (eB - ex)) as HP by (apply Z.pow_pos_nonneg; lia).
  (* the digits of [x] put its exponent at most at [eB] *)
  assert (d + ex - 53 <= eB) as HA.
  { assert (Zpos mx < 2 ^ (53 + (eB - ex))) as Hx.
    { rewrite Z.pow_add_r by lia.
      apply (below_midpoint_bound _ mB); [exact HP | lia | exact Hlt]. }
    pose proof (Zdigits2_le (Zpos mx) _ ltac:(lia) Hx). fold d in H. lia. }
  (* first stage *)
  assert (e1 <= eB ∧ ex <= e1 ∧ m1 * 2 ^ (e1 - ex) <= mB * 2 ^ (eB - ex)) as (He1B & Hex1 & HV1).
  { destruct (Z.le_gt_cases n1 0) as [Hn|Hn].
    - rewrite Z.max_r in He1 by lia. rewrite (Hexact Hn).
      replace (e1 - ex) with 0 by lia. rewrite Z.pow_0_r.
      split; [lia|]. split; [lia|].
      destruct (Z.eq_dec eB ex) as [->|Hne].
      + rewrite Z.sub_diag, Z.pow_0_r in *. lia.
      + assert (d <= 53) by lia.
        assert (2 ^ d <= 2 ^ 53) by (apply Z.pow_le_mono_r; lia).
        assert (2 ^ 1 <= 2 ^ (eB - ex)) by (apply Z.pow_le_mono_r; lia).
        change (2 ^ 1) with 2 in *.
        apply (below_scaled_bound _ _ _ (2 ^ 52)); lia.
    - rewrite Z.max_l in He1 by lia.
      destruct (Hround Hn) as [_ Hhi]. split; [lia|]. split; [lia|].
      replace (e1 - ex) with n1 by lia.
      assert (0 < 2 ^ (n1 - 1)) as HR by (apply Z.pow_pos_nonneg; lia).
      assert (2 ^ n1 = 2 * 2 ^ (n1 - 1)) as HQ.
      { replace n1 with (Z.succ (n1 - 1)) at 1 by lia. apply Z.pow_succ_r. lia. }
      destruct (Z.eq_dec e1 eB) as [Heq|Hne].
      + replace (eB - ex) with n1 in * by lia.
        assert (Zpos mx / 2 ^ (n1 - 1) < 2 * mB + 1) as Hh.
        { apply Z.div_lt_upper_bound; [exact HR|].
          rewrite HQ in Hlt. lia. }
        assert (m1 <= mB) by lia.
        apply Z.mul_le_mono_nonneg_r; lia.
      + assert (d <= 53 + n1) by lia.
        assert (2 ^ d <= 2 ^ (54 + (n1 - 1))) as Hd
          by (apply Z.pow_le_mono_r; lia).
        rewrite Z.pow_add_r in Hd by lia.
        assert (Zpos mx / 2 ^ (n1 - 1) < 2 ^ 54) as Hh.
        { apply Z.div_lt_upper_bound; [exact HR | lia]. }
        assert (m1 <= 2 ^ 53) by lia.
        replace (eB - ex) with ((eB - e1) + n1) by lia.
        rewrite Z.pow_add_r by lia.
        assert (2 ^ 1 <= 2 ^ (eB - e1)) by (apply Z.pow_le_mono_r; lia).
        change (2 ^ 1) with 2 in *.
        assert (0 < 2 ^ n1) by lia.
        assert (m1 <= mB * 2 ^ (eB - e1))
          by (apply (below_scaled_bound _ _ _ (2 ^ 52)); lia).
        rewrite Z.mul_assoc. apply Z.mul_le_mono_nonneg_r; lia. }
  (* second stage *)
  assert (0 <= Z.max n2 0) as Hn2 by lia.
  assert (0 < 2 ^ Z.max n2 0) as HS by (apply Z.pow_pos_nonneg; lia).
  assert (shr_m mrs2 * 2 ^ Z.max n2 0 <= m1) as Hfloor.
  { rewrite Hm2, Z.mul_comm. apply Z.mul_div_le. exact HS. }
  assert (0 <= shr_m mrs2) as Hm2pos
    by (rewrite Hm2; apply Z.div_pos; lia).
  destruct (shr_m mrs2) as [|p|p] eqn:Hres; [left; reflexivity | | lia].
  right. exists p, e2.
  assert (0 < m1) as Hm1pos.
  { assert (0 < Zpos p * 2 ^ Z.max n2 0) by (apply Z.mul_pos_pos; lia). lia. }
  assert (0 < 2 ^ (e1 - ex)) as HT by (apply Z.pow_pos_nonneg; lia).
  assert (Zpos p * 2 ^ (e2 - ex) <= mB * 2 ^ (eB - ex)) as HV2.
  { replace (e2 - ex) with (Z.max n2 0 + (e1 - ex)) by lia.
    rewrite Z.pow_add_r by lia. rewrite Z.mul_assoc.
    apply Z.le_trans with (m1 * 2 ^ (e1 - ex)); [|exact HV1].
    apply Z.mul_le_mono_nonneg_r; lia. }
  assert (e2 <= eB) as He2B.
  { destruct (Z.le_gt_cases n2 0) as [Hn|Hn]; [lia|].
    assert (m1 < 2 ^ (53 + (eB - e1))) as Hx.
    { rewrite Z.pow_add_r by lia.
      assert (2 ^ (eB - ex) = 2 ^ (eB - e1) * 2 ^ (e1 - ex)) as Hsplit
        by (rewrite <- Z.pow_add_r by lia; f_equal; lia).
      assert (0 < 2 ^ (eB - e1)) by (apply Z.pow_pos_nonneg; lia).
      rewrite Hsplit in HV1.
      apply (scaled_lt_cancel _ mB (2 ^ (e1 - ex))); [exact HT | lia | lia | exact HV1]. }
    pose proof (Zdigits2_le m1 _ Hm1pos Hx). lia. }
  split; [|split; [lia | exact HV2]].
  exponent_in_range e2.
  reflexivity.
Qed.

(** A mantissa that is already on the exponent of its format comes back
    as it is. *)
Lemma round_canonical (m : positive) (e : Z) :
  Z.max (Zdigits2 (Zpos m) + e - 53) (-1074) = e →
  e <= 971 →
  binary_round_aux Float.prec Float.emax false (Zpos m) e loc_Exact = S754_finite false m e.
Proof.
  intros Hcan He. unfold binary_round_aux.
  destruct (shr_fexp _ _ (Zpos m) e loc_Exact) as [mrs1 e1] eqn:Hs1.
  destruct (shr_fexp _ _ (round_nearest_even (shr_m mrs1) (loc_of_shr_record mrs1))
              e1 loc_Exact) as [mrs2 e2] eqn:Hs2.
  pose proof (round_stage _ _ _ _ (Pos2Z.is_nonneg m) Hs1) as Hst1. cbv zeta in Hst1.
  destruct Hst1 as (He1 & Hm1 & Hexact & _).
  rewrite Hcan, Z.sub_diag in He1, Hexact. rewrite Z.max_id, Z.add_0_r in He1.
  specialize (Hexact ltac:(lia)). rewrite Hexact in Hs2. subst e1.
  pose proof (shr_fexp_exact _ _ _ _ (Pos2Z.is_nonneg m) Hs2) as Hst2. cbv zeta in Hst2.
  destruct Hst2 as (He2 & Hm2 & _ & _).
  rewrite Hcan, Z.sub_diag, Z.max_id in He2, Hm2.
  rewrite Z.pow_0_r, Z.div_1_r in Hm2. rewrite Z.add_0_r in He2. subst e2.
  rewrite Hm2.
  exponent_in_range e.
  reflexivity.
Qed.

Lemma iter_xO_pow (m k : positive) : Zpos (Pos.iter xO m k) = Zpos m * 2 ^ Zpos k.
Proof.
  induction k as [|k IH] using Pos.peano_ind.
  - cbn [Pos.iter]. rewrite Z.pow_1_r. lia.
  - rewrite Pos.iter_succ, Pos2Z.inj_succ, Z.pow_succ_r by lia.
    pose proof (Pos2Z.inj_xO (Pos.iter xO m k)) as HxO. lia.
Qed.

(** *** The conversion of an [int] to [float] *)

(** Below [2^53] the conversion is exact. *)
Lemma of_int_small (D : Z) :
  0 < D < 2 ^ 53 →
  ∃ (mF : positive) (eF : Z),
    Float.of_int D = Return (S754_finite false mF eF)
    ∧ 2 ^ 52 <= Zpos mF < 2 ^ 53
    ∧ -52 <= eF <= 0
    ∧ Zpos mF = D * 2 ^ (- eF).
Proof.
  intros [Hpos Hlt]. destruct D as [|p|p]; try lia.
  pose proof (Zdigits2_bounds (Zpos p) Hpos) as [Hdlo Hdhi].
  pose proof (Zdigits2_pos (Zpos p) Hpos) as Hdpos.
  pose proof (Zdigits2_le (Zpos p) 53 Hpos Hlt) as Hd53.
  unfold Float.of_int, binary_normalize, binary_round, shl_align.
  rewrite fexp_binary64.
  change (Zpos (digits2_pos p)) with (Zdigits2 (Zpos p)).
  set (d := Zdigits2 (Zpos p)) in *.
  rewrite Z.add_0_r, Z.sub_0_r, Z.max_l by lia.
  destruct (d - 53) as [|k|k] eqn:Hk; try lia.
  - exists p, 0.
    rewrite round_canonical by (fold d; lia). cbn [Float.is_finite].
    replace d with 53 in * by lia.
    change (- 0) with 0. rewrite Z.pow_0_r. repeat split; try lia.
  - exists (Pos.iter xO p k), (Zneg k).
    assert (Zpos (Pos.iter xO p k) = Zpos p * 2 ^ (53 - d)) as Hmz
      by (rewrite iter_xO_pow; f_equal; f_equal; lia).
    assert (2 ^ (52 + 1) = 2 ^ (d - 1 + 1) * 2 ^ (53 - d)) as H53
      by (rewrite <- Z.pow_add_r by lia; f_equal; lia).
    assert (2 ^ 52 = 2 ^ (d - 1) * 2 ^ (53 - d)) as H52
      by (rewrite <- Z.pow_add_r by lia; f_equal; lia).
    replace (d - 1 + 1) with d in H53 by lia. change (52 + 1) with 53 in H53.
    assert (0 < 2 ^ (53 - d)) as Hs by (apply Z.pow_pos_nonneg; lia).
    assert (2 ^ 52 <= Zpos (Pos.iter xO p k) < 2 ^ 53) as Hrange.
    { rewrite Hmz, H52, H53. split.
      - apply Z.mul_le_mono_nonneg_r; lia.
      - apply Z.mul_lt_mono_pos_r; lia. }
    rewrite round_canonical.
    + cbn [Float.is_finite]. repeat split; try lia.
      rewrite Hmz. f_equal. f_equal. lia.
    + rewrite (Zdigits2_unique _ 53) by (try lia; exact Hrange). lia.
    + lia.
Qed.

(** From [2^53] on the conversion rounds to nearest; it is finite below
    [2^1024 - 2^970], and then not more than half a unit in the last
    place above its argument. *)
Lemma of_int_large (D : Z) :
  2 ^ 53 <= D < 2 ^ 1024 - 2 ^ 970 →
  ∃ (mF : positive) (eF : Z),
    Float.of_int D = Return (S754_finite false mF eF)
    ∧ 2 ^ 52 <= Zpos mF < 2 ^ 53
    ∧ 1 <= eF <= 971
    ∧ (2 * Zpos mF - 1) * 2 ^ (eF - 1) <= D.
Proof.
  intros [Hlo Hhi].
  assert (0 < D) as Hpos by (pose proof (Z.pow_pos_nonneg 2 53); lia).
  destruct D as [|p|p]; try lia.
  pose proof (Zdigits2_bounds (Zpos p) Hpos) as [Hdlo Hdhi].
  pose proof (Zdigits2_gt (Zpos p) 53 ltac:(lia) Hlo) as Hd53.
  assert (Zdigits2 (Zpos p) <= 1024) as Hd1024.
  { apply Zdigits2_le; [lia|]. pose proof (Z.pow_pos_nonneg 2 970). lia. }
  unfold Float.of_int, binary_normalize, binary_round, shl_align.
  rewrite fexp_binary64.
  change (Zpos (digits2_pos p)) with (Zdigits2 (Zpos p)).
  set (d := Zdigits2 (Zpos p)) in *.
  rewrite Z.add_0_r, Z.sub_0_r, Z.max_l by lia.
  destruct (d - 53) as [|k|k] eqn:Hk; try lia.
  unfold binary_round_aux.
  destruct (shr_fexp _ _ (Zpos p) 0 loc_Exact) as [mrs1 e1] eqn:Hs1.
  destruct (shr_fexp _ _ (round_nearest_even (shr_m mrs1) (loc_of_shr_record mrs1))
              e1 loc_Exact) as [mrs2 e2] eqn:Hs2.
  pose proof (round_stage _ _ _ _ (Pos2Z.is_nonneg p) Hs1) as Hst1. cbv zeta in Hst1.
  destruct Hst1 as (He1 & Hm1 & _ & Hround).
  set (m1 := round_nearest_even (shr_m mrs1) (loc_of_shr_record mrs1)) in *.
  pose proof (shr_fexp_exact _ _ _ _ Hm1 Hs2) as Hst2. cbv zeta in Hst2.
  destruct Hst2 as (He2 & Hm2 & _ & _).
  fold d in He1, Hround.
  rewrite Z.add_0_r, Z.sub_0_r, Z.max_l in He1, Hround by lia.
  rewrite Z.add_0_l, Z.max_l in He1 by lia.
  set (n1 := d - 53) in *.
  destruct (Hround ltac:(lia)) as [Hq Hh].
  assert (0 < 2 ^ (n1 - 1)) as HR by (apply Z.pow_pos_nonneg; lia).
  assert (2 ^ n1 = 2 * 2 ^ (n1 - 1)) as HQ.
  { replace n1 with (Z.succ (n1 - 1)) at 1 by lia. apply Z.pow_succ_r. lia. }
  assert (2 ^ (d - 1) = 2 ^ 52 * 2 ^ n1) as Hd1
    by (rewrite <- Z.pow_add_r by lia; f_equal; lia).
  assert (2 ^ d = 2 ^ 54 * 2 ^ (n1 - 1)) as Hd2
    by (rewrite <- Z.pow_add_r by lia; f_equal; lia).
  assert (2 ^ 52 <= Zpos p / 2 ^ n1) as Hqlo
    by (apply Z.div_le_lower_bound; lia).
  assert (Zpos p / 2 ^ (n1 - 1) < 2 ^ 54) as Hhhi
    by (apply Z.div_lt_upper_bound; lia).
  assert (2 ^ (n1 - 1) * (Zpos p / 2 ^ (n1 - 1)) <= Zpos p) as Hfloor
    by (apply Z.mul_div_le; lia).
  set (h := Zpos p / 2 ^ (n1 - 1)) in *.
  assert (2 ^ 52 <= m1 <= 2 ^ 53) as Hm1range by lia.
  (* at the top exponent the mantissa does not carry *)
  assert (n1 = 971 → m1 < 2 ^ 53) as Htop.
  { intros Htop. assert (h < 2 ^ 54 - 1); [|lia].
    apply Z.div_lt_upper_bound; [exact HR|].
    replace (n1 - 1) with 970 by lia. lia. }
  destruct (Z.eq_dec m1 (2 ^ 53)) as [Hcarry|Hnocarry].
  - (* the rounded mantissa is [2^53]: one more shift *)
    assert (Zdigits2 m1 = 54) as Hd54 by (apply Zdigits2_unique; lia).
    rewrite Hd54 in He2, Hm2.
    replace (Z.max (Z.max (54 + e1 - 53) (-1074) - e1) 0) with 1 in He2, Hm2 by lia.
    rewrite Hcarry in Hm2. change (2 ^ 53 / 2 ^ 1) with (2 ^ 52) in Hm2.
    rewrite Hm2. change (2 ^ 52) with (Zpos (2 ^ 52)%positive) at 1.
    cbv iota beta.
    exponent_in_range e2.
    cbn [Float.is_finite]. exists (2 ^ 52)%positive, e2.
    split; [reflexivity|].
    change (Zpos (2 ^ 52)%positive) with (2 ^ 52).
    split; [lia|]. split; [lia|].
    replace (e2 - 1) with n1 by lia. rewrite HQ. nia.
  - assert (Zdigits2 m1 = 53) as Hd53' by (apply Zdigits2_unique; lia).
    rewrite Hd53' in He2, Hm2.
    replace (Z.max (Z.max (53 + e1 - 53) (-1074) - e1) 0) with 0 in He2, Hm2 by lia.
    rewrite Z.pow_0_r, Z.div_1_r in Hm2. rewrite Z.add_0_r in He2. subst e2.
    rewrite Hm2. destruct m1 as [|pm|pm] eqn:Hm1eq; try lia.
    exponent_in_range e1.
    cbn [Float.is_finite]. exists pm, e1.
    split; [reflexivity|]. split; [lia|]. split; [lia|].
    rewrite He1. nia.
Qed.

(** *** Samples of the unit interval *)

Lemma unit_interval_cases (u : float) :
  unit_interval u = true →
  (∃ s, u = S754_zero s)
  ∨ ∃ (mu : positive) (eu : Z),
      u = S754_finite false mu eu ∧ eu <= -53 ∧ Zpos mu < 2 ^ 53.
Proof.
  intros Hu. apply unit_interval_inv in Hu. destruct Hu as (Hvalid & Hge & Hlt).
  destruct u as [s|s| |s mu eu].
  - left. exists s. reflexivity.
  - destruct s; discriminate.
  - discriminate.
  - right. destruct s; [discriminate|]. exists mu, eu. split; [reflexivity|].
    unfold Float.valid, valid_binary, bounded, canonical_mantissa in Hvalid.
    apply andb_true_iff in Hvalid. destruct Hvalid as [Hcan _].
    apply Z.eqb_eq in Hcan. rewrite fexp_binary64 in Hcan.
    change (Zpos (digits2_pos mu)) with (Zdigits2 (Zpos mu)) in Hcan.
    pose proof (Zdigits2_bounds (Zpos mu) ltac:(lia)) as [Hdlo Hdhi].
    pose proof (Zdigits2_pos (Zpos mu) ltac:(lia)) as Hdpos.
    unfold Float.ltb, Float.one in Hlt. apply SFltb_finite_pos_Z in Hlt.
    assert (Zdigits2 (Zpos mu) <= 53) as Hd by lia.
    assert (2 ^ Zdigits2 (Zpos mu) <= 2 ^ 53) by (apply Z.pow_le_mono_r; lia).
    split; [|lia].
    destruct Hlt as [Hlt|[-> Hlt]]; [lia|exfalso].
    assert (Zpos mu < 2 ^ 52) as Hmu by lia.
    pose proof (Zdigits2_le (Zpos mu) 52 ltac:(lia) Hmu). lia.
Qed.

(** *** Comparing a float with an integer *)

(** From a bound [B = mB * 2^eB] that is an integer not above [n], or
    equal to [n] on a negative exponent. *)
Lemma le_int_scaled (m2 : positive) (e2 mB eB ex n : Z) :
  ex <= e2 → ex <= eB →
  Zpos m2 * 2 ^ (e2 - ex) <= mB * 2 ^ (eB - ex) →
  (0 <= eB ∧ mB * 2 ^ eB <= n) ∨ (eB < 0 ∧ mB = n * 2 ^ (- eB)) →
  Float.le_int (S754_finite false m2 e2) n = true.
Proof.
  intros He2 HeB Hle Hbound.
  set (L := Z.min ex 0).
  assert (0 < 2 ^ (ex - L)) as HexL by (apply Z.pow_pos_nonneg; lia).
  assert (0 < 2 ^ (- L)) as HL by (apply Z.pow_pos_nonneg; lia).
  assert (Zpos m2 * 2 ^ (e2 - L) <= mB * 2 ^ (eB - L)) as Hle'.
  { replace (e2 - L) with ((e2 - ex) + (ex - L)) by lia.
    replace (eB - L) with ((eB - ex) + (ex - L)) by lia.
    rewrite !Z.pow_add_r, !Z.mul_assoc by lia.
    apply Z.mul_le_mono_nonneg_r; lia. }
  assert (mB * 2 ^ (eB - L) <= n * 2 ^ (- L)) as HB.
  { destruct Hbound as [[H0 Hn]|[H0 ->]].
    - replace (eB - L) with (eB + (- L)) by lia.
      rewrite Z.pow_add_r, Z.mul_assoc by lia.
      apply Z.mul_le_mono_nonneg_r; lia.
    - rewrite <- Z.mul_assoc, <- Z.pow_add_r by lia.
      replace (- eB + (eB - L)) with (- L) by lia. lia. }
  assert (Zpos m2 * 2 ^ (e2 - L) <= n * 2 ^ (- L)) as Hfinal by lia.
  unfold Float.le_int.
  destruct (Z.leb_spec 0 e2) as [Hpos|Hneg]; apply Z.leb_le.
  - replace (e2 - L) with (e2 + (- L)) in Hfinal by lia.
    rewrite Z.pow_add_r, Z.mul_assoc in Hfinal by lia.
    apply Z.mul_le_mono_pos_r in Hfinal; assumption.
  - replace (- L) with ((- e2) + (e2 - L)) in Hfinal by lia.
    rewrite Z.pow_add_r, Z.mul_assoc in Hfinal by lia.
    apply Z.mul_le_mono_pos_r in Hfinal; [assumption|].
    apply Z.pow_pos_nonneg; lia.
Qed.

Lemma int_le_zero_finite (m : positive) (e : Z) :
  Float.int_le 0 (S754_finite false m e) = true.
Proof.
  unfold Float.int_le. destruct (0 <=? e); apply Z.leb_le.
  - pose proof (Z.pow_nonneg 2 e). nia.
  - lia.
Qed.

(** *** The sampled delay *)

Lemma add_zero_bounds (x : float) (D : Z) :
  0 <= D →
  x = S754_zero false ∨ x = S754_zero true
  ∨ (∃ (m : positive) (e : Z), x = S754_finite false m e ∧ Float.le_int x D = true) →
  Float.int_le 0 (Float.add Float.zero x) = true
  ∧ Float.le_int (Float.add Float.zero x) D = true.
Proof.
  intros HD [->|[->|(m & e & -> & Hle)]].
  - split; [reflexivity | apply Z.leb_le; exact HD].
  - split; [reflexivity | apply Z.leb_le; exact HD].
  - change (Float.add Float.zero (S754_finite false m e)) with (S754_finite false m e).
    split; [apply int_le_zero_finite | exact Hle].
Qed.

(** The product of the converted bound and a sample of [[0, 1)], as
    [random.uniform(0, D)] computes it, lies between [0] and [D]. *)
Lemma uniform_delay_bounds (D : Z) (u : float) :
  0 < D < 2 ^ 1024 - 2 ^ 970 →
  unit_interval u = true →
  ∃ width : float,
    Float.of_int D = Return width
    ∧ Float.int_le 0 (Float.add Float.zero (Float.mul width u)) = true
    ∧ Float.le_int (Float.add Float.zero (Float.mul width u)) D = true.
Proof.
  intros [Hpos Hhi] Hu.
  assert (∃ (mF : positive) (eF mB eB : Z),
            Float.of_int D = Return (S754_finite false mF eF)
            ∧ 2 ^ 52 <= mB < 2 ^ 53 ∧ -1074 <= eB <= 971 ∧ eF - 1 <= eB
            ∧ ((0 <= eB ∧ mB * 2 ^ eB <= D) ∨ (eB < 0 ∧ mB = D * 2 ^ (- eB)))
            ∧ ∀ (mu k : Z), 0 < mu < 2 ^ 53 → 0 <= k →
                2 * (Zpos mF * mu) < (2 * mB + 1) * 2 ^ (eB - eF + 53 + k))
    as (mF & eF & mB & eB & Hconv & HmB & HeB & HeFB & HBD & Hprod).
  { destruct (Z.lt_ge_cases D (2 ^ 53)) as [Hsmall|Hlarge].
    - destruct (of_int_small D (conj Hpos Hsmall)) as (mF & eF & Hconv & HmF & HeF & Hexact).
      exists mF, eF, (Zpos mF), eF. split; [exact Hconv|].
      split; [exact HmF|]. split; [lia|]. split; [lia|]. split.
      + destruct (Z.eq_dec eF 0) as [->|Hne].
        * left. change (- 0) with 0 in Hexact. rewrite Z.pow_0_r in *. lia.
        * right. split; [lia | exact Hexact].
      + intros mu k Hmu Hk. replace (eF - eF + 53 + k) with (53 + k) by lia.
        rewrite Z.pow_add_r by lia.
        assert (1 <= 2 ^ k) by (pose proof (Z.pow_pos_nonneg 2 k); lia).
        nia.
    - destruct (of_int_large D (conj Hlarge Hhi)) as (mF & eF & Hconv & HmF & HeF & Hhalf).
      assert (2 ^ eF = 2 * 2 ^ (eF - 1)) as HeF2.
      { replace eF with (Z.succ (eF - 1)) at 1 by lia. apply Z.pow_succ_r. lia. }
      assert (0 < 2 ^ (eF - 1)) by (apply Z.pow_pos_nonneg; lia).
      destruct (Z.eq_dec (Zpos mF) (2 ^ 52)) as [Hpow|Hnot].
      + exists mF, eF, (2 ^ 53 - 1), (eF - 1). split; [exact Hconv|].
        split; [lia|]. split; [lia|]. split; [lia|]. split.
        * left. split; [lia|]. rewrite Hpow in Hhalf. lia.
        * intros mu k Hmu Hk. replace (eF - 1 - eF + 53 + k) with (52 + k) by lia.
          rewrite Z.pow_add_r by lia. rewrite Hpow.
          assert (1 <= 2 ^ k) by (pose proof (Z.pow_pos_nonneg 2 k); lia).
          nia.
      + exists mF, eF, (Zpos mF - 1), eF. split; [exact Hconv|].
        split; [lia|]. split; [lia|]. split; [lia|]. split.
        * left. split; [lia|]. rewrite HeF2. nia.
        * intros mu k Hmu Hk. replace (eF - eF + 53 + k) with (53 + k) by lia.
          rewrite Z.pow_add_r by lia.
          assert (1 <= 2 ^ k) by (pose proof (Z.pow_pos_nonneg 2 k); lia).
          nia. }
  exists (S754_finite false mF eF). split; [exact Hconv|].
  apply add_zero_bounds; [lia|].
  destruct (unit_interval_cases u Hu) as [[s ->]|(mu & eu & -> & Heu & Hmu)].
  - destruct s; [right; left | left]; reflexivity.
  - unfold Float.mul, SFmul. cbn [xorb].
    assert (2 * Zpos (mF * mu) < (2 * mB + 1) * 2 ^ (eB - (eF + eu))) as Hlt.
    { rewrite Pos2Z.inj_mul.
      replace (eB - (eF + eu)) with (eB - eF + 53 + (- 53 - eu)) by lia.
      apply Hprod; lia. }
    destruct (round_below (mF * mu) (eF + eu) mB eB HmB HeB ltac:(lia) Hlt)
      as [Hzero|(m2 & e2 & Hfin & He2 & Hle)].
    + left. exact Hzero.
    + right. right. exists m2, e2. split; [exact Hfin|].
      rewrite Hfin. apply (le_int_scaled m2 e2 mB eB (eF + eu) D); try lia; assumption.
Qed.

(** *** Integers too large for binary64 *)

Lemma round_nearest_even_up (mrs : shr_record) :
  shr_r mrs = true →
  Z.odd (shr_m mrs) = true →
  round_nearest_even (shr_m mrs) (loc_of_shr_record mrs) = shr_m mrs + 1.
Proof.
  destruct mrs as [q r s]. cbn [shr_m shr_r]. intros -> Hodd.
  destruct s; cbn [loc_of_shr_record round_nearest_even]; [reflexivity|].
  rewrite <- Z.negb_odd, Hodd. reflexivity.
Qed.

(** From [2^1024 - 2^970] on, the conversion rounds to a number that is
    not finite, and raises. *)
Lemma of_int_overflow (D : Z) :
  2 ^ 1024 - 2 ^ 970 <= D → Float.of_int D = Raise OverflowError.
Proof.
  intros Hlo.
  assert (2 ^ 1024 = 2 ^ 54 * 2 ^ 970) as H1024
    by (rewrite <- Z.pow_add_r by lia; reflexivity).
  assert (2 ^ 1023 = 2 ^ 53 * 2 ^ 970) as H1023
    by (rewrite <- Z.pow_add_r by lia; reflexivity).
  assert (0 < 2 ^ 970) as H970 by (apply Z.pow_pos_nonneg; lia).
  assert (2 ^ 1023 <= D) as Hbig by lia.
  assert (0 < D) as Hpos by lia.
  destruct D as [|p|p]; try lia.
  pose proof (Zdigits2_bounds (Zpos p) Hpos) as [Hdlo Hdhi].
  pose proof (Zdigits2_gt (Zpos p) 1023 ltac:(lia) Hbig) as Hd.
  unfold Float.of_int, binary_normalize, binary_round, shl_align.
  rewrite fexp_binary64.
  change (Zpos (digits2_pos p)) with (Zdigits2 (Zpos p)).
  set (d := Zdigits2 (Zpos p)) in *.
  rewrite Z.add_0_r, Z.sub_0_r, Z.max_l by lia.
  destruct (d - 53) as [|k|k] eqn:Hk; try lia.
  unfold binary_round_aux.
  destruct (shr_fexp _ _ (Zpos p) 0 loc_Exact) as [mrs1 e1] eqn:Hs1.
  destruct (shr_fexp _ _ (round_nearest_even (shr_m mrs1) (loc_of_shr_record mrs1))
              e1 loc_Exact) as [mrs2 e2] eqn:Hs2.
  pose proof (round_stage _ _ _ _ (Pos2Z.is_nonneg p) Hs1) as Hst1. cbv zeta in Hst1.
  destruct Hst1 as (He1 & Hm1 & _ & Hround).
  pose proof (shr_fexp_exact _ _ _ _ (Pos2Z.is_nonneg p) Hs1) as Hex1. cbv zeta in Hex1.
  destruct Hex1 as (_ & Hq1 & _ & Hr1).
  set (m1 := round_nearest_even (shr_m mrs1) (loc_of_shr_record mrs1)) in *.
  pose proof (shr_fexp_exact _ _ _ _ Hm1 Hs2) as Hst2. cbv zeta in Hst2.
  destruct Hst2 as (He2 & Hm2 & _ & _).
  fold d in He1, Hround, Hq1, Hr1.
  rewrite Z.add_0_r, Z.sub_0_r, Z.max_l in He1, Hround, Hq1, Hr1 by lia.
  rewrite Z.add_0_l, Z.max_l in He1 by lia. rewrite Z.max_l in Hq1 by lia.
  set (n1 := d - 53) in *.
  destruct (Hround ltac:(lia)) as [Hq Hh]. specialize (Hr1 ltac:(lia)).
  assert (0 < 2 ^ (n1 - 1)) as HR by (apply Z.pow_pos_nonneg; lia).
  assert (2 ^ n1 = 2 * 2 ^ (n1 - 1)) as HQ.
  { replace n1 with (Z.succ (n1 - 1)) at 1 by lia. apply Z.pow_succ_r. lia. }
  assert (2 ^ (d - 1) = 2 ^ 52 * 2 ^ n1) as Hd1
    by (rewrite <- Z.pow_add_r by lia; f_equal; lia).
  assert (2 ^ d = 2 ^ 54 * 2 ^ (n1 - 1)) as Hd2
    by (rewrite <- Z.pow_add_r by lia; f_equal; lia).
  assert (2 ^ 52 <= Zpos p / 2 ^ n1) as Hqlo
    by (apply Z.div_le_lower_bound; lia).
  assert (Zpos p / 2 ^ (n1 - 1) < 2 ^ 54) as Hhhi
    by (apply Z.div_lt_upper_bound; lia).
  set (h := Zpos p / 2 ^ (n1 - 1)) in *.
  assert (2 ^ 52 <= m1 <= 2 ^ 53) as Hm1range by lia.
  (* at the top exponent the mantissa carries *)
  assert (n1 = 971 → m1 = 2 ^ 53) as Htop.
  { intros Htop. assert (2 ^ 54 - 1 <= h) as Hhlo.
    { apply Z.div_le_lower_bound; [exact HR|].
      replace (n1 - 1) with 970 by lia. lia. }
    assert (h = 2 ^ 54 - 1) as Hheq by lia.
    assert (Zpos p / 2 ^ n1 = 2 ^ 53 - 1) as Hqeq.
    { rewrite HQ, Z.mul_comm, <- Z.div_div by lia. fold h. rewrite Hheq. reflexivity. }
    unfold m1. rewrite round_nearest_even_up.
    - rewrite Hq1, Hqeq. lia.
    - rewrite Hr1, Hheq. reflexivity.
    - rewrite Hq1, Hqeq. reflexivity. }
  assert (0 < shr_m mrs2 ∧ 971 < e2) as [Hm2pos He2big].
  { destruct (Z.eq_dec m1 (2 ^ 53)) as [Hcarry|Hnocarry].
    - assert (Zdigits2 m1 = 54) as Hd54 by (apply Zdigits2_unique; lia).
      rewrite Hd54 in He2, Hm2.
      replace (Z.max (Z.max (54 + e1 - 53) (-1074) - e1) 0) with 1 in He2, Hm2 by lia.
      rewrite Hcarry in Hm2. change (2 ^ 53 / 2 ^ 1) with (2 ^ 52) in Hm2.
      rewrite Hm2. lia.
    - assert (Zdigits2 m1 = 53) as Hd53' by (apply Zdigits2_unique; lia).
      rewrite Hd53' in He2, Hm2.
      replace (Z.max (Z.max (53 + e1 - 53) (-1074) - e1) 0) with 0 in He2, Hm2 by lia.
      rewrite Z.pow_0_r, Z.div_1_r in Hm2. rewrite Hm2. lia. }
  destruct (shr_m mrs2) as [|pm|pm]; try lia.
  assert ((e2 <=? Float.emax - Float.prec) = false) as ->
    by (apply Z.leb_gt; change (Float.emax - Float.prec) with 971; lia).
  reflexivity.
Qed.

(** ** The delay branch *)

(** The bound on the maximal delay is sharp: from [2^1024 - 2^970] on,
    an enabled injector that reaches the delay branch raises
    [OverflowError] after its two draws, without a log record and without
    a call of [asyncio.sleep]. The integer just below converts to the
    largest finite binary64 number. *)
Lemma delay_overflows_from_threshold (w : world) (config : chaos_config) :
  get_chaos_config (environ w) = Return config →
  CHAOS_ENABLED config = true →
  Float.ltb (rng w (draws w)) (CHAOS_INJECT_ERROR_RATE config) = false →
  2 ^ 1024 - 2 ^ 970 <= CHAOS_DELAY_SECONDS_MAX config →
  inject_chaos_if_enabled w = (Raise OverflowError, drawn (drawn w)).
Proof.
  intros Hload Hon Hno HD.
  assert (0 < 2 ^ 1024 - 2 ^ 970) by (vm_compute; reflexivity).
  rewrite (inject_delay_branch w config Hload Hon Hno) by lia.
  rewrite of_int_overflow by exact HD. reflexivity.
Qed.

Lemma of_int_below_threshold :
  Float.of_int (2 ^ 1024 - 2 ^ 970 - 1) =
    Return (S754_finite false 9007199254740991 971).
Proof. vm_compute. reflexivity. Qed.

(** C4, as stated, fails: with [CHAOS_ENABLED=true],
    [CHAOS_INJECT_ERROR_RATE=0.0] and [CHAOS_DELAY_SECONDS_MAX] set to
    [10^309], a positive integer, [random.uniform] raises
    [OverflowError] when it converts the bound to [float]; the call
    raises after its two draws, and [asyncio.sleep] is not called. *)
Lemma delay_overflow_counterexample :
  let w := initial_world (patch_env "true" "0.0" ten_pow_309) (fun _ => half) in
  let config := {| CHAOS_ENABLED := true;
                   CHAOS_INJECT_ERROR_RATE := Float.zero;
                   CHAOS_DELAY_SECONDS_MAX := 10 ^ 309 |} in
  get_chaos_config (environ w) = Return config
  ∧ 0 < CHAOS_DELAY_SECONDS_MAX config
  ∧ unit_interval (rng w 0) = true
  ∧ unit_interval (rng w 1) = true
  ∧ inject_chaos_if_enabled w = (Raise OverflowError, drawn (drawn w))
  ∧ sleeps (snd (inject_chaos_if_enabled w)) = []
  ∧ ¬ delay_injected w config.
Proof.
  intros w config.
  assert (inject_chaos_if_enabled w = (Raise OverflowError, drawn (drawn w))) as Hrun
    by (vm_compute; reflexivity).
  split; [vm_compute; reflexivity|].
  split; [vm_compute; reflexivity|].
  split; [vm_compute; reflexivity|].
  split; [vm_compute; reflexivity|].
  split; [exact Hrun|].
  split; [rewrite Hrun; reflexivity|].
  intros (d & Hd & _). rewrite Hrun in Hd. discriminate.
Qed.

(** C4, amended. With [enabled = true], an error rate equal to [0.0]
    and a maximal delay [D] with [0 < D < 2^1024 - 2^970], so that [D]
    converts to a finite [float], every call whose two samples are in
    [[0, 1)] returns after exactly one call of [asyncio.sleep], with a
    sampled argument [d] such that [0 <= d <= D], and one logged delay
    event. *)
Theorem delay_injected_once_within_bound (w : world) (config : chaos_config) :
  get_chaos_config (environ w) = Return config →
  CHAOS_ENABLED config = true →
  Float.eqb (CHAOS_INJECT_ERROR_RATE config) Float.zero = true →
  0 < CHAOS_DELAY_SECONDS_MAX config < 2 ^ 1024 - 2 ^ 970 →
  unit_interval (rng w (draws w)) = true →
  unit_interval (rng w (S (draws w))) = true →
  delay_injected w config.
Proof.
  intros Hload Hon Hrate HD Hp Hu.
  apply unit_interval_inv in Hp. destruct Hp as (_ & Hge & _).
  assert (Float.ltb (rng w (draws w)) (CHAOS_INJECT_ERROR_RATE config) = false) as Hno
    by (apply ltb_nonneg_nonpos; [exact Hge | apply eqb_leb, Hrate]).
  destruct (uniform_delay_bounds _ _ HD Hu) as (width & Hconv & Hlo & Hhi).
  exists (Float.add Float.zero (Float.mul width (rng w (S (draws w))))).
  split; [|split; assumption].
  rewrite (inject_delay_branch w config Hload Hon Hno) by lia.
  rewrite Hconv. reflexivity.
Qed.

Lemma delay_injected_once_within_bound_witness :
  let w := initial_world (patch_env "true" "0.0" "2") (fun _ => half) in
  let config := {| CHAOS_ENABLED := true;
                   CHAOS_INJECT_ERROR_RATE := Float.zero;
                   CHAOS_DELAY_SECONDS_MAX := 2 |} in
  get_chaos_config (environ w) = Return config ∧ delay_injected w config.
Proof.
  intros w config.
  assert (get_chaos_config (environ w) = Return config) as Hload
    by (vm_compute; reflexivity).
  split; [exact Hload|].
  apply (delay_injected_once_within_bound w config Hload);
    try reflexivity.
  split; vm_compute; reflexivity.
Defined.

(** ** Every run of the injector *)

Lemma get_chaos_config_raises (env : gmap string string) (e : exn) :
  get_chaos_config env = Raise e → e = ValueError.
Proof.
  rewrite get_chaos_config_unfold.
  destruct (py_float _) as [x|e1] eqn:Hf.
  - destruct (py_int _) as [n|e2] eqn:Hi; [discriminate|].
    intros H. injection H as <-. exact (py_int_raises _ _ Hi).
  - intros H. injection H as <-. exact (py_float_raises _ _ Hf).
Qed.

(** The five ways through [inject_chaos_if_enabled], and the loader's
    failure before them. *)
Lemma inject_paths (w : world) :
  let p := rng w (draws w) in
  (get_chaos_config (environ w) = Raise ValueError
   ∧ inject_chaos_if_enabled w = (Raise ValueError, w))
  ∨ ∃ config : chaos_config,
      get_chaos_config (environ w) = Return config
      ∧ ((CHAOS_ENABLED config = false
          ∧ inject_chaos_if_enabled w = (Return tt, w))
         ∨ (CHAOS_ENABLED config = true
            ∧ Float.ltb p (CHAOS_INJECT_ERROR_RATE config) = true
            ∧ inject_chaos_if_enabled w =
                (Raise (ChaosException error_message),
                 logged (error_record p config) (drawn w)))
         ∨ (CHAOS_ENABLED config = true
            ∧ Float.ltb p (CHAOS_INJECT_ERROR_RATE config) = false
            ∧ CHAOS_DELAY_SECONDS_MAX config <= 0
            ∧ inject_chaos_if_enabled w = (Return tt, drawn w))
         ∨ (CHAOS_ENABLED config = true
            ∧ Float.ltb p (CHAOS_INJECT_ERROR_RATE config) = false
            ∧ 0 < CHAOS_DELAY_SECONDS_MAX config
            ∧ Float.of_int (CHAOS_DELAY_SECONDS_MAX config) = Raise OverflowError
            ∧ inject_chaos_if_enabled w = (Raise OverflowError, drawn (drawn w)))
         ∨ (∃ width d : float,
              CHAOS_ENABLED config = true
              ∧ Float.ltb p (CHAOS_INJECT_ERROR_RATE config) = false
              ∧ 0 < CHAOS_DELAY_SECONDS_MAX config
              ∧ Float.of_int (CHAOS_DELAY_SECONDS_MAX config) = Return width
              ∧ d = Float.add Float.zero (Float.mul width (rng w (S (draws w))))
              ∧ inject_chaos_if_enabled w =
                  (Return tt,
                   slept d (logged (delay_record d p config) (drawn (drawn w)))))).
Proof.
  cbv zeta.
  destruct (get_chaos_config (environ w)) as [config|e] eqn:Hload.
  2: { left. apply get_chaos_config_raises in Hload as He. subst e.
       split; [reflexivity|]. rewrite inject_unfold, Hload. reflexivity. }
  right. exists config. split; [reflexivity|].
  destruct (CHAOS_ENABLED config) eqn:Hon.
  2: { left. split; [reflexivity|]. rewrite inject_unfold, Hload, Hon. reflexivity. }
  right.
  destruct (Float.ltb (rng w (draws w)) (CHAOS_INJECT_ERROR_RATE config)) eqn:Hlt.
  { left. split; [reflexivity|]. split; [reflexivity|].
    apply (inject_error_branch w config Hload Hon Hlt). }
  right.
  destruct (Z.lt_ge_cases 0 (CHAOS_DELAY_SECONDS_MAX config)) as [Hpos|Hnonpos].
  2: { left. split; [reflexivity|]. split; [reflexivity|]. split; [lia|].
       apply (inject_skip_branch w config Hload Hon Hlt). lia. }
  right.
  pose proof (inject_delay_branch w config Hload Hon Hlt Hpos) as Hrun.
  destruct (Float.of_int (CHAOS_DELAY_SECONDS_MAX config)) as [width|e] eqn:Hconv.
  - right. exists width, (Float.add Float.zero (Float.mul width (rng w (S (draws w))))).
    repeat (split; [first [reflexivity | assumption]|]). exact Hrun.
  - left. apply of_int_raises in Hconv as He. subst e.
    repeat (split; [first [reflexivity | assumption]|]). exact Hrun.
Qed.

(** What a run added, path by path. *)
Lemma new_log_drawn (w : world) : new_log w (drawn w) = [].
Proof. unfold new_log. cbn [log drawn]. apply skipn_all. Qed.

Lemma new_sleeps_drawn (w : world) : new_sleeps w (drawn w) = [].
Proof. unfold new_sleeps. cbn [sleeps drawn]. apply skipn_all. Qed.

Lemma new_log_drawn2 (w : world) : new_log w (drawn (drawn w)) = [].
Proof. unfold new_log. cbn [log drawn]. apply skipn_all. Qed.

Lemma new_sleeps_drawn2 (w : world) : new_sleeps w (drawn (drawn w)) = [].
Proof. unfold new_sleeps. cbn [sleeps drawn]. apply skipn_all. Qed.

Lemma new_log_error (w : world) (r : log_record) : new_log w (logged r (drawn w)) = [r].
Proof. unfold new_log. cbn [log logged drawn]. apply skipn_length_app. Qed.

Lemma new_sleeps_error (w : world) (r : log_record) : new_sleeps w (logged r (drawn w)) = [].
Proof. unfold new_sleeps. cbn [sleeps logged drawn]. apply skipn_all. Qed.

Lemma new_log_delay (w : world) (r : log_record) (d : float) :
  new_log w (slept d (logged r (drawn (drawn w)))) = [r].
Proof. unfold new_log. cbn [log slept logged drawn]. apply skipn_length_app. Qed.

Lemma new_sleeps_delay (w : world) (r : log_record) (d : float) :
  new_sleeps w (slept d (logged r (drawn (drawn w)))) = [d].
Proof. unfold new_sleeps. cbn [sleeps slept logged drawn]. apply skipn_length_app. Qed.

Lemma delay_record_seconds (d p : float) (config : chaos_config) :
  extra (delay_record d p config) !! "delay_seconds" = Some (PyFloat d).
Proof. reflexivity. Qed.

Lemma delay_record_is_delay (d p : float) (config : chaos_config) :
  is_event "delay" (delay_record d p config) = true.
Proof. reflexivity. Qed.

Lemma delay_record_not_error (d p : float) (config : chaos_config) :
  is_event "error" (delay_record d p config) = false.
Proof. reflexivity. Qed.


Lemma error_record_not_delay (p : float) (config : chaos_config) :
  is_event "delay" (error_record p config) = false.
Proof. reflexivity. Qed.

Ltac by_paths w :=
  let config := fresh "config" in
  let Hload := fresh "Hload" in
  let Hon := fresh "Hon" in
  let Hlt := fresh "Hlt" in
  let HD := fresh "HD" in
  let Hconv := fresh "Hconv" in
  let Hrun := fresh "Hrun" in
  let width := fresh "width" in
  let delay := fresh "delay" in
  let Hdelay := fresh "Hdelay" in
  destruct (inject_paths w)
    as [[Hload Hrun]
       |(config & Hload &
         [(Hon & Hrun)
         |[(Hon & Hlt & Hrun)
          |[(Hon & Hlt & HD & Hrun)
           |[(Hon & Hlt & HD & Hconv & Hrun)
            |(width & delay & Hon & Hlt & HD & Hconv & Hdelay & Hrun)]]]])];
  rewrite Hrun; cbn [fst snd];
  rewrite ?new_log_same, ?new_sleeps_same, ?new_log_drawn, ?new_sleeps_drawn,
    ?new_log_drawn2, ?new_sleeps_drawn2, ?new_log_error, ?new_sleeps_error,
    ?new_log_delay, ?new_sleeps_delay.

(** X1. Whatever the environment and the samples, a call of
    [inject_chaos_if_enabled] leaves the environment and the random
    source as they are, draws at most two samples, and only appends to
    the log and to the sleeps: at most one record and at most one call
    of [asyncio.sleep], the records and the sleeps made before the call
    being kept. *)
Theorem inject_only_appends (w : world) :
  let w' := snd (inject_chaos_if_enabled w) in
  environ w' = environ w
  ∧ rng w' = rng w
  ∧ (draws w <= draws w' <= draws w + 2)%nat
  ∧ log w' = log w ++ new_log w w'
  ∧ (length (new_log w w') <= 1)%nat
  ∧ sleeps w' = sleeps w ++ new_sleeps w w'
  ∧ (length (new_sleeps w w') <= 1)%nat.
Proof.
  cbv zeta. by_paths w;
    cbn [environ rng draws log sleeps slept logged drawn length];
    rewrite ?app_nil_r; repeat split; lia.
Qed.

(** X2. The delay that is slept is the delay that is logged: a call
    makes its call of [asyncio.sleep] with the argument [d] if and only
    if the one record it logs is a delay event whose [delay_seconds] is
    [d]. *)
Theorem slept_delay_is_logged_delay (w : world) (d : float) :
  let w' := snd (inject_chaos_if_enabled w) in
  new_sleeps w w' = [d] ↔
  ∃ r : log_record,
    new_log w w' = [r]
    ∧ is_event "delay" r = true
    ∧ extra r !! "delay_seconds" = Some (PyFloat d).
Proof.
  cbv zeta. by_paths w;
    try (split; [discriminate | intros (r & Hr & _); discriminate]).
  - split; [discriminate|]. intros (r & Hr & Hev & _).
    injection Hr as <-. rewrite error_record_not_delay in Hev. discriminate.
  - split.
    + intros H. injection H as <-. eexists. split; [reflexivity|].
      split; [apply delay_record_is_delay | apply delay_record_seconds].
    + intros (r & Hr & _ & Hd). injection Hr as <-.
      rewrite delay_record_seconds in Hd. injection Hd as ->. reflexivity.
Qed.



(** ** Error rates that are not finite *)

Lemma environ_get_set (env : gmap string string) (k v d : string) :
  env !! k = Some v → environ_get env k d = v.
Proof. intros H. unfold environ_get. rewrite H. reflexivity. Qed.

Lemma py_float_nan : py_float "nan" = Return nan.
Proof. vm_compute. reflexivity. Qed.

Lemma py_float_inf : py_float "inf" = Return infinity.
Proof. vm_compute. reflexivity. Qed.

Lemma ltb_nan (p : float) : Float.ltb p nan = false.
Proof. destruct p as [s|s| |s m e]; try destruct s; reflexivity. Qed.

Lemma ltb_infinity (p : float) : unit_interval p = true → Float.ltb p infinity = true.
Proof.
  intros Hp. destruct (unit_interval_cases p Hp) as [[s ->]|(m & e & -> & _)];
    reflexivity.
Qed.

(** A loaded rate is what [float] makes of the variable. *)
Lemma loaded_rate (env : gmap string string) (config : chaos_config) (v : string) (x : float) :
  env !! "CHAOS_INJECT_ERROR_RATE" = Some v →
  py_float v = Return x →
  get_chaos_config env = Return config →
  CHAOS_INJECT_ERROR_RATE config = x.
Proof.
  intros Hv Hx. rewrite get_chaos_config_unfold.
  rewrite (environ_get_set _ _ _ _ Hv), Hx.
  destruct (py_int _); [|discriminate].
  intros H. injection H as <-. reflexivity.
Qed.

(** An enabled call that does not take the error branch raises no
    [ChaosException]. *)
Lemma no_chaos_without_error_branch (w : world) (config : chaos_config) :
  get_chaos_config (environ w) = Return config →
  CHAOS_ENABLED config = true →
  Float.ltb (rng w (draws w)) (CHAOS_INJECT_ERROR_RATE config) = false →
  raises_chaos (fst (inject_chaos_if_enabled w)) = false.
Proof.
  intros Hload Hon Hno.
  destruct (Z.lt_ge_cases 0 (CHAOS_DELAY_SECONDS_MAX config)) as [Hpos|Hnonpos].
  - rewrite (inject_delay_branch w config Hload Hon Hno Hpos).
    destruct (Float.of_int _) as [width|e] eqn:Hconv; [reflexivity|].
    apply of_int_raises in Hconv. subst e. reflexivity.
  - rewrite (inject_skip_branch w config Hload Hon Hno) by lia. reflexivity.
Qed.

(** X5. The loader accepts the rates "nan" and "inf". With the injector
    enabled, a rate that is not a number never takes the error branch,
    whatever the sample, and a rate that is infinite takes it for every
    sample of [[0, 1)]. *)
Theorem non_finite_error_rate (w : world) (config : chaos_config) :
  get_chaos_config (environ w) = Return config →
  CHAOS_ENABLED config = true →
  (environ w !! "CHAOS_INJECT_ERROR_RATE" = Some "nan" →
     CHAOS_INJECT_ERROR_RATE config = nan
     ∧ raises_chaos (fst (inject_chaos_if_enabled w)) = false)
  ∧ (environ w !! "CHAOS_INJECT_ERROR_RATE" = Some "inf" →
     unit_interval (rng w (draws w)) = true →
     CHAOS_INJECT_ERROR_RATE config = infinity
     ∧ inject_chaos_if_enabled w =
         (Raise (ChaosException error_message),
          logged (error_record (rng w (draws w)) config) (drawn w))).
Proof.
  intros Hload Hon. split.
  - intros Hv. pose proof (loaded_rate _ _ _ _ Hv py_float_nan Hload) as Hrate.
    split; [exact Hrate|].
    apply (no_chaos_without_error_branch w config Hload Hon).
    rewrite Hrate. apply ltb_nan.
  - intros Hv Hp. pose proof (loaded_rate _ _ _ _ Hv py_float_inf Hload) as Hrate.
    split; [exact Hrate|].
    apply (inject_error_branch w config Hload Hon).
    rewrite Hrate. apply ltb_infinity, Hp.
Qed.

Lemma non_finite_error_rate_witness :
  let w := initial_world (patch_env "true" "nan" "0") (fun _ => half) in
  let w' := initial_world (patch_env "true" "inf" "0") (fun _ => half) in
  (get_chaos_config (environ w) =
     Return {| CHAOS_ENABLED := true;
               CHAOS_INJECT_ERROR_RATE := nan;
               CHAOS_DELAY_SECONDS_MAX := 0 |}
   ∧ raises_chaos (fst (inject_chaos_if_enabled w)) = false)
  ∧ fst (inject_chaos_if_enabled w') = Raise (ChaosException error_message).
Proof.
  intros w w'.
  pose (config := {| CHAOS_ENABLED := true;
                     CHAOS_INJECT_ERROR_RATE := nan;
                     CHAOS_DELAY_SECONDS_MAX := 0 |}).
  pose (config' := {| CHAOS_ENABLED := true;
                      CHAOS_INJECT_ERROR_RATE := infinity;
                      CHAOS_DELAY_SECONDS_MAX := 0 |}).
  assert (get_chaos_config (environ w) = Return config) as Hload
    by (vm_compute; reflexivity).
  assert (get_chaos_config (environ w') = Return config') as Hload'
    by (vm_compute; reflexivity).
  split.
  - split; [exact Hload|].
    apply (proj1 (non_finite_error_rate w config Hload eq_refl)). reflexivity.
  - destruct (proj2 (non_finite_error_rate w' config' Hload' eq_refl)) as [_ Hrun];
      [reflexivity | reflexivity |].
    rewrite Hrun. reflexivity.
Defined.

(** ** The error branch is monotone in the rate *)

Lemma SFltb_leb_trans (x y z : float) :
  SFltb x y = true → SFleb y z = true → SFltb x z = true.
Proof.
  intros Hxy Hyz.
  destruct (SFltb y z) eqn:Hlt; [exact (SFltb_trans x y z Hxy Hlt)|].
  (* [y] and [z] compare equal *)
  revert Hxy Hyz Hlt. unfold SFltb, SFleb.
  destruct x as [sx|sx| |sx mx ex], y as [sy|sy| |sy my ey], z as [sz|sz| |sz mz ez];
    repeat match goal with s : bool |- _ => destruct s end;
    cbn [SFcompare]; try discriminate; try (intros; assumption);
    rewrite ?(compare_cont_Eq mx my), ?(compare_cont_Eq my mz), ?(compare_cont_Eq mx mz);
    destruct (Z.compare_spec ey ez); try discriminate;
    destruct (Pos.compare_spec my mz); cbn [CompOpp]; try discriminate;
    subst; intros; assumption.
Qed.

(** X6. Raising the error rate never turns a failure into a success:
    of two enabled calls that draw the same sample, if the one with the
    lower rate raises [ChaosException], so does the one with the higher
    rate. *)
Theorem failure_monotone_in_rate (w1 w2 : world) (c1 c2 : chaos_config) :
  get_chaos_config (environ w1) = Return c1 →
  get_chaos_config (environ w2) = Return c2 →
  CHAOS_ENABLED c1 = true →
  CHAOS_ENABLED c2 = true →
  rng w1 (draws w1) = rng w2 (draws w2) →
  Float.leb (CHAOS_INJECT_ERROR_RATE c1) (CHAOS_INJECT_ERROR_RATE c2) = true →
  raises_chaos (fst (inject_chaos_if_enabled w1)) = true →
  raises_chaos (fst (inject_chaos_if_enabled w2)) = true.
Proof.
  intros Hload1 Hload2 Hon1 Hon2 Hsame Hle Hfail.
  destruct (Float.ltb (rng w1 (draws w1)) (CHAOS_INJECT_ERROR_RATE c1)) eqn:Hlt.
  - rewrite (inject_error_branch w2 c2 Hload2 Hon2); [reflexivity|].
    rewrite <- Hsame. exact (SFltb_leb_trans _ _ _ Hlt Hle).
  - rewrite (no_chaos_without_error_branch w1 c1 Hload1 Hon1 Hlt) in Hfail.
    discriminate.
Qed.

Lemma failure_monotone_in_rate_witness :
  let w1 := initial_world (patch_env "true" "0.25" "3") (fun _ => tenth) in
  let w2 := initial_world (patch_env "true" "0.5" "0") (fun _ => tenth) in
  raises_chaos (fst (inject_chaos_if_enabled w1)) = true
  ∧ raises_chaos (fst (inject_chaos_if_enabled w2)) = true.
Proof.
  intros w1 w2.
  assert (raises_chaos (fst (inject_chaos_if_enabled w1)) = true) as Hfail
    by (vm_compute; reflexivity).
  split; [exact Hfail|].
  apply (failure_monotone_in_rate w1 w2
           {| CHAOS_ENABLED := true;
              CHAOS_INJECT_ERROR_RATE := quarter;
              CHAOS_DELAY_SECONDS_MAX := 3 |}
           {| CHAOS_ENABLED := true;
              CHAOS_INJECT_ERROR_RATE := half;
              CHAOS_DELAY_SECONDS_MAX := 0 |});
    first [exact Hfail | vm_compute; reflexivity].
Defined.

(** ** The switch *)

Lemma get_chaos_config_setenv_enabled (env : gmap string string) (v : string) :
  get_chaos_config (<["CHAOS_ENABLED" := v]> env) =
  match get_chaos_config env with
  | Raise e => Raise e
  | Return config =>
      Return {| CHAOS_ENABLED := existsb (eq_ignore_case v) truthy;
                CHAOS_INJECT_ERROR_RATE := CHAOS_INJECT_ERROR_RATE config;
                CHAOS_DELAY_SECONDS_MAX := CHAOS_DELAY_SECONDS_MAX config |}
  end.
Proof.
  rewrite !get_chaos_config_unfold.
  rewrite environ_get_insert, !environ_get_insert_ne by discriminate.
  rewrite enabled_ignores_case.
  destruct (py_float _); [|reflexivity]. destruct (py_int _); reflexivity.
Qed.

(** The injector reads its environment through the loader only. *)
Lemma inject_same_config (w1 w2 : world) :
  get_chaos_config (environ w1) = get_chaos_config (environ w2) →
  same_but_environ w1 w2 →
  fst (inject_chaos_if_enabled w1) = fst (inject_chaos_if_enabled w2)
  ∧ same_but_environ (snd (inject_chaos_if_enabled w1)) (snd (inject_chaos_if_enabled w2)).
Proof.
  intros Hcfg (Hrng & Hdraws & Hlog & Hsleeps).
  rewrite !inject_unfold, <- Hcfg.
  destruct (get_chaos_config (environ w1)) as [config|e];
    [|split; [reflexivity | repeat split; assumption]].
  destruct (CHAOS_ENABLED config); cbn [negb];
    [|split; [reflexivity | repeat split; assumption]].
  cbv zeta. rewrite <- Hrng, <- Hdraws.
  destruct (Float.ltb _ _).
  { split; [reflexivity|]. unfold same_but_environ.
    cbn [fst snd rng draws log sleeps logged drawn]. rewrite Hlog. auto. }
  destruct (0 <? _).
  2: { split; [reflexivity|]. unfold same_but_environ.
       cbn [fst snd rng draws log sleeps drawn]. auto. }
  rewrite !delay_branch_run. cbn [rng draws drawn]. rewrite <- Hrng, <- Hdraws.
  destruct (Float.of_int _) as [width|e]; cbv zeta;
    (split; [reflexivity|]); unfold same_but_environ;
    cbn [fst snd rng draws log sleeps slept logged drawn];
    rewrite ?Hlog, ?Hsleeps; auto.
Qed.

(** X7. Of the value of [CHAOS_ENABLED] only its truth matters: setting
    the variable to two values that are both among "true", "1", "yes" up
    to case, or both not, gives two calls with the same result, the same
    draws, the same log and the same sleeps. *)
Theorem only_truth_of_enabled_matters (w : world) (v1 v2 : string) :
  existsb (eq_ignore_case v1) truthy = existsb (eq_ignore_case v2) truthy →
  let run1 := inject_chaos_if_enabled (setenv "CHAOS_ENABLED" v1 w) in
  let run2 := inject_chaos_if_enabled (setenv "CHAOS_ENABLED" v2 w) in
  fst run1 = fst run2 ∧ same_but_environ (snd run1) (snd run2).
Proof.
  intros Htruth. cbv zeta. apply inject_same_config.
  - cbn [environ setenv]. rewrite !get_chaos_config_setenv_enabled, Htruth. reflexivity.
  - repeat split.
Qed.

Lemma only_truth_of_enabled_matters_witness :
  let w := initial_world (patch_env "false" "1.0" "3") (fun _ => half) in
  fst (inject_chaos_if_enabled (setenv "CHAOS_ENABLED" "YES" w)) =
    fst (inject_chaos_if_enabled (setenv "CHAOS_ENABLED" "1" w))
  ∧ same_but_environ (snd (inject_chaos_if_enabled (setenv "CHAOS_ENABLED" "YES" w)))
      (snd (inject_chaos_if_enabled (setenv "CHAOS_ENABLED" "1" w))).
Proof.
  intros w. apply (only_truth_of_enabled_matters w "YES" "1"). reflexivity.
Defined.

(** ** Whitespace in the switch *)

Lemma is_space_lower_char (c : ascii) : is_space c = true → lower_char c = c.
Proof.
  assert (forallb (fun c => implb (is_space c) (Ascii.eqb (lower_char c) c)) all_ascii
          = true) as Hall by (vm_compute; reflexivity).
  rewrite forallb_forall in Hall. specialize (Hall c (in_all_ascii c)).
  intros Hc. rewrite Hc in Hall. apply Ascii.eqb_eq. exact Hall.
Qed.

Lemma has_space_lower (s : string) : has_space s = true → has_space (lower s) = true.
Proof.
  unfold has_space. induction s as [|c s IH]; [discriminate|].
  cbn [lower list_ascii_of_string existsb]. rewrite !orb_true_iff.
  intros [Hc|Hs]; [left | right; auto].
  rewrite (is_space_lower_char c Hc). exact Hc.
Qed.

Lemma str_in_has_space (s : string) (l : list string) :
  str_in s l = true → has_space s = true → existsb has_space l = true.
Proof.
  induction l as [|t l IH]; [discriminate|].
  cbn [str_in existsb]. rewrite !orb_true_iff.
  intros [Heq|Hin] Hs; [left | right; auto].
  apply String.eqb_eq in Heq. subst t. exact Hs.
Qed.

(** X8. The value of [CHAOS_ENABLED] is not stripped: a value with a
    whitespace character anywhere in it, as "true" followed by a newline
    or preceded by a space, leaves the injector disabled. *)
Theorem enabled_value_is_not_stripped (env : gmap string string) (v : string)
    (config : chaos_config) :
  env !! "CHAOS_ENABLED" = Some v →
  has_space v = true →
  get_chaos_config env = Return config →
  CHAOS_ENABLED config = false.
Proof.
  intros Hv Hs. rewrite get_chaos_config_unfold, (environ_get_set _ _ _ _ Hv).
  destruct (py_float _); [|discriminate]. destruct (py_int _); [|discriminate].
  intros H. injection H as <-. cbn [CHAOS_ENABLED].
  change (str_in (lower v) truthy = false).
  destruct (str_in (lower v) truthy) eqn:Hin; [exfalso | reflexivity].
  pose proof (str_in_has_space _ _ Hin (has_space_lower v Hs)) as Hbad.
  vm_compute in Hbad. discriminate.
Qed.

Lemma enabled_value_is_not_stripped_witness :
  get_chaos_config (patch_env "true " "1.0" "3") =
    Return {| CHAOS_ENABLED := false;
              CHAOS_INJECT_ERROR_RATE := Float.one;
              CHAOS_DELAY_SECONDS_MAX := 3 |}
  ∧ CHAOS_ENABLED {| CHAOS_ENABLED := false;
                     CHAOS_INJECT_ERROR_RATE := Float.one;
                     CHAOS_DELAY_SECONDS_MAX := 3 |} = false.
Proof.
  assert (get_chaos_config (patch_env "true " "1.0" "3") =
            Return {| CHAOS_ENABLED := false;
                      CHAOS_INJECT_ERROR_RATE := Float.one;
                      CHAOS_DELAY_SECONDS_MAX := 3 |}) as Hload
    by (vm_compute; reflexivity).
  split; [exact Hload|].
  apply (enabled_value_is_not_stripped (patch_env "true " "1.0" "3") "true " _
           eq_refl eq_refl Hload).
Defined.

(** ** The maximal delay is never slept *)

(** The conversion of an integer from [2^53] on, with the number just
    below the result: the predecessor of the result lies strictly below
    the integer, also when the result is a power of two. *)
Lemma of_int_large_pred (D : Z) :
  2 ^ 53 <= D < 2 ^ 1024 - 2 ^ 970 →
  ∃ (mF : positive) (eF : Z),
    Float.of_int D = Return (S754_finite false mF eF)
    ∧ 2 ^ 52 <= Zpos mF < 2 ^ 53
    ∧ 1 <= eF <= 971
    ∧ (2 * Zpos mF - 1) * 2 ^ (eF - 1) <= D
    ∧ (Zpos mF = 2 ^ 52 → (2 ^ 53 - 1) * 2 ^ (eF - 1) < D).
Proof.
  intros [Hlo Hhi].
  assert (0 < D) as Hpos by (pose proof (Z.pow_pos_nonneg 2 53); lia).
  destruct D as [|p|p]; try lia.
  pose proof (Zdigits2_bounds (Zpos p) Hpos) as [Hdlo Hdhi].
  pose proof (Zdigits2_gt (Zpos p) 53 ltac:(lia) Hlo) as Hd53.
  assert (Zdigits2 (Zpos p) <= 1024) as Hd1024.
  { apply Zdigits2_le; [lia|]. pose proof (Z.pow_pos_nonneg 2 970). lia. }
  unfold Float.of_int, binary_normalize, binary_round, shl_align.
  rewrite fexp_binary64.
  change (Zpos (digits2_pos p)) with (Zdigits2 (Zpos p)).
  set (d := Zdigits2 (Zpos p)) in *.
  rewrite Z.add_0_r, Z.sub_0_r, Z.max_l by lia.
  destruct (d - 53) as [|k|k] eqn:Hk; try lia.
  unfold binary_round_aux.
  destruct (shr_fexp _ _ (Zpos p) 0 loc_Exact) as [mrs1 e1] eqn:Hs1.
  destruct (shr_fexp _ _ (round_nearest_even (shr_m mrs1) (loc_of_shr_record mrs1))
              e1 loc_Exact) as [mrs2 e2] eqn:Hs2.
  pose proof (round_stage _ _ _ _ (Pos2Z.is_nonneg p) Hs1) as Hst1. cbv zeta in Hst1.
  destruct Hst1 as (He1 & Hm1 & _ & Hround).
  set (m1 := round_nearest_even (shr_m mrs1) (loc_of_shr_record mrs1)) in *.
  pose proof (shr_fexp_exact _ _ _ _ Hm1 Hs2) as Hst2. cbv zeta in Hst2.
  destruct Hst2 as (He2 & Hm2 & _ & _).
  fold d in He1, Hround.
  rewrite Z.add_0_r, Z.sub_0_r, Z.max_l in He1, Hround by lia.
  rewrite Z.add_0_l, Z.max_l in He1 by lia.
  set (n1 := d - 53) in *.
  destruct (Hround ltac:(lia)) as [Hq Hh].
  assert (0 < 2 ^ (n1 - 1)) as HR by (apply Z.pow_pos_nonneg; lia).
  assert (2 ^ n1 = 2 * 2 ^ (n1 - 1)) as HQ.
  { replace n1 with (Z.succ (n1 - 1)) at 1 by lia. apply Z.pow_succ_r. lia. }
  assert (2 ^ (d - 1) = 2 ^ 52 * 2 ^ n1) as Hd1
    by (rewrite <- Z.pow_add_r by lia; f_equal; lia).
  assert (2 ^ d = 2 ^ 54 * 2 ^ (n1 - 1)) as Hd2
    by (rewrite <- Z.pow_add_r by lia; f_equal; lia).
  assert (2 ^ 52 <= Zpos p / 2 ^ n1) as Hqlo
    by (apply Z.div_le_lower_bound; lia).
  assert (Zpos p / 2 ^ (n1 - 1) < 2 ^ 54) as Hhhi
    by (apply Z.div_lt_upper_bound; lia).
  assert (2 ^ (n1 - 1) * (Zpos p / 2 ^ (n1 - 1)) <= Zpos p) as Hfloor
    by (apply Z.mul_div_le; lia).
  set (h := Zpos p / 2 ^ (n1 - 1)) in *.
  assert (2 ^ 52 <= m1 <= 2 ^ 53) as Hm1range by lia.
  assert (n1 = 971 → m1 < 2 ^ 53) as Htop.
  { intros Htop. assert (h < 2 ^ 54 - 1); [|lia].
    apply Z.div_lt_upper_bound; [exact HR|].
    replace (n1 - 1) with 970 by lia. lia. }
  destruct (Z.eq_dec m1 (2 ^ 53)) as [Hcarry|Hnocarry].
  - assert (Zdigits2 m1 = 54) as Hd54 by (apply Zdigits2_unique; lia).
    rewrite Hd54 in He2, Hm2.
    replace (Z.max (Z.max (54 + e1 - 53) (-1074) - e1) 0) with 1 in He2, Hm2 by lia.
    rewrite Hcarry in Hm2. change (2 ^ 53 / 2 ^ 1) with (2 ^ 52) in Hm2.
    rewrite Hm2. change (2 ^ 52) with (Zpos (2 ^ 52)%positive) at 1.
    cbv iota beta.
    exponent_in_range e2.
    cbn [Float.is_finite]. exists (2 ^ 52)%positive, e2.
    split; [reflexivity|].
    change (Zpos (2 ^ 52)%positive) with (2 ^ 52).
    split; [lia|]. split; [lia|].
    replace (e2 - 1) with n1 by lia. rewrite HQ.
    assert (2 ^ 54 - 1 <= h) as Hhlo by lia.
    assert ((2 ^ 54 - 1) * 2 ^ (n1 - 1) <= h * 2 ^ (n1 - 1)) as Hmul
      by (apply Z.mul_le_mono_nonneg_r; lia).
    split; [|intros _]; lia.
  - assert (Zdigits2 m1 = 53) as Hd53' by (apply Zdigits2_unique; lia).
    rewrite Hd53' in He2, Hm2.
    replace (Z.max (Z.max (53 + e1 - 53) (-1074) - e1) 0) with 0 in He2, Hm2 by lia.
    rewrite Z.pow_0_r, Z.div_1_r in Hm2. rewrite Z.add_0_r in He2. subst e2.
    rewrite Hm2. destruct m1 as [|pm|pm] eqn:Hm1eq; try lia.
    exponent_in_range e1.
    cbn [Float.is_finite]. exists pm, e1.
    split; [reflexivity|]. split; [lia|]. split; [lia|].
    rewrite He1. replace (n1 + 0) with n1 by lia.
    assert ((2 * Zpos pm - 1) * 2 ^ (n1 - 1) <= h * 2 ^ (n1 - 1)) as Hmul
      by (apply Z.mul_le_mono_nonneg_r; lia).
    split; [lia|]. intros _. lia.
Qed.

(** A float not above a bound [B = mB * 2^eB] that lies strictly below
    the integer [n] is strictly below [n]. *)
Lemma lt_int_scaled (m2 : positive) (e2 mB eB ex n : Z) :
  ex <= e2 → ex <= eB →
  Zpos m2 * 2 ^ (e2 - ex) <= mB * 2 ^ (eB - ex) →
  (0 <= eB ∧ mB * 2 ^ eB < n) ∨ (eB < 0 ∧ mB < n * 2 ^ (- eB)) →
  lt_int (S754_finite false m2 e2) n = true.
Proof.
  intros He2 HeB Hle Hbound.
  set (L := Z.min ex 0).
  assert (0 < 2 ^ (ex - L)) as HexL by (apply Z.pow_pos_nonneg; lia).
  assert (0 < 2 ^ (- L)) as HL by (apply Z.pow_pos_nonneg; lia).
  assert (0 < 2 ^ (eB - L)) as HBL by (apply Z.pow_pos_nonneg; lia).
  assert (0 < 2 ^ (e2 - L)) as H2L by (apply Z.pow_pos_nonneg; lia).
  assert (Zpos m2 * 2 ^ (e2 - L) <= mB * 2 ^ (eB - L)) as Hle'.
  { replace (e2 - L) with ((e2 - ex) + (ex - L)) by lia.
    replace (eB - L) with ((eB - ex) + (ex - L)) by lia.
    rewrite !Z.pow_add_r, !Z.mul_assoc by lia.
    apply Z.mul_le_mono_nonneg_r; lia. }
  assert (mB * 2 ^ (eB - L) < n * 2 ^ (- L)) as HB.
  { destruct Hbound as [[H0 Hn]|[H0 Hn]].
    - replace (eB - L) with (eB + (- L)) by lia.
      rewrite Z.pow_add_r, Z.mul_assoc by lia.
      apply Z.mul_lt_mono_pos_r; lia.
    - replace (- L) with (- eB + (eB - L)) by lia.
      rewrite Z.pow_add_r, Z.mul_assoc by lia.
      apply Z.mul_lt_mono_pos_r; lia. }
  assert (Zpos m2 * 2 ^ (e2 - L) < n * 2 ^ (- L)) as Hfinal by lia.
  unfold lt_int.
  destruct (Z.leb_spec 0 e2) as [Hpos|Hneg]; apply Z.ltb_lt.
  - replace (e2 - L) with (e2 + (- L)) in Hfinal by lia.
    rewrite Z.pow_add_r, Z.mul_assoc in Hfinal by lia.
    apply Z.mul_lt_mono_pos_r in Hfinal; assumption.
  - replace (- L) with ((- e2) + (e2 - L)) in Hfinal by lia.
    rewrite Z.pow_add_r, Z.mul_assoc in Hfinal by lia.
    apply Z.mul_lt_mono_pos_r in Hfinal; assumption.
Qed.

Lemma add_zero_below (x : float) (D : Z) :
  0 < D →
  x = S754_zero false ∨ x = S754_zero true
  ∨ (∃ (m : positive) (e : Z), x = S754_finite false m e ∧ lt_int x D = true) →
  Float.int_le 0 (Float.add Float.zero x) = true
  ∧ lt_int (Float.add Float.zero x) D = true.
Proof.
  intros HD [->|[->|(m & e & -> & Hlt)]].
  - split; [reflexivity | apply Z.ltb_lt; exact HD].
  - split; [reflexivity | apply Z.ltb_lt; exact HD].
  - change (Float.add Float.zero (S754_finite false m e)) with (S754_finite false m e).
    split; [apply int_le_zero_finite | exact Hlt].
Qed.

(** The product of a mantissa of the format and of the mantissa of a
    sample lies below the midpoint above the predecessor. *)
Lemma below_pred_midpoint (mF mu k : Z) :
  2 ^ 52 < mF < 2 ^ 53 → 0 < mu < 2 ^ 53 → 0 <= k →
  2 * (mF * mu) < (2 * (mF - 1) + 1) * 2 ^ (53 + k).
Proof.
  intros HmF Hmu Hk. rewrite Z.pow_add_r by lia.
  assert (1 <= 2 ^ k) by (pose proof (Z.pow_pos_nonneg 2 k); lia).
  nia.
Qed.

Lemma below_pred_midpoint_pow (mu k : Z) :
  0 < mu < 2 ^ 53 → 0 <= k →
  2 * (2 ^ 52 * mu) < (2 * (2 ^ 53 - 1) + 1) * 2 ^ (52 + k).
Proof.
  intros Hmu Hk. rewrite Z.pow_add_r by lia.
  assert (1 <= 2 ^ k) by (pose proof (Z.pow_pos_nonneg 2 k); lia).
  nia.
Qed.

(** The product of the converted bound and a sample of [[0, 1)] lies
    between [0] and the predecessor of the converted bound, which is
    strictly below [D]. *)
Lemma uniform_delay_below (D : Z) (u : float) :
  0 < D < 2 ^ 1024 - 2 ^ 970 →
  unit_interval u = true →
  ∃ width : float,
    Float.of_int D = Return width
    ∧ Float.int_le 0 (Float.add Float.zero (Float.mul width u)) = true
    ∧ lt_int (Float.add Float.zero (Float.mul width u)) D = true.
Proof.
  intros [Hpos Hhi] Hu.
  assert (∃ (mF : positive) (eF mB eB : Z),
            Float.of_int D = Return (S754_finite false mF eF)
            ∧ 2 ^ 52 <= mB < 2 ^ 53 ∧ -1074 <= eB <= 971 ∧ eF - 1 <= eB
            ∧ ((0 <= eB ∧ mB * 2 ^ eB < D) ∨ (eB < 0 ∧ mB < D * 2 ^ (- eB)))
            ∧ ∀ (mu k : Z), 0 < mu < 2 ^ 53 → 0 <= k →
                2 * (Zpos mF * mu) < (2 * mB + 1) * 2 ^ (eB - eF + 53 + k))
    as (mF & eF & mB & eB & Hconv & HmB & HeB & HeFB & HBD & Hprod).
  { assert (∃ (mF : positive) (eF : Z),
              Float.of_int D = Return (S754_finite false mF eF)
              ∧ 2 ^ 52 <= Zpos mF < 2 ^ 53 ∧ -52 <= eF <= 971
              ∧ ((1 <= eF ∧ (2 * Zpos mF - 1) * 2 ^ eF <= 2 * D
                  ∧ (Zpos mF = 2 ^ 52 → (2 ^ 53 - 1) * 2 ^ (eF - 1) < D))
                 ∨ (eF <= 0 ∧ Zpos mF = D * 2 ^ (- eF))))
      as (mF & eF & Hconv & HmF & HeF & Hnear).
    { destruct (Z.lt_ge_cases D (2 ^ 53)) as [Hsmall|Hlarge].
      - destruct (of_int_small D (conj Hpos Hsmall))
          as (mF & eF & Hconv & HmF & HeF & Hexact).
        exists mF, eF. split; [exact Hconv|]. split; [exact HmF|]. split; [lia|].
        right. split; [lia | exact Hexact].
      - destruct (of_int_large_pred D (conj Hlarge Hhi))
          as (mF & eF & Hconv & HmF & HeF & Hhalf & Hpred).
        exists mF, eF. split; [exact Hconv|]. split; [exact HmF|]. split; [lia|].
        left. split; [lia|].
        assert (2 ^ eF = 2 * 2 ^ (eF - 1)) as HeF2.
        { replace eF with (Z.succ (eF - 1)) at 1 by lia. apply Z.pow_succ_r. lia. }
        split; [rewrite HeF2; lia | exact Hpred]. }
    destruct (Z.eq_dec (Zpos mF) (2 ^ 52)) as [Hpow|Hnot].
    - (* the predecessor is on the exponent below *)
      exists mF, eF, (2 ^ 53 - 1), (eF - 1). split; [exact Hconv|].
      split; [lia|]. split; [lia|]. split; [lia|]. split.
      + destruct Hnear as [(H0 & _ & Hp)|(H0 & Hexact)].
        * left. split; [lia | exact (Hp Hpow)].
        * right. split; [lia|].
          replace (- (eF - 1)) with (Z.succ (- eF)) by lia.
          rewrite Z.pow_succ_r by lia. lia.
      + intros mu k Hmu Hk. replace (eF - 1 - eF + 53 + k) with (52 + k) by lia.
        rewrite Hpow. apply below_pred_midpoint_pow; assumption.
    - exists mF, eF, (Zpos mF - 1), eF. split; [exact Hconv|].
      split; [lia|]. split; [lia|]. split; [lia|]. split.
      + destruct Hnear as [(H0 & Hlt & _)|(H0 & Hexact)].
        * left. split; [lia|].
          assert (0 < 2 ^ eF) by (apply Z.pow_pos_nonneg; lia). nia.
        * destruct (Z.eq_dec eF 0) as [->|Hne].
          -- left. change (- 0) with 0 in Hexact. rewrite Z.pow_0_r in *.
             split; lia.
          -- right. split; lia.
      + intros mu k Hmu Hk. replace (eF - eF + 53 + k) with (53 + k) by lia.
        apply below_pred_midpoint; [lia | assumption | assumption]. }
  exists (S754_finite false mF eF). split; [exact Hconv|].
  apply add_zero_below; [lia|].
  destruct (unit_interval_cases u Hu) as [[s ->]|(mu & eu & -> & Heu & Hmu)].
  - destruct s; [right; left | left]; reflexivity.
  - unfold Float.mul, SFmul. cbn [xorb].
    assert (2 * Zpos (mF * mu) < (2 * mB + 1) * 2 ^ (eB - (eF + eu))) as Hlt.
    { rewrite Pos2Z.inj_mul.
      replace (eB - (eF + eu)) with (eB - eF + 53 + (- 53 - eu)) by lia.
      apply Hprod; lia. }
    destruct (round_below (mF * mu) (eF + eu) mB eB HmB HeB ltac:(lia) Hlt)
      as [Hzero|(m2 & e2 & Hfin & He2 & Hle)].
    + left. exact Hzero.
    + right. right. exists m2, e2. split; [exact Hfin|].
      rewrite Hfin. apply (lt_int_scaled m2 e2 mB eB (eF + eu) D); try lia; assumption.
Qed.

(** X9. The sampled delay never reaches the maximum. With the injector
    enabled, the error branch not taken and a maximal delay [D] with
    [0 < D < 2^1024 - 2^970], every call whose second sample is in
    [[0, 1)] sleeps once, for a delay [d] with [0 <= d < D]: the product
    of the converted bound and the sample is rounded to a binary64 number
    strictly below [D], also when [D] itself is rounded up by its
    conversion. *)
Theorem delay_is_below_maximum (w : world) (config : chaos_config) :
  get_chaos_config (environ w) = Return config →
  CHAOS_ENABLED config = true →
  Float.ltb (rng w (draws w)) (CHAOS_INJECT_ERROR_RATE config) = false →
  0 < CHAOS_DELAY_SECONDS_MAX config < 2 ^ 1024 - 2 ^ 970 →
  unit_interval (rng w (S (draws w))) = true →
  ∃ d : float,
    inject_chaos_if_enabled w =
      (Return tt,
       slept d (logged (delay_record d (rng w (draws w)) config) (drawn (drawn w))))
    ∧ Float.int_le 0 d = true
    ∧ lt_int d (CHAOS_DELAY_SECONDS_MAX config) = true.
Proof.
  intros Hload Hon Hno HD Hu.
  destruct (uniform_delay_below _ _ HD Hu) as (width & Hconv & Hlo & Hhi).
  exists (Float.add Float.zero (Float.mul width (rng w (S (draws w))))).
  split; [|split; assumption].
  rewrite (inject_delay_branch w config Hload Hon Hno) by lia.
  rewrite Hconv. reflexivity.
Qed.

Lemma delay_is_below_maximum_witness :
  let w := initial_world (patch_env "true" "0.25" "2") (fun _ => half) in
  let config := {| CHAOS_ENABLED := true;
                   CHAOS_INJECT_ERROR_RATE := quarter;
                   CHAOS_DELAY_SECONDS_MAX := 2 |} in
  get_chaos_config (environ w) = Return config
  ∧ ∃ d : float,
      inject_chaos_if_enabled w =
        (Return tt,
         slept d (logged (delay_record d half config) (drawn (drawn w))))
      ∧ Float.int_le 0 d = true
      ∧ lt_int d 2 = true.
Proof.
  intros w config.
  assert (get_chaos_config (environ w) = Return config) as Hload
    by (vm_compute; reflexivity).
  split; [exact Hload|].
  apply (delay_is_below_maximum w config Hload); try reflexivity.
  split; vm_compute; reflexivity.
Defined.

(** * The stock picker agent *)

Import StockPicker.

(** ** Runs and their traces *)

Lemma fst_bind {A B : Type} (c : Run A) (f : A → Run B) :
  fst (c ≫= f) =
  match fst c with
  | Returned a => fst (f a)
  | Raised e => Raised e
  | Polling => Polling
  end.
Proof.
  unfold mbind, Run_bind. destruct c as [[a|e|] evs]; cbn [fst]; try reflexivity.
  destruct (f a). reflexivity.
Qed.

Lemma snd_bind {A B : Type} (c : Run A) (f : A → Run B) :
  snd (c ≫= f) =
  snd c ++ match fst c with
           | Returned a => snd (f a)
           | _ => []
           end.
Proof.
  unfold mbind, Run_bind. destruct c as [[a|e|] evs]; cbn [fst snd];
    rewrite ?app_nil_r; try reflexivity.
  destruct (f a). reflexivity.
Qed.

Lemma bind_returned {A B : Type} (a : A) (evs : list event) (f : A → Run B) :
  ((Returned a, evs) : Run A) ≫= f = (fst (f a), evs ++ snd (f a)).
Proof. unfold mbind, Run_bind. destruct (f a). reflexivity. Qed.

Lemma bind_raised {A B : Type} (e : error) (evs : list event) (f : A → Run B) :
  ((Raised e, evs) : Run A) ≫= f = (Raised e, evs).
Proof. reflexivity. Qed.

Lemma bind_polling {A B : Type} (evs : list event) (f : A → Run B) :
  ((Polling, evs) : Run A) ≫= f = (Polling, evs).
Proof. reflexivity. Qed.

(** One turn of the [for] loop. *)
Lemma execute_tool_calls_cons (service : sdk) (a : agent) (call : tool_call)
    (rest : list tool_call) (outs : list tool_output) (count : nat) :
  execute_tool_calls service a (call :: rest) outs count =
  let asked := Log "INFO" "Agent %s calling tool: %s with arguments: %s"
                 [VStr (agent_name a); VStr (function_name call);
                  VStr (function_arguments call)] false in
  match execute service count call with
  | Fault e => (Raised e, [asked; Execute call])
  | Reply out =>
      let next := execute_tool_calls service a rest
                    (outs ++ [{| tool_call_id := call_id call; output := out |}])
                    (S count) in
      (fst next,
       [asked; Execute call;
        Log "INFO" "Tool call completed with output length: %d"
          [VInt (String.length out)] false] ++ snd next)
  end.
Proof.
  cbn [execute_tool_calls].
  unfold mbind, mret, Run_bind, Run_ret, logger_info, await. cbv zeta.
  destruct (execute service count call) as [out|e]; cbv beta iota; [|reflexivity].
  destruct (execute_tool_calls service a rest _ (S count)) as [res evs].
  reflexivity.
Qed.

(** One turn of the [while] loop. *)
Lemma monitor_step (fuel : nat) (service : sdk) (a : agent) (t : thread) (r : run)
    (polls count : nat) :
  monitor (S fuel) service a t r polls count =
  let poll := GetRun (thread_id t) (run_id r) in
  match get_run service polls with
  | Fault e => (Raised e, [poll])
  | Reply r' =>
      let status := Log "INFO" "Agent run status: %s" [VStr (run_status r')] false in
      if String.eqb (run_status r') "completed" then
        (Returned count,
         [poll; status; Log "INFO" "Agent run completed successfully" [] false])
      else if String.eqb (run_status r') "failed" then
        (Raised (Exception "Agent run failed"), [poll; status; failed_run_log r'])
      else if String.eqb (run_status r') "requires_action" then
        match required_action r' with
        | None => (Raised AttributeError, [poll; status])
        | Some tool_calls =>
            let asked := Log "INFO" "Agent requires action with %d tool calls"
                           [VInt (length tool_calls)] false in
            let done := execute_tool_calls service a tool_calls [] count in
            match fst done with
            | Returned executed =>
                let submit := SubmitToolOutputs (thread_id t) (run_id r') (fst executed) in
                match submit_tool_outputs_to_run service polls with
                | Fault e => (Raised e, [poll; status; asked] ++ snd done ++ [submit])
                | Reply _ =>
                    let next := monitor fuel service a t r' (S polls) (snd executed) in
                    (fst next, [poll; status; asked] ++ snd done ++ [submit] ++ snd next)
                end
            | Raised e => (Raised e, [poll; status; asked] ++ snd done)
            | Polling => (Polling, [poll; status; asked] ++ snd done)
            end
        end
      else
        let next := monitor fuel service a t r' (S polls) count in
        (fst next, [poll; status] ++ snd next)
  end.
Proof.
  cbn [monitor].
  unfold mbind, mret, Run_bind, Run_ret, logger_info, logger_error, await, raise.
  cbv zeta.
  destruct (get_run service polls) as [r'|e]; cbv beta iota; [|reflexivity].
  destruct (String.eqb (run_status r') "completed"); [reflexivity|].
  destruct (String.eqb (run_status r') "failed"); [reflexivity|].
  destruct (String.eqb (run_status r') "requires_action").
  2: { destruct (monitor fuel service a t r' (S polls) count) as [res evs].
       reflexivity. }
  destruct (required_action r') as [tool_calls|]; [|reflexivity].
  destruct (execute_tool_calls service a tool_calls [] count) as [[executed|e|] evs];
    cbn [fst snd]; [|reflexivity|reflexivity].
  destruct (submit_tool_outputs_to_run service polls) as [u|e]; cbv beta iota.
  - destruct (monitor fuel service a t r' (S polls) (snd executed)) as [res evs'].
    cbn [fst snd app]. rewrite <- ?app_assoc. reflexivity.
  - cbn [fst snd app]. rewrite <- ?app_assoc. reflexivity.
Qed.

(** ** Observations of a trace that is put together *)

Lemma executed_app (evs evs' : list event) :
  executed (evs ++ evs') = executed evs ++ executed evs'.
Proof.
  induction evs as [|ev evs IH]; [reflexivity|].
  destruct ev; cbn [executed app]; rewrite IH; reflexivity.
Qed.

Lemma submitted_app (evs evs' : list event) :
  submitted (evs ++ evs') = submitted evs ++ submitted evs'.
Proof.
  induction evs as [|ev evs IH]; [reflexivity|].
  destruct ev; cbn [submitted app]; rewrite IH, ?app_assoc; reflexivity.
Qed.

Lemma reported_tool_calls_app (evs evs' : list event) :
  reported_tool_calls (evs ++ evs') = reported_tool_calls evs ++ reported_tool_calls evs'.
Proof.
  induction evs as [|ev evs IH]; [reflexivity|].
  destruct ev as [level msg args exc| | | | | | | | | | | | |];
    cbn [reported_tool_calls app]; try exact IH.
  destruct args as [|v1 [|v2 [|v3 [|v4 args]]]]; try exact IH;
    destruct v2; try exact IH.
  destruct (String.eqb msg report_format); [cbn [app]; rewrite IH; reflexivity | exact IH].
Qed.

Lemma polls_made_app (evs evs' : list event) :
  polls_made (evs ++ evs') = (polls_made evs + polls_made evs')%nat.
Proof. unfold polls_made. rewrite List.filter_app, length_app. reflexivity. Qed.

(** A filter that keeps no event of the loop keeps nothing of a trace of
    the loop. *)
Lemma filter_loop_events (keep : event → bool) (evs : list event) :
  (∀ ev, loop_event ev = true → keep ev = false) →
  forallb loop_event evs = true →
  List.filter keep evs = [].
Proof.
  intros Hkeep. induction evs as [|ev evs IH]; [reflexivity|].
  cbn [forallb List.filter]. rewrite andb_true_iff. intros [Hev Hevs].
  rewrite (Hkeep ev Hev). exact (IH Hevs).
Qed.

(** ** The [for] loop over the tool calls *)

(** The outputs of a list of tool calls, in the order of the calls. *)
Lemma execute_tool_calls_spec (service : sdk) (a : agent) (tool_calls : list tool_call) :
  ∀ (outs : list tool_output) (count : nat),
    let done := execute_tool_calls service a tool_calls outs count in
    forallb loop_event (snd done) = true
    ∧ List.filter is_error_log (snd done) = []
    ∧ submitted (snd done) = []
    ∧ reported_tool_calls (snd done) = []
    ∧ polls_made (snd done) = 0%nat
    ∧ fst done ≠ Polling
    ∧ (∀ executed_now, fst done = Returned executed_now →
         executed (snd done) = tool_calls
         ∧ snd executed_now = (count + length tool_calls)%nat
         ∧ length (fst executed_now) = (length outs + length tool_calls)%nat
         ∧ map tool_call_id (fst executed_now) =
             map tool_call_id outs ++ map call_id tool_calls).
Proof.
  induction tool_calls as [|call rest IH]; intros outs count.
  - cbn. do 6 (split; [first [reflexivity | discriminate]|]).
    intros x H. injection H as <-. cbn [fst snd length map].
    rewrite app_nil_r. repeat split; lia.
  - cbv zeta. rewrite execute_tool_calls_cons. cbv zeta.
    destruct (execute service count call) as [out|e].
    + specialize (IH (outs ++ [{| tool_call_id := call_id call; output := out |}])
                     (S count)).
      cbv zeta in IH. destruct IH as (H1 & H2 & H3 & H4 & H5 & H6 & H7).
      cbn [fst snd app].
      do 6 (split; [assumption|]).
      intros x H. destruct (H7 x H) as (Hx1 & Hx2 & Hx3 & Hx4).
      cbn [executed]. rewrite Hx1, Hx2, Hx3, Hx4, length_app, map_app, <- app_assoc.
      cbn [length map app]. repeat split; lia.
    + cbn. do 6 (split; [first [reflexivity | discriminate]|]). discriminate.
Qed.

(** ** The [while] loop *)

Lemma monitor_spec (service : sdk) (a : agent) (t : thread) (fuel : nat) :
  ∀ (r : run) (polls count : nat),
    let m := monitor fuel service a t r polls count in
    forallb loop_event (snd m) = true
    ∧ reported_tool_calls (snd m) = []
    ∧ (polls_made (snd m) <= fuel)%nat
    ∧ match fst m with
      | Returned n =>
          error_logs (snd m) = []
          ∧ n = (count + length (executed (snd m)))%nat
          ∧ length (submitted (snd m)) = length (executed (snd m))
      | Raised e =>
          error_logs (snd m) = []
          ∨ (e = Exception "Agent run failed"
             ∧ ∃ r', run_status r' = "failed" ∧ error_logs (snd m) = [failed_run_log r'])
      | Polling => error_logs (snd m) = [] ∧ polls_made (snd m) = fuel
      end.
Proof.
  induction fuel as [|fuel IH]; intros r polls count; cbv zeta.
  { cbn. split; [reflexivity|]. split; [reflexivity|]. split; [lia|].
    split; reflexivity. }
  rewrite monitor_step. cbv zeta.
  destruct (get_run service polls) as [r'|e].
  2: { cbn. split; [reflexivity|]. split; [reflexivity|]. split; [lia|].
       left; reflexivity. }
  destruct (String.eqb (run_status r') "completed") eqn:Hc.
  { cbn. split; [reflexivity|]. split; [reflexivity|]. split; [lia|].
    split; [reflexivity|]. split; [lia | reflexivity]. }
  destruct (String.eqb (run_status r') "failed") eqn:Hf.
  { cbn. split; [reflexivity|]. split; [reflexivity|]. split; [lia|].
    right. split; [reflexivity|]. exists r'.
    apply String.eqb_eq in Hf. split; [exact Hf | reflexivity]. }
  destruct (String.eqb (run_status r') "requires_action") eqn:Ha.
  - destruct (required_action r') as [tool_calls|].
    2: { cbn. split; [reflexivity|]. split; [reflexivity|]. split; [lia|].
         left; reflexivity. }
    cbv zeta.
    pose proof (execute_tool_calls_spec service a tool_calls [] count) as Hdone.
    cbv zeta in Hdone. destruct Hdone as (E1 & E2 & E3 & E4 & E5 & E6 & E7).
    destruct (execute_tool_calls service a tool_calls [] count) as [[done|e|] evs];
      cbn [fst snd] in *.
    + destruct (E7 done eq_refl) as (X1 & X2 & X3 & _).
      destruct (submit_tool_outputs_to_run service polls) as [u|e].
      * specialize (IH r' (S polls) (snd done)). cbv zeta in IH.
        destruct IH as (M1 & M2 & M3 & M4).
        destruct (monitor fuel service a t r' (S polls) (snd done)) as [res evs'].
        cbn [fst snd] in *.
        rewrite !forallb_app, !reported_tool_calls_app, !polls_made_app.
        rewrite E1, E4, E5, M1, M2.
        split; [reflexivity|]. split; [reflexivity|].
        split; [cbn; lia|].
        unfold error_logs in *.
        rewrite !List.filter_app, !executed_app, !submitted_app, E2, E3, X1.
        destruct res as [n|e|].
        -- destruct M4 as (N1 & N2 & N3). rewrite N1.
           split; [reflexivity|]. cbn [executed submitted app length].
           rewrite !length_app, N3. cbn [length] in *. lia.
        -- destruct M4 as [N1|(N1 & r'' & N2 & N3)].
           ++ left. rewrite N1. reflexivity.
           ++ right. split; [exact N1|]. exists r''. split; [exact N2|].
              rewrite N3. reflexivity.
        -- destruct M4 as [N1 N2]. rewrite N1, N2. split; [reflexivity | cbn; lia].
      * cbn [fst snd]. rewrite !forallb_app, !reported_tool_calls_app, !polls_made_app.
        rewrite E1, E4, E5. split; [reflexivity|]. split; [reflexivity|].
        split; [cbn; lia|]. left. unfold error_logs. rewrite !List.filter_app, E2. reflexivity.
    + rewrite !forallb_app, !reported_tool_calls_app, !polls_made_app.
      rewrite E1, E4, E5. split; [reflexivity|]. split; [reflexivity|].
      split; [cbn; lia|]. left. unfold error_logs. rewrite !List.filter_app, E2. reflexivity.
    + exfalso. apply E6. reflexivity.
  - specialize (IH r' (S polls) count). cbv zeta in IH.
    destruct IH as (M1 & M2 & M3 & M4).
    destruct (monitor fuel service a t r' (S polls) count) as [res evs'].
    cbn [fst snd] in *.
    rewrite !forallb_app, !reported_tool_calls_app, !polls_made_app, M1, M2.
    split; [reflexivity|]. split; [reflexivity|]. split; [cbn; lia|].
    unfold error_logs in *. rewrite !List.filter_app, !executed_app, !submitted_app.
    destruct res as [n|e|].
    + destruct M4 as (N1 & N2 & N3). rewrite N1. split; [reflexivity|].
      cbn [executed submitted app]. split; assumption.
    + destruct M4 as [N1|(N1 & r'' & N2 & N3)].
      * left. rewrite N1. reflexivity.
      * right. split; [exact N1|]. exists r''. split; [exact N2|]. rewrite N3. reflexivity.
    + destruct M4 as [N1 N2]. rewrite N1, N2. split; [reflexivity | cbn; lia].
Qed.

(** ** Before and after the loop *)

Ltac run_cases :=
  repeat (cbv beta iota zeta;
          match goal with
          | |- context [match ?x with Reply _ => _ | Fault _ => _ end] =>
              destruct x eqn:?
          | |- context [match ?m !! ?k with Some _ => _ | None => _ end] =>
              destruct (m !! k) eqn:?
          | |- context [if truth ?h then _ else _] => destruct (truth h) eqn:?
          end).

Ltac unfold_run :=
  unfold environ_item;
  unfold mbind, mret, Run_bind, Run_ret, logger_info, logger_error, await, raise.

Lemma start_run_spec (env : gmap string string) (service : sdk) (h q : string) :
  let s := start_run env service h q in
  contexts (snd s) = []
  ∧ error_logs (snd s) = []
  ∧ polls_made (snd s) = 0%nat
  ∧ executed (snd s) = []
  ∧ submitted (snd s) = []
  ∧ reported_tool_calls (snd s) = []
  ∧ List.filter is_list_messages (snd s) = []
  ∧ fst s ≠ Polling
  ∧ (∀ a t r, fst s = Returned (a, t, r) →
       create_agent service = Reply a
       ∧ create_thread service = Reply t
       ∧ create_run service = Reply r
       ∧ messages_created (snd s) = history_and_query (thread_id t) h q
       ∧ ∃ model, env !! "AGENTS_MODEL_DEPLOYMENT_NAME" = Some model).
Proof.
  cbv zeta. unfold start_run, history_and_query. unfold_run.
  run_cases; cbn [fst snd app];
    (do 7 (split; [reflexivity|])); (split; [discriminate|]);
    intros ? ? ? H;
    first [discriminate H | injection H as <- <- <-; repeat split; eauto].
Qed.

Lemma start_run_set_up (env : gmap string string) (service : sdk) (h q : string)
    (conn_str model : string) (a : agent) (t : thread) (r : run) :
  set_up service conn_str a t r →
  env !! "AGENTS_MODEL_DEPLOYMENT_NAME" = Some model →
  fst (start_run env service h q) = Returned (a, t, r)
  ∧ calls (snd (start_run env service h q)) =
      [NewFunctionTool;
       CreateAgent "StockPickerPro"
         "An agent that generates stock analysis and investment recommendations"
         _STOCK_PICKER_SYSTEM_PROMPT model;
       CreateThread]
      ++ history_and_query (thread_id t) h q
      ++ [CreateRun (thread_id t) (agent_id a)].
Proof.
  intros [_ _ Hagent Hthread Hmessages Hrun] Hmodel.
  unfold start_run, history_and_query. unfold_run.
  rewrite Hmodel, Hagent, Hthread, Hrun. cbv beta iota zeta.
  destruct (truth h); cbv beta iota zeta; rewrite !Hmessages; split; reflexivity.
Qed.

Lemma final_response_spec (service : sdk) (a : agent) (t : thread) (n : nat) :
  let f := final_response service a t n in
  contexts (snd f) = []
  ∧ error_logs (snd f) = []
  ∧ polls_made (snd f) = 0%nat
  ∧ executed (snd f) = []
  ∧ submitted (snd f) = []
  ∧ messages_created (snd f) = []
  ∧ fst f ≠ Polling
  ∧ match fst f with
    | Returned v =>
        reported_tool_calls (snd f) = [n]
        ∧ ∃ messages, list_messages service = Reply messages
                      ∧ first_text messages = (Returned v, [])
    | _ => reported_tool_calls (snd f) = []
    end.
Proof.
  cbv zeta. unfold final_response, first_text. unfold_run.
  destruct (list_messages service) as [messages|e] eqn:Hlist; cbv beta iota zeta.
  2: { cbn. do 6 (split; [reflexivity|]). split; [discriminate | reflexivity]. }
  destruct messages as [|m rest]; cbv beta iota zeta.
  { cbn. do 6 (split; [reflexivity|]). split; [discriminate | reflexivity]. }
  destruct (content m) as [|[v|] items] eqn:Hcontent; cbv beta iota zeta.
  - cbn. do 6 (split; [reflexivity|]). split; [discriminate | reflexivity].
  - cbn. do 6 (split; [reflexivity|]). split; [discriminate|].
    split; [reflexivity|]. eexists. split; [reflexivity|].
    unfold first_text. rewrite Hcontent. reflexivity.
  - cbn. do 6 (split; [reflexivity|]). split; [discriminate | reflexivity].
Qed.

Lemma with_project_client_unfold (env : gmap string string) (service : sdk)
    (fuel : nat) (h q : string) :
  with_project_client env service fuel h q =
  let s := start_run env service h q in
  match fst s with
  | Returned (a, t, r) =>
      let m := monitor fuel service a t r 0 0 in
      match fst m with
      | Returned n =>
          let f := final_response service a t n in
          (fst f, snd s ++ snd m ++ snd f)
      | Raised e => (Raised e, snd s ++ snd m)
      | Polling => (Polling, snd s ++ snd m)
      end
  | Raised e => (Raised e, snd s)
  | Polling => (Polling, snd s)
  end.
Proof.
  unfold with_project_client, mbind, Run_bind. cbv zeta.
  destruct (start_run env service h q) as [[[[a t] r]|e|] evs]; cbn [fst snd];
    [|reflexivity|reflexivity].
  destruct (monitor fuel service a t r 0 0) as [[n|e|] evs']; cbn [fst snd];
    [|reflexivity|reflexivity].
  destruct (final_response service a t n) as [res evs'']. reflexivity.
Qed.

Lemma analysis_unfold (env : gmap string string) (service : sdk) (fuel : nat)
    (h q : string) :
  analysis env service fuel h q =
  match credential service with
  | Fault e => (Raised e, preamble h q)
  | Reply _ =>
      match env !! "PROJECT_CONNECTION_STRING" with
      | None =>
          (Raised (KeyError "PROJECT_CONNECTION_STRING"),
           preamble h q ++ [EnterCredential; connecting; ExitCredential])
      | Some conn_str =>
          match project_client service conn_str with
          | Fault e =>
              (Raised e, preamble h q ++ [EnterCredential; connecting; ExitCredential])
          | Reply _ =>
              let w := with_project_client env service fuel h q in
              match fst w with
              | Polling =>
                  (Polling,
                   preamble h q ++ [EnterCredential; connecting; EnterClient conn_str]
                   ++ snd w)
              | res =>
                  (res,
                   preamble h q ++ [EnterCredential; connecting; EnterClient conn_str]
                   ++ snd w ++ [ExitClient; ExitCredential])
              end
          end
      end
  end.
Proof.
  unfold analysis, preamble, connecting, async_with. unfold_run.
  destruct (truth h); cbv beta iota zeta;
    (destruct (credential service) as [u|e]; cbv beta iota zeta; [|reflexivity]);
    (destruct (env !! "PROJECT_CONNECTION_STRING") as [conn_str|];
       cbv beta iota zeta; [|reflexivity]);
    (destruct (project_client service conn_str) as [u'|e]; cbv beta iota zeta;
       [|reflexivity]);
    destruct (with_project_client env service fuel h q) as [[v|e|] evs];
    cbn [fst snd app]; rewrite <- ?app_assoc; reflexivity.
Qed.

Lemma generate_unfold (env : gmap string string) (service : sdk) (fuel : nat)
    (h q : string) :
  generate_stock_analysis env service fuel h q =
  let body := analysis env service fuel h q in
  match fst body with
  | Raised e => (Raised e, snd body ++ [failure_log e])
  | res => (res, snd body)
  end.
Proof.
  unfold generate_stock_analysis, try_except_reraise. cbv zeta.
  destruct (analysis env service fuel h q) as [[v|e|] evs]; reflexivity.
Qed.

(** The preamble is made of [INFO] records. *)
Lemma preamble_spec (h q : string) :
  contexts (preamble h q) = []
  ∧ error_logs (preamble h q) = []
  ∧ calls (preamble h q) = []
  ∧ messages_created (preamble h q) = []
  ∧ polls_made (preamble h q) = 0%nat
  ∧ executed (preamble h q) = []
  ∧ submitted (preamble h q) = []
  ∧ reported_tool_calls (preamble h q) = []
  ∧ List.filter is_list_messages (preamble h q) = [].
Proof. unfold preamble. destruct (truth h); repeat split; reflexivity. Qed.

(** ** Every run of the agent *)

Lemma loop_event_not_context (ev : event) : loop_event ev = true → is_context ev = false.
Proof. destruct ev; first [reflexivity | discriminate]. Qed.

Lemma loop_event_not_message (ev : event) :
  loop_event ev = true → is_create_message ev = false.
Proof. destruct ev; first [reflexivity | discriminate]. Qed.

Lemma loop_event_not_list (ev : event) :
  loop_event ev = true → is_list_messages ev = false.
Proof. destruct ev; first [reflexivity | discriminate]. Qed.

(** What the body of the inner [async with] leaves in the trace, by its
    result. *)
Lemma with_project_client_spec (env : gmap string string) (service : sdk) (fuel : nat)
    (h q : string) :
  let w := with_project_client env service fuel h q in
  contexts (snd w) = []
  ∧ match fst w with
    | Returned v =>
        error_logs (snd w) = []
        ∧ reported_tool_calls (snd w) = [length (executed (snd w))]
        ∧ length (submitted (snd w)) = length (executed (snd w))
        ∧ (∃ t, create_thread service = Reply t
                ∧ messages_created (snd w) = history_and_query (thread_id t) h q)
        ∧ ∃ messages, list_messages service = Reply messages
                      ∧ first_text messages = (Returned v, [])
    | Raised e =>
        reported_tool_calls (snd w) = []
        ∧ (error_logs (snd w) = []
           ∨ (e = Exception "Agent run failed"
              ∧ ∃ r', run_status r' = "failed"
                      ∧ error_logs (snd w) = [failed_run_log r']))
    | Polling =>
        error_logs (snd w) = []
        ∧ reported_tool_calls (snd w) = []
        ∧ polls_made (snd w) = fuel
    end.
Proof.
  cbv zeta. rewrite with_project_client_unfold. cbv zeta.
  pose proof (start_run_spec env service h q) as Hs. cbv zeta in Hs.
  destruct Hs as (S1 & S2 & S3 & S4 & S5 & S6 & S7 & S8 & S9).
  destruct (start_run env service h q) as [[[[a t] r]|e|] evs]; cbn [fst snd] in *.
  3: { exfalso. apply S8. reflexivity. }
  2: { split; [exact S1|]. split; [exact S6|]. left. exact S2. }
  destruct (S9 a t r eq_refl) as (Ha & Ht & Hr & Hposted & _).
  pose proof (monitor_spec service a t fuel r 0 0) as Hm. cbv zeta in Hm.
  destruct Hm as (M1 & M2 & M3 & M4).
  pose proof (filter_loop_events is_context _ loop_event_not_context M1) as Mc.
  pose proof (filter_loop_events is_create_message _ loop_event_not_message M1) as Mp.
  destruct (monitor fuel service a t r 0 0) as [[n|e|] evs']; cbn [fst snd] in *.
  - pose proof (final_response_spec service a t n) as Hf. cbv zeta in Hf.
    destruct Hf as (F1 & F2 & F3 & F4 & F5 & F6 & F7 & F8).
    destruct M4 as (N1 & N2 & N3).
    unfold contexts, error_logs, messages_created in *.
    destruct (final_response service a t n) as [[v|e|] evs'']; cbn [fst snd] in *.
    + rewrite !List.filter_app, !reported_tool_calls_app, !executed_app, !submitted_app.
      rewrite S1, Mc, F1, S2, N1, F2, S6, M2, S4, F4, S5, F5, Mp, F6, Hposted.
      rewrite !app_nil_r. cbn [app]. destruct F8 as [F8 F9].
      split; [reflexivity|]. split; [reflexivity|].
      split; [rewrite F8, N2; reflexivity|]. split; [exact N3|].
      split; [exists t; split; [exact Ht | reflexivity] | exact F9].
    + rewrite !List.filter_app, !reported_tool_calls_app.
      rewrite S1, Mc, F1, S2, N1, F2, S6, M2, F8.
      split; [reflexivity|]. split; [reflexivity|]. left. reflexivity.
    + exfalso. apply F7. reflexivity.
  - unfold contexts, error_logs in *.
    rewrite !List.filter_app, !reported_tool_calls_app, S1, Mc, S2, S6, M2.
    split; [reflexivity|]. split; [reflexivity|]. cbn [app]. exact M4.
  - unfold contexts, error_logs in *.
    rewrite !List.filter_app, !reported_tool_calls_app, !polls_made_app.
    rewrite S1, Mc, S2, S3, S6, M2. destruct M4 as [N1 N2]. rewrite N1, N2.
    repeat split.
Qed.

(** X10. Whatever the service replies, an exception that ends a call of
    [generate_stock_analysis] is logged and raised again: the last event
    of the call is the [ERROR] record of the [except] clause, with that
    exception and its traceback. It is the only [ERROR] record, but for a
    failed run, which the loop logs first; and a call that returns, or
    that is still polling, has logged no [ERROR] record at all. *)
Theorem failure_is_logged_and_raised_again (env : gmap string string) (service : sdk)
    (fuel : nat) (chat_history user_query : string) :
  let g := generate_stock_analysis env service fuel chat_history user_query in
  match fst g with
  | Raised e =>
      last (snd g) = Some (failure_log e)
      ∧ (error_logs (snd g) = [failure_log e]
         ∨ (e = Exception "Agent run failed"
            ∧ ∃ r, run_status r = "failed"
                   ∧ error_logs (snd g) = [failed_run_log r; failure_log e]))
  | _ => error_logs (snd g) = []
  end.
Proof.
  cbv zeta. rewrite generate_unfold, analysis_unfold. cbv zeta.
  destruct (preamble_spec chat_history user_query) as (_ & P2 & _).
  unfold error_logs in *.
  destruct (credential service) as [u|e]; cbn [fst snd].
  2: { rewrite last_snoc, List.filter_app, P2. split; [reflexivity | left; reflexivity]. }
  destruct (env !! "PROJECT_CONNECTION_STRING") as [conn_str|]; cbn [fst snd].
  2: { rewrite last_snoc, !List.filter_app, P2.
       split; [reflexivity | left; reflexivity]. }
  destruct (project_client service conn_str) as [u'|e]; cbn [fst snd].
  2: { rewrite last_snoc, !List.filter_app, P2.
       split; [reflexivity | left; reflexivity]. }
  pose proof (with_project_client_spec env service fuel chat_history user_query) as Hw.
  cbv zeta in Hw. destruct Hw as [_ Hw]. unfold error_logs in Hw.
  destruct (with_project_client env service fuel chat_history user_query)
    as [[v|e|] evs]; cbn [fst snd] in *.
  - destruct Hw as (W1 & _). rewrite !List.filter_app, P2, W1. reflexivity.
  - destruct Hw as (_ & W). rewrite last_snoc. split; [reflexivity|].
    rewrite !List.filter_app, P2.
    destruct W as [W|(W1 & r & W2 & W3)].
    + left. rewrite W. reflexivity.
    + right. split; [exact W1|]. exists r. split; [exact W2|]. rewrite W3. reflexivity.
  - destruct Hw as (W1 & _). rewrite !List.filter_app, P2, W1. reflexivity.
Qed.

(** X11. Whatever the service replies, the two context managers are
    left in the reverse order of their entering, on a return and on an
    exception alike: a finished call has entered nothing, or entered and
    left the credential, or entered the credential, then the client built
    from [PROJECT_CONNECTION_STRING], and left the client, then the
    credential. Only a call that is still polling holds them open. *)
Theorem context_managers_are_left (env : gmap string string) (service : sdk)
    (fuel : nat) (chat_history user_query : string) :
  let g := generate_stock_analysis env service fuel chat_history user_query in
  match fst g with
  | Polling =>
      ∃ conn_str, env !! "PROJECT_CONNECTION_STRING" = Some conn_str
                  ∧ contexts (snd g) = [EnterCredential; EnterClient conn_str]
  | Returned _ =>
      ∃ conn_str, env !! "PROJECT_CONNECTION_STRING" = Some conn_str
                  ∧ contexts (snd g) =
                      [EnterCredential; EnterClient conn_str; ExitClient; ExitCredential]
  | Raised _ =>
      contexts (snd g) = []
      ∨ contexts (snd g) = [EnterCredential; ExitCredential]
      ∨ ∃ conn_str, env !! "PROJECT_CONNECTION_STRING" = Some conn_str
                    ∧ contexts (snd g) =
                        [EnterCredential; EnterClient conn_str; ExitClient; ExitCredential]
  end.
Proof.
  cbv zeta. rewrite generate_unfold, analysis_unfold. cbv zeta.
  destruct (preamble_spec chat_history user_query) as (P1 & _).
  unfold contexts in *.
  destruct (credential service) as [u|e]; cbn [fst snd].
  2: { left. rewrite List.filter_app, P1. reflexivity. }
  destruct (env !! "PROJECT_CONNECTION_STRING") as [conn_str|]; cbn [fst snd].
  2: { right. left. rewrite !List.filter_app, P1. reflexivity. }
  destruct (project_client service conn_str) as [u'|e]; cbn [fst snd].
  2: { right. left. rewrite !List.filter_app, P1. reflexivity. }
  pose proof (with_project_client_spec env service fuel chat_history user_query) as Hw.
  cbv zeta in Hw. destruct Hw as [Hw _]. unfold contexts in Hw.
  destruct (with_project_client env service fuel chat_history user_query)
    as [[v|e|] evs]; cbn [fst snd] in *.
  - exists conn_str. split; [reflexivity|].
    rewrite !List.filter_app, P1, Hw. reflexivity.
  - right. right. exists conn_str. split; [reflexivity|].
    rewrite !List.filter_app, P1, Hw. reflexivity.
  - exists conn_str. split; [reflexivity|].
    rewrite !List.filter_app, P1, Hw. reflexivity.
Qed.


(** X13. The number of tool calls that a returning call reports in its
    last record is the number of tool calls it executed, and it submitted
    one output for each of them. *)
Theorem tool_calls_are_counted (env : gmap string string) (service : sdk)
    (fuel : nat) (chat_history user_query response : string) :
  let g := generate_stock_analysis env service fuel chat_history user_query in
  fst g = Returned response →
  reported_tool_calls (snd g) = [length (executed (snd g))]
  ∧ length (submitted (snd g)) = length (executed (snd g)).
Proof.
  cbv zeta. rewrite generate_unfold, analysis_unfold. cbv zeta.
  destruct (preamble_spec chat_history user_query)
    as (_ & _ & _ & _ & _ & P6 & P7 & P8 & _).
  destruct (credential service) as [u|e]; cbn [fst snd]; [|discriminate].
  destruct (env !! "PROJECT_CONNECTION_STRING") as [conn_str|]; cbn [fst snd];
    [|discriminate].
  destruct (project_client service conn_str) as [u'|e]; cbn [fst snd]; [|discriminate].
  pose proof (with_project_client_spec env service fuel chat_history user_query) as Hw.
  cbv zeta in Hw. destruct Hw as [_ Hw].
  destruct (with_project_client env service fuel chat_history user_query)
    as [[v|e|] evs]; cbn [fst snd] in *; try discriminate.
  intros _. destruct Hw as (_ & W2 & W3 & _).
  rewrite !reported_tool_calls_app, !executed_app, !submitted_app, P6, P7, P8, W2.
  cbn [reported_tool_calls executed submitted app]. rewrite !app_nil_r.
  split; [reflexivity | exact W3].
Qed.

(** ** Runs on a service that lets the set-up through *)

Lemma calls_app (evs evs' : list event) : calls (evs ++ evs') = calls evs ++ calls evs'.
Proof. apply List.filter_app. Qed.

Lemma start_run_no_model (env : gmap string string) (service : sdk) (h q : string) :
  env !! "AGENTS_MODEL_DEPLOYMENT_NAME" = None →
  start_run env service h q =
    (Raised (KeyError "AGENTS_MODEL_DEPLOYMENT_NAME"),
     [Log "INFO" "Setting up vector search tool" [] false; NewFunctionTool]).
Proof.
  intros Hmodel. unfold start_run. unfold_run. rewrite Hmodel. reflexivity.
Qed.

(** X14. A missing setting raises [KeyError] before anything is asked of
    the agent service. Without [PROJECT_CONNECTION_STRING] the call
    raises once the credential is entered, and leaves it; without
    [AGENTS_MODEL_DEPLOYMENT_NAME] it raises once the client is entered
    and the tool set up, and leaves both: no agent, no thread, no message
    and no run is created. *)
Theorem missing_setting_raises_key_error (env : gmap string string) (service : sdk)
    (fuel : nat) (chat_history user_query : string) :
  credential service = Reply tt →
  let g := generate_stock_analysis env service fuel chat_history user_query in
  (env !! "PROJECT_CONNECTION_STRING" = None →
     fst g = Raised (KeyError "PROJECT_CONNECTION_STRING")
     ∧ calls (snd g) = [EnterCredential; ExitCredential])
  ∧ (∀ conn_str,
       env !! "PROJECT_CONNECTION_STRING" = Some conn_str →
       project_client service conn_str = Reply tt →
       env !! "AGENTS_MODEL_DEPLOYMENT_NAME" = None →
       fst g = Raised (KeyError "AGENTS_MODEL_DEPLOYMENT_NAME")
       ∧ calls (snd g) =
           [EnterCredential; EnterClient conn_str; NewFunctionTool;
            ExitClient; ExitCredential]).
Proof.
  intros Hcred. cbv zeta. rewrite generate_unfold, analysis_unfold, Hcred. cbv zeta.
  destruct (preamble_spec chat_history user_query) as (_ & _ & P3 & _).
  split.
  - intros Hconn. rewrite Hconn. cbn [fst snd]. split; [reflexivity|].
    rewrite !calls_app, P3. reflexivity.
  - intros conn_str Hconn Hclient Hmodel. rewrite Hconn, Hclient.
    rewrite with_project_client_unfold. cbv zeta.
    rewrite (start_run_no_model env service _ _ Hmodel). cbn [fst snd].
    split; [reflexivity|]. rewrite !calls_app, P3. reflexivity.
Qed.

Lemma missing_setting_raises_key_error_witness :
  let service := mock_sdk (fun _ => mock_run "completed" None) "" mock_report in
  let g := generate_stock_analysis ∅ service 1 "" "" in
  fst g = Raised (KeyError "PROJECT_CONNECTION_STRING")
  ∧ calls (snd g) = [EnterCredential; ExitCredential].
Proof.
  intros service g.
  apply (proj1 (missing_setting_raises_key_error ∅ service 1 "" "" eq_refl)).
  reflexivity.
Defined.

(** *** The loop, turn by turn *)

Lemma other_status_inv (s : string) :
  other_status s = true →
  String.eqb s "completed" = false
  ∧ String.eqb s "failed" = false
  ∧ String.eqb s "requires_action" = false.
Proof.
  unfold other_status. rewrite !andb_true_iff, !negb_true_iff. tauto.
Qed.

Section Loop.

Variable service : sdk.
Variable a : agent.
Variable t : thread.

Lemma monitor_other (fuel : nat) (r rk : run) (polls count : nat) :
  get_run service polls = Reply rk →
  other_status (run_status rk) = true →
  monitor (S fuel) service a t r polls count =
    (fst (monitor fuel service a t rk (S polls) count),
     [GetRun (thread_id t) (run_id r);
      Log "INFO" "Agent run status: %s" [VStr (run_status rk)] false]
     ++ snd (monitor fuel service a t rk (S polls) count)).
Proof.
  intros Hpoll Hother. apply other_status_inv in Hother as (H1 & H2 & H3).
  rewrite monitor_step, Hpoll. cbv zeta. rewrite H1, H2, H3. reflexivity.
Qed.

Lemma monitor_completed (fuel : nat) (r rc : run) (polls count : nat) :
  get_run service polls = Reply rc →
  run_status rc = "completed" →
  monitor (S fuel) service a t r polls count =
    (Returned count,
     [GetRun (thread_id t) (run_id r);
      Log "INFO" "Agent run status: %s" [VStr "completed"] false;
      Log "INFO" "Agent run completed successfully" [] false]).
Proof.
  intros Hpoll Hstatus. rewrite monitor_step, Hpoll. cbv zeta. rewrite Hstatus.
  reflexivity.
Qed.

Lemma monitor_failed (fuel : nat) (r rf : run) (polls count : nat) :
  get_run service polls = Reply rf →
  run_status rf = "failed" →
  monitor (S fuel) service a t r polls count =
    (Raised (Exception "Agent run failed"),
     [GetRun (thread_id t) (run_id r);
      Log "INFO" "Agent run status: %s" [VStr "failed"] false;
      failed_run_log rf]).
Proof.
  intros Hpoll Hstatus. rewrite monitor_step, Hpoll. cbv zeta. rewrite Hstatus.
  reflexivity.
Qed.

(** The tool calls of one turn, when each execution replies. *)
Lemma execute_tool_calls_replies (results : nat → tool_call → string)
    (tool_calls : list tool_call) :
  (∀ n call, execute service n call = Reply (results n call)) →
  ∀ (outs : list tool_output) (count : nat),
    fst (execute_tool_calls service a tool_calls outs count) =
      Returned (outs ++ tool_outputs_of results count tool_calls,
                (count + length tool_calls)%nat).
Proof.
  intros Hexec. induction tool_calls as [|call rest IH]; intros outs count.
  - cbn. rewrite app_nil_r. do 2 f_equal. lia.
  - rewrite execute_tool_calls_cons, Hexec. cbv zeta. cbn [fst].
    rewrite IH, <- app_assoc. cbn [tool_outputs_of app length]. do 2 f_equal. lia.
Qed.

Lemma monitor_action (results : nat → tool_call → string) (fuel : nat) (r ra : run)
    (tool_calls : list tool_call) (polls count : nat) :
  get_run service polls = Reply ra →
  run_status ra = "requires_action" →
  required_action ra = Some tool_calls →
  (∀ n call, execute service n call = Reply (results n call)) →
  submit_tool_outputs_to_run service polls = Reply tt →
  let done := execute_tool_calls service a tool_calls [] count in
  let next := monitor fuel service a t ra (S polls) (count + length tool_calls) in
  monitor (S fuel) service a t r polls count =
    (fst next,
     [GetRun (thread_id t) (run_id r);
      Log "INFO" "Agent run status: %s" [VStr "requires_action"] false;
      Log "INFO" "Agent requires action with %d tool calls"
        [VInt (length tool_calls)] false]
     ++ snd done
     ++ [SubmitToolOutputs (thread_id t) (run_id ra)
           (tool_outputs_of results count tool_calls)]
     ++ snd next).
Proof.
  intros Hpoll Hstatus Haction Hexec Hsubmit. cbv zeta.
  rewrite monitor_step, Hpoll. cbv zeta. rewrite Hstatus, Haction.
  cbn [String.eqb Ascii.eqb Bool.eqb].
  rewrite (execute_tool_calls_replies results tool_calls Hexec [] count), Hsubmit.
  cbn [fst snd app]. reflexivity.
Qed.

(** [n] polls that find a status without a branch. *)
Lemma monitor_waits (n : nat) :
  ∀ (r : run) (polls count : nat),
    (∀ k, (k < n)%nat →
       ∃ rk, get_run service (polls + k) = Reply rk
             ∧ other_status (run_status rk) = true) →
    ∃ (r' : run) (waited : list event),
      polls_made waited = n
      ∧ forallb loop_event waited = true
      ∧ executed waited = []
      ∧ submitted waited = []
      ∧ error_logs waited = []
      ∧ reported_tool_calls waited = []
      ∧ (n = 0%nat → r' = r)
      ∧ ∀ fuel,
          monitor (n + fuel) service a t r polls count =
            (fst (monitor fuel service a t r' (polls + n) count),
             waited ++ snd (monitor fuel service a t r' (polls + n) count)).
Proof.
  induction n as [|n IH]; intros r polls count Hother.
  - exists r, []. do 6 (split; [reflexivity|]). split; [reflexivity|].
    intros fuel. rewrite Nat.add_0_r. cbn [Nat.add app].
    destruct (monitor fuel service a t r polls count). reflexivity.
  - destruct (Hother 0%nat ltac:(lia)) as (rk & Hpoll & Hstatus).
    rewrite Nat.add_0_r in Hpoll.
    destruct (IH rk (S polls) count) as (r' & waited & W1 & W2 & W3 & W4 & W5 & W6 & _ & W7).
    { intros k Hk. destruct (Hother (S k) ltac:(lia)) as (rk' & Hpoll' & Hstatus').
      exists rk'. split; [|exact Hstatus'].
      rewrite <- Hpoll'. f_equal. lia. }
    exists r', ([GetRun (thread_id t) (run_id r);
                 Log "INFO" "Agent run status: %s" [VStr (run_status rk)] false]
                ++ waited).
    split; [rewrite polls_made_app, W1; reflexivity|].
    split; [rewrite forallb_app, W2; reflexivity|].
    split; [rewrite executed_app, W3; reflexivity|].
    split; [rewrite submitted_app, W4; reflexivity|].
    split; [unfold error_logs in *; rewrite List.filter_app, W5; reflexivity|].
    split; [rewrite reported_tool_calls_app, W6; reflexivity|].
    split; [discriminate|].
    intros fuel. cbn [Nat.add]. rewrite (monitor_other _ r rk polls count Hpoll Hstatus).
    rewrite W7. cbn [fst snd]. replace (S polls + n)%nat with (polls + S n)%nat by lia.
    rewrite <- app_assoc. reflexivity.
Qed.

End Loop.

(** *** From the set-up to the result *)

Lemma final_response_reply (service : sdk) (a : agent) (t : thread) (n : nat)
    (messages : list message) :
  list_messages service = Reply messages →
  let f := final_response service a t n in
  fst f = fst (first_text messages)
  ∧ List.filter is_list_messages (snd f) = [ListMessages (thread_id t)].
Proof.
  intros Hlist. cbv zeta. unfold final_response, first_text. unfold_run.
  rewrite Hlist. cbv beta iota zeta.
  destruct messages as [|m rest]; [split; reflexivity|].
  destruct (content m) as [|[v|] items]; split; reflexivity.
Qed.

Lemma final_response_lists (service : sdk) (a : agent) (t : thread) (n : nat) :
  List.filter is_list_messages (snd (final_response service a t n)) =
    [ListMessages (thread_id t)].
Proof.
  unfold final_response, first_text. unfold_run.
  destruct (list_messages service) as [messages|e]; cbv beta iota zeta; [|reflexivity].
  destruct messages as [|m rest]; [reflexivity|].
  destruct (content m) as [|[v|] items]; reflexivity.
Qed.

(** The trace of a call whose set-up succeeds: what comes before the
    loop, the loop, and what comes after it. *)
Lemma generate_set_up (env : gmap string string) (service : sdk) (fuel : nat)
    (h q conn_str model : string) (a : agent) (t : thread) (r : run) :
  set_up service conn_str a t r →
  env !! "PROJECT_CONNECTION_STRING" = Some conn_str →
  env !! "AGENTS_MODEL_DEPLOYMENT_NAME" = Some model →
  let m := monitor fuel service a t r 0 0 in
  let g := generate_stock_analysis env service fuel h q in
  ∃ front back : list event,
    snd g = front ++ snd m ++ back
    ∧ polls_made front = 0%nat ∧ polls_made back = 0%nat
    ∧ executed front = [] ∧ executed back = []
    ∧ submitted front = [] ∧ submitted back = []
    ∧ error_logs front = []
    ∧ List.filter is_list_messages front = []
    ∧ contexts front = [EnterCredential; EnterClient conn_str]
    ∧ match fst m with
      | Returned n =>
          fst g = fst (final_response service a t n)
          ∧ List.filter is_list_messages back = [ListMessages (thread_id t)]
      | Raised e =>
          fst g = Raised e ∧ back = [ExitClient; ExitCredential; failure_log e]
      | Polling => fst g = Polling ∧ back = []
      end.
Proof.
  intros Hset Hconn Hmodel. cbv zeta.
  destruct (start_run_set_up env service h q conn_str model a t r Hset Hmodel)
    as [Hstart _].
  pose proof (start_run_spec env service h q) as Hs. cbv zeta in Hs.
  destruct Hs as (S1 & S2 & S3 & S4 & S5 & _ & S7 & _).
  destruct (preamble_spec h q) as (P1 & P2 & _ & _ & P5 & P6 & P7 & _ & P9).
  destruct Hset as [Hcred Hclient _ _ _ _].
  rewrite generate_unfold, analysis_unfold, Hcred, Hconn, Hclient. cbv zeta.
  rewrite with_project_client_unfold. cbv zeta. rewrite Hstart.
  set (s := snd (start_run env service h q)) in *.
  set (front := preamble h q ++ [EnterCredential; connecting; EnterClient conn_str] ++ s).
  assert (polls_made front = 0%nat) as F1
    by (unfold front; rewrite !polls_made_app, P5, S3; reflexivity).
  assert (executed front = []) as F2
    by (unfold front; rewrite !executed_app, P6, S4; reflexivity).
  assert (submitted front = []) as F3
    by (unfold front; rewrite !submitted_app, P7, S5; reflexivity).
  assert (error_logs front = []) as F4
    by (unfold front, error_logs in *; rewrite !List.filter_app, P2, S2; reflexivity).
  assert (List.filter is_list_messages front = []) as F5
    by (unfold front; rewrite !List.filter_app, P9, S7; reflexivity).
  assert (contexts front = [EnterCredential; EnterClient conn_str]) as F6
    by (unfold front, contexts in *; rewrite !List.filter_app, P1, S1; reflexivity).
  exists front.
  assert (∀ x y z : list event, (x ++ y) ++ z = x ++ y ++ z) as Hassoc
    by (intros; rewrite <- app_assoc; reflexivity).
  destruct (monitor fuel service a t r 0 0) as [[n|e|] evs]; cbn [fst snd].
  - pose proof (final_response_spec service a t n) as Hf. cbv zeta in Hf.
    destruct Hf as (_ & _ & G3 & G4 & G5 & _ & G7 & _).
    pose proof (final_response_lists service a t n) as G9.
    destruct (final_response service a t n) as [[v|e|] evs']; cbn [fst snd] in *.
    + exists (evs' ++ [ExitClient; ExitCredential]).
      split; [unfold front; rewrite <- !app_assoc; reflexivity|].
      rewrite (polls_made_app evs'), (executed_app evs'), (submitted_app evs'),
        (List.filter_app _ evs').
      rewrite G3, G4, G5, G9. repeat split; first [assumption | reflexivity].
    + exists (evs' ++ [ExitClient; ExitCredential; failure_log e]).
      split; [unfold front; rewrite <- !app_assoc; reflexivity|].
      rewrite (polls_made_app evs'), (executed_app evs'), (submitted_app evs'),
        (List.filter_app _ evs').
      rewrite G3, G4, G5, G9. repeat split; first [assumption | reflexivity].
    + exfalso. apply G7. reflexivity.
  - exists [ExitClient; ExitCredential; failure_log e].
    split; [unfold front; rewrite <- !app_assoc; reflexivity|].
    repeat split; first [assumption | reflexivity].
  - exists []. split; [unfold front; rewrite <- !app_assoc, !app_nil_r; reflexivity|].
    repeat split; first [assumption | reflexivity].
Qed.

Lemma polls_made_none (evs : list event) :
  polls_made evs = 0%nat → List.filter is_get_run evs = [].
Proof. unfold polls_made. apply nil_length_inv. Qed.

(** X15. The loop waits as long as the run needs. On a service that
    lets the set-up through, if the first [n] polls find a status other
    than "completed", "failed" and "requires_action" and the next finds
    "completed", the call makes exactly [n + 1] polls, executes no tool
    and then reads the answer from the first message of the thread: it
    returns the text of its first content item, raises [IndexError] when
    there is no message or no content, and [AttributeError] when that
    item is not a text. Every bound above [n] on the number of polls
    gives this result. *)
Theorem waits_until_completed (env : gmap string string) (service : sdk) (fuel n : nat)
    (chat_history user_query conn_str model : string) (a : agent) (t : thread)
    (r rc : run) (messages : list message) :
  set_up service conn_str a t r →
  env !! "PROJECT_CONNECTION_STRING" = Some conn_str →
  env !! "AGENTS_MODEL_DEPLOYMENT_NAME" = Some model →
  (∀ k, (k < n)%nat →
     ∃ rk, get_run service k = Reply rk ∧ other_status (run_status rk) = true) →
  get_run service n = Reply rc →
  run_status rc = "completed" →
  list_messages service = Reply messages →
  (n < fuel)%nat →
  let g := generate_stock_analysis env service fuel chat_history user_query in
  fst g = match messages with
          | [] => Raised IndexError
          | m :: _ =>
              match content m with
              | [] => Raised IndexError
              | TextContent v :: _ => Returned v
              | ImageFileContent :: _ => Raised AttributeError
              end
          end
  ∧ polls_made (snd g) = S n
  ∧ executed (snd g) = []
  ∧ submitted (snd g) = [].
Proof.
  intros Hset Hconn Hmodel Hother Hpoll Hstatus Hlist Hfuel. cbv zeta.
  destruct (generate_set_up env service fuel chat_history user_query conn_str model
              a t r Hset Hconn Hmodel)
    as (front & back & Htrace & F1 & B1 & F2 & B2 & F3 & B3 & _ & _ & _ & Hresult).
  destruct (monitor_waits service a t n r 0 0) as (r' & waited & W1 & _ & W3 & W4 & _ & _ & _ & W7).
  { intros k Hk. exact (Hother k Hk). }
  replace fuel with (n + S (fuel - n - 1))%nat in Hresult, Htrace |- * by lia.
  rewrite W7 in Hresult, Htrace. cbn [Nat.add] in Hresult, Htrace.
  rewrite (monitor_completed service a t _ r' rc n 0 Hpoll Hstatus) in Hresult, Htrace.
  cbn [fst snd] in Hresult, Htrace. destruct Hresult as [Hfst _].
  destruct (final_response_reply service a t 0 messages Hlist) as [Hf _].
  rewrite Htrace, Hfst, Hf.
  split.
  - unfold first_text. destruct messages as [|m rest]; [reflexivity|].
    destruct (content m) as [|[v|] items]; reflexivity.
  - rewrite !polls_made_app, !executed_app, !submitted_app.
    rewrite F1, B1, F2, B2, F3, B3, W1, W3, W4. cbn. repeat split; lia.
Qed.

Lemma waits_until_completed_witness :
  let polls := fun k => if (k <? 3)%nat then mock_run "in_progress" None
                        else mock_run "completed" None in
  let g := generate_stock_analysis mock_env (mock_sdk polls "" mock_report) 10
             "Test chat history" "Test stock analysis query" in
  fst g = Returned "# Stock Analysis Report"
  ∧ polls_made (snd g) = 4%nat
  ∧ executed (snd g) = []
  ∧ submitted (snd g) = [].
Proof.
  intros polls g.
  apply (waits_until_completed mock_env (mock_sdk polls "" mock_report) 10 3
           "Test chat history" "Test stock analysis query"
           "mock_connection_string" "mock_model" mock_agent mock_thread
           (mock_run "queued" None) (mock_run "completed" None) mock_report).
  - split; first [reflexivity | intros; reflexivity].
  - reflexivity.
  - reflexivity.
  - intros k Hk. exists (mock_run "in_progress" None).
    split; [|reflexivity]. cbn [get_run mock_sdk]. unfold polls.
    destruct (Nat.ltb_spec k 3); [reflexivity | lia].
  - reflexivity.
  - reflexivity.
  - reflexivity.
  - lia.
Defined.

(** X16. A failed run ends the call. On a service that lets the set-up
    through, if the first [n] polls find a status without a branch and
    the next finds "failed", the call raises
    [Exception("Agent run failed")] after [n + 1] polls, without asking
    for the messages of the thread; it logs two [ERROR] records, the run
    that failed and then the exception. *)
Theorem failed_run_raises (env : gmap string string) (service : sdk) (fuel n : nat)
    (chat_history user_query conn_str model : string) (a : agent) (t : thread)
    (r rf : run) :
  set_up service conn_str a t r →
  env !! "PROJECT_CONNECTION_STRING" = Some conn_str →
  env !! "AGENTS_MODEL_DEPLOYMENT_NAME" = Some model →
  (∀ k, (k < n)%nat →
     ∃ rk, get_run service k = Reply rk ∧ other_status (run_status rk) = true) →
  get_run service n = Reply rf →
  run_status rf = "failed" →
  (n < fuel)%nat →
  let g := generate_stock_analysis env service fuel chat_history user_query in
  fst g = Raised (Exception "Agent run failed")
  ∧ polls_made (snd g) = S n
  ∧ List.filter is_list_messages (snd g) = []
  ∧ error_logs (snd g) =
      [failed_run_log rf; failure_log (Exception "Agent run failed")].
Proof.
  intros Hset Hconn Hmodel Hother Hpoll Hstatus Hfuel. cbv zeta.
  destruct (generate_set_up env service fuel chat_history user_query conn_str model
              a t r Hset Hconn Hmodel)
    as (front & back & Htrace & F1 & B1 & _ & _ & _ & _ & F4 & F5 & _ & Hresult).
  destruct (monitor_waits service a t n r 0 0)
    as (r' & waited & W1 & W2 & _ & _ & W5 & _ & _ & W7).
  { intros k Hk. exact (Hother k Hk). }
  replace fuel with (n + S (fuel - n - 1))%nat in Hresult, Htrace |- * by lia.
  rewrite W7 in Hresult, Htrace. cbn [Nat.add] in Hresult, Htrace.
  rewrite (monitor_failed service a t _ r' rf n 0 Hpoll Hstatus) in Hresult, Htrace.
  cbn [fst snd] in Hresult, Htrace. destruct Hresult as [Hfst Hback].
  rewrite Htrace, Hfst, Hback. split; [reflexivity|].
  pose proof (filter_loop_events is_list_messages _ loop_event_not_list W2) as W9.
  unfold error_logs in *.
  rewrite !polls_made_app, !List.filter_app, F1, W1, F4, F5, W5, W9.
  cbn. repeat split. lia.
Qed.

Lemma failed_run_raises_witness :
  let polls := fun k => if (k <? 2)%nat then mock_run "queued" None
                        else mock_run "failed" None in
  let g := generate_stock_analysis mock_env (mock_sdk polls "" mock_report) 5 "" "" in
  fst g = Raised (Exception "Agent run failed")
  ∧ polls_made (snd g) = 3%nat
  ∧ List.filter is_list_messages (snd g) = []
  ∧ error_logs (snd g) =
      [failed_run_log (mock_run "failed" None);
       failure_log (Exception "Agent run failed")].
Proof.
  intros polls g.
  apply (failed_run_raises mock_env (mock_sdk polls "" mock_report) 5 2 "" ""
           "mock_connection_string" "mock_model" mock_agent mock_thread
           (mock_run "queued" None) (mock_run "failed" None)).
  - split; first [reflexivity | intros; reflexivity].
  - reflexivity.
  - reflexivity.
  - intros k Hk. exists (mock_run "queued" None).
    split; [|reflexivity]. cbn [get_run mock_sdk]. unfold polls.
    destruct (Nat.ltb_spec k 2); [reflexivity | lia].
  - reflexivity.
  - reflexivity.
  - lia.
Defined.

(** X17. The loop has no way out but "completed", "failed" and an
    exception: on a service that lets the set-up through and whose polls
    all find another status, as "cancelled" or "expired", the call never
    returns. Whatever the bound on the number of polls, it has made that
    many polls and is still polling, with both context managers open,
    no tool executed and the messages of the thread not asked for. *)
Theorem other_status_polls_forever (env : gmap string string) (service : sdk)
    (chat_history user_query conn_str model : string) (a : agent) (t : thread)
    (r : run) :
  set_up service conn_str a t r →
  env !! "PROJECT_CONNECTION_STRING" = Some conn_str →
  env !! "AGENTS_MODEL_DEPLOYMENT_NAME" = Some model →
  (∀ k, ∃ rk, get_run service k = Reply rk ∧ other_status (run_status rk) = true) →
  ∀ fuel,
    let g := generate_stock_analysis env service fuel chat_history user_query in
    fst g = Polling
    ∧ polls_made (snd g) = fuel
    ∧ executed (snd g) = []
    ∧ List.filter is_list_messages (snd g) = []
    ∧ contexts (snd g) = [EnterCredential; EnterClient conn_str].
Proof.
  intros Hset Hconn Hmodel Hother fuel. cbv zeta.
  destruct (generate_set_up env service fuel chat_history user_query conn_str model
              a t r Hset Hconn Hmodel)
    as (front & back & Htrace & F1 & B1 & F2 & B2 & _ & _ & _ & F5 & F6 & Hresult).
  destruct (monitor_waits service a t fuel r 0 0)
    as (r' & waited & W1 & W2 & W3 & _ & _ & _ & _ & W7).
  { intros k _. exact (Hother k). }
  specialize (W7 0%nat). rewrite Nat.add_0_r in W7. cbn [monitor fst snd] in W7.
  rewrite W7 in Hresult, Htrace. cbn [fst snd] in Hresult, Htrace.
  destruct Hresult as [Hfst Hback]. subst back.
  split; [exact Hfst|].
  rewrite Htrace.
  pose proof (filter_loop_events is_list_messages _ loop_event_not_list W2) as W9.
  pose proof (filter_loop_events is_context _ loop_event_not_context W2) as W10.
  unfold contexts in *.
  rewrite !polls_made_app, !executed_app, !List.filter_app, F1, F2, F5, F6, W1, W3, W9, W10.
  cbn [polls_made executed List.filter length app]. rewrite ?app_nil_r.
  split; [lia|]. repeat split.
Qed.

Lemma other_status_polls_forever_witness :
  let service := mock_sdk (fun _ => mock_run "cancelled" None) "" mock_report in
  let g := generate_stock_analysis mock_env service 7 "" "" in
  fst g = Polling
  ∧ polls_made (snd g) = 7%nat
  ∧ executed (snd g) = []
  ∧ List.filter is_list_messages (snd g) = []
  ∧ contexts (snd g) = [EnterCredential; EnterClient "mock_connection_string"].
Proof.
  intros service g.
  apply (other_status_polls_forever mock_env service "" ""
           "mock_connection_string" "mock_model" mock_agent mock_thread
           (mock_run "queued" None)).
  - split; first [reflexivity | intros; reflexivity].
  - reflexivity.
  - reflexivity.
  - intros k. exists (mock_run "cancelled" None). split; reflexivity.
Defined.

(** *** Tool calls *)

(** X18. One round of tool calls. On a service that lets the set-up
    through, when the first poll finds "requires_action" with the tool
    calls [tool_calls], every execution replies, the submission is
    accepted and the second poll finds "completed", the call executes the
    tool calls in their order, submits once, on the polled run, one
    output for each call, in the same order and under the id of its call,
    and then reads the answer. The first poll asks for the run that was
    created, the second for the run that the first poll returned. *)
Theorem tool_outputs_are_submitted (env : gmap string string) (service : sdk)
    (fuel : nat) (chat_history user_query conn_str model : string) (a : agent)
    (t : thread) (r ra rc : run) (tool_calls : list tool_call)
    (results : nat → tool_call → string) (messages : list message) :
  set_up service conn_str a t r →
  env !! "PROJECT_CONNECTION_STRING" = Some conn_str →
  env !! "AGENTS_MODEL_DEPLOYMENT_NAME" = Some model →
  get_run service 0 = Reply ra →
  run_status ra = "requires_action" →
  required_action ra = Some tool_calls →
  (∀ n call, execute service n call = Reply (results n call)) →
  submit_tool_outputs_to_run service 0 = Reply tt →
  get_run service 1 = Reply rc →
  run_status rc = "completed" →
  list_messages service = Reply messages →
  (2 <= fuel)%nat →
  let g := generate_stock_analysis env service fuel chat_history user_query in
  fst g = fst (first_text messages)
  ∧ executed (snd g) = tool_calls
  ∧ submitted (snd g) = tool_outputs_of results 0 tool_calls
  ∧ In (SubmitToolOutputs (thread_id t) (run_id ra)
          (tool_outputs_of results 0 tool_calls)) (snd g)
  ∧ List.filter is_get_run (snd g) =
      [GetRun (thread_id t) (run_id r); GetRun (thread_id t) (run_id ra)].
Proof.
  intros Hset Hconn Hmodel Hpoll0 Hstatus0 Haction Hexec Hsubmit Hpoll1 Hstatus1
    Hlist Hfuel. cbv zeta.
  destruct (generate_set_up env service fuel chat_history user_query conn_str model
              a t r Hset Hconn Hmodel)
    as (front & back & Htrace & F1 & B1 & F2 & B2 & F3 & B3 & _ & _ & _ & Hresult).
  destruct fuel as [|[|fuel]]; try lia.
  pose proof (monitor_action service a t results (S fuel) r ra tool_calls 0 0
                Hpoll0 Hstatus0 Haction Hexec Hsubmit) as Hturn.
  cbv zeta in Hturn. cbn [Nat.add] in Hturn.
  rewrite (monitor_completed service a t fuel ra rc 1 _ Hpoll1 Hstatus1) in Hturn.
  cbn [fst snd] in Hturn.
  pose proof (execute_tool_calls_spec service a tool_calls [] 0) as Hdone.
  cbv zeta in Hdone. destruct Hdone as (_ & _ & E3 & _ & E5 & _ & E7).
  pose proof (execute_tool_calls_replies service a results tool_calls Hexec [] 0) as Hfst.
  destruct (E7 _ Hfst) as (X1 & _).
  set (done := snd (execute_tool_calls service a tool_calls [] 0)) in *.
  rewrite Hturn in Hresult, Htrace. cbn [fst snd] in Hresult, Htrace.
  destruct Hresult as [Hg Hback].
  destruct (final_response_reply service a t (length tool_calls) messages Hlist)
    as [Hf _].
  split; [rewrite Hg, Hf; reflexivity|].
  split; [rewrite Htrace, !executed_app, F2, B2, X1; cbn; rewrite ?app_nil_r; reflexivity|].
  split; [rewrite Htrace, !submitted_app, F3, B3, E3; cbn; rewrite ?app_nil_r;
          reflexivity|].
  split.
  { rewrite Htrace. apply in_or_app. right. apply in_or_app. left.
    apply in_or_app. right. apply in_or_app. right. left. reflexivity. }
  rewrite Htrace, !List.filter_app.
  rewrite (polls_made_none _ F1), (polls_made_none _ B1), (polls_made_none _ E5).
  reflexivity.
Qed.

Lemma tool_outputs_are_submitted_witness :
  let polls := fun k => match k with
                        | O => mock_run "requires_action" (Some [mock_tool_call])
                        | _ => mock_run "completed" None
                        end in
  let g := generate_stock_analysis mock_env
             (mock_sdk polls "Mock vector search results" mock_report) 2 "" "" in
  fst g = Returned "# Stock Analysis Report"
  ∧ executed (snd g) = [mock_tool_call]
  ∧ submitted (snd g) =
      [{| tool_call_id := "test_tool_call_id"; output := "Mock vector search results" |}]
  ∧ In (SubmitToolOutputs "test_thread_id" "test_run_id"
          [{| tool_call_id := "test_tool_call_id";
              output := "Mock vector search results" |}]) (snd g)
  ∧ List.filter is_get_run (snd g) =
      [GetRun "test_thread_id" "test_run_id"; GetRun "test_thread_id" "test_run_id"].
Proof.
  intros polls g.
  apply (tool_outputs_are_submitted mock_env
           (mock_sdk polls "Mock vector search results" mock_report) 2 "" ""
           "mock_connection_string" "mock_model" mock_agent mock_thread
           (mock_run "queued" None)
           (mock_run "requires_action" (Some [mock_tool_call]))
           (mock_run "completed" None) [mock_tool_call]
           (fun _ _ => "Mock vector search results") mock_report);
    first [reflexivity | lia | intros; reflexivity | idtac].
  split; first [reflexivity | intros; reflexivity].
Defined.

(** X19. A round of tool calls that cannot be carried out ends the
    call. On a service that lets the set-up through and whose first poll
    finds "requires_action": without a required action the call raises
    [AttributeError]; and when the execution of the first tool call
    raises, the call raises that exception. In both cases nothing is
    submitted and the run is not polled again. *)
Theorem broken_tool_round_raises (env : gmap string string) (service : sdk)
    (fuel : nat) (chat_history user_query conn_str model : string) (a : agent)
    (t : thread) (r ra : run) :
  set_up service conn_str a t r →
  env !! "PROJECT_CONNECTION_STRING" = Some conn_str →
  env !! "AGENTS_MODEL_DEPLOYMENT_NAME" = Some model →
  get_run service 0 = Reply ra →
  run_status ra = "requires_action" →
  (1 <= fuel)%nat →
  let g := generate_stock_analysis env service fuel chat_history user_query in
  (required_action ra = None →
     fst g = Raised AttributeError
     ∧ executed (snd g) = [] ∧ submitted (snd g) = [] ∧ polls_made (snd g) = 1%nat)
  ∧ (∀ call rest e,
       required_action ra = Some (call :: rest) →
       execute service 0 call = Fault e →
       fst g = Raised e
       ∧ executed (snd g) = [call] ∧ submitted (snd g) = []
       ∧ polls_made (snd g) = 1%nat).
Proof.
  intros Hset Hconn Hmodel Hpoll Hstatus Hfuel. cbv zeta.
  destruct (generate_set_up env service fuel chat_history user_query conn_str model
              a t r Hset Hconn Hmodel)
    as (front & back & Htrace & F1 & B1 & F2 & B2 & F3 & B3 & _ & _ & _ & Hresult).
  destruct fuel as [|fuel]; [lia|].
  rewrite monitor_step, Hpoll in Hresult, Htrace. cbv zeta in Hresult, Htrace.
  rewrite Hstatus in Hresult, Htrace.
  cbn [String.eqb Ascii.eqb Bool.eqb] in Hresult, Htrace.
  split.
  - intros Haction. rewrite Haction in Hresult, Htrace.
    cbn [fst snd] in Hresult, Htrace. destruct Hresult as [Hg Hback].
    rewrite Htrace, Hg, Hback, !executed_app, !submitted_app, !polls_made_app, F1, F2, F3.
    repeat split.
  - intros call rest e Haction Hexec. rewrite Haction in Hresult, Htrace.
    rewrite execute_tool_calls_cons, Hexec in Hresult, Htrace.
    cbn [fst snd] in Hresult, Htrace. destruct Hresult as [Hg Hback].
    rewrite Htrace, Hg, Hback, !executed_app, !submitted_app, !polls_made_app, F1, F2, F3.
    repeat split.
Qed.

Lemma broken_tool_round_raises_witness :
  let service := mock_sdk (fun _ => mock_run "requires_action" None) "" mock_report in
  let g := generate_stock_analysis mock_env service 3 "" "" in
  fst g = Raised AttributeError
  ∧ executed (snd g) = [] ∧ submitted (snd g) = [] ∧ polls_made (snd g) = 1%nat.
Proof.
  intros service g.
  apply (proj1 (broken_tool_round_raises mock_env service 3 "" ""
                  "mock_connection_string" "mock_model" mock_agent mock_thread
                  (mock_run "queued" None) (mock_run "requires_action" None)
                  ltac:(split; first [reflexivity | intros; reflexivity])
                  eq_refl eq_refl eq_refl eq_refl ltac:(lia))).
  reflexivity.
Defined.

(** ** The witnesses of the properties of every run *)


Lemma tool_calls_are_counted_witness :
  let polls := fun k => match k with
                        | O => mock_run "requires_action"
                                 (Some [mock_tool_call; mock_tool_call])
                        | _ => mock_run "completed" None
                        end in
  let g := generate_stock_analysis mock_env (mock_sdk polls "found" mock_report) 2 "" "" in
  fst g = Returned "# Stock Analysis Report"
  ∧ reported_tool_calls (snd g) = [length (executed (snd g))]
  ∧ length (submitted (snd g)) = length (executed (snd g)).
Proof.
  intros polls g.
  assert (fst g = Returned "# Stock Analysis Report") as Hg by reflexivity.
  split; [exact Hg|].
  exact (tool_calls_are_counted mock_env (mock_sdk polls "found" mock_report) 2 "" "" _ Hg).
Defined.

(** ** The records that open a call *)



